(** * ThinkBot backend: a shallow embedding of the agents and their pipeline

    The development follows the Python sources:
    - [PyStr]          the [str] methods the agents call;
    - [Json], [Py]     parsed JSON values, exceptions, and the world the
                       agents act on (files, the LLM provider, the random
                       generator, the clock);
    - [ProcessorAgent] Agent/processor_agent.py;
    - [ScraperAgent]   Agent/scraper_agent.py;
    - [ValidatorAgent] Agent/validator.py;
    - [EnhancerAgent]  Agent/enhancer_agent.py;
    - [MainAgent]      Agent/main_agent.py;
    - [Api]            api/app.py.

    Texts are modelled by [string], a sequence of 8-bit characters with the
    ASCII reading of [lower], [isdigit], [isspace] and of the classes of
    regular expressions: on a text of ASCII characters the methods of
    [PyStr] are those of Python's [str], and a statement that depends on
    the reading of the characters is made for such texts
    ([Spec.ascii_text]). A Python [float] is modelled by the rational it
    denotes. *)

From Stdlib Require Import ZArith QArith Qround Lqa String Ascii List Lia Permutation
  Sorted.
From stdpp Require Import gmap strings list fin_maps pretty.
Import ListNotations.

Open Scope string_scope.

(* ===================================================================== *)
(** * Python [str] methods *)
(* ===================================================================== *)

Module PyStr.

(** [c.isspace()] on an ASCII character: TAB, LF, VT, FF, CR, the four
    separators FS GS RS US, and SPACE. *)
Definition is_space (c : ascii) : bool :=
  let n := nat_of_ascii c in
  ((9 <=? n) && (n <=? 13) || (28 <=? n) && (n <=? 32))%nat.

(** [c.isdigit()] on an ASCII character: [0] to [9]. *)
Definition is_digit (c : ascii) : bool :=
  let n := nat_of_ascii c in ((48 <=? n) && (n <=? 57))%nat.

(** [c.lower()] on an ASCII character: [A] to [Z] become [a] to [z]. *)
Definition lower_char (c : ascii) : ascii :=
  let n := nat_of_ascii c in
  if ((65 <=? n) && (n <=? 90))%nat then ascii_of_nat (n + 32) else c.

(** [s.lower()] *)
Fixpoint lower (s : string) : string :=
  match s with
  | EmptyString => EmptyString
  | String c s' => String (lower_char c) (lower s')
  end.

Definition is_empty (s : string) : bool :=
  match s with EmptyString => true | _ => false end.

(** [s.lstrip()] *)
Fixpoint lstrip (s : string) : string :=
  match s with
  | EmptyString => EmptyString
  | String c s' => if is_space c then lstrip s' else s
  end.

(** [s.rstrip()] *)
Fixpoint rstrip (s : string) : string :=
  match s with
  | EmptyString => EmptyString
  | String c s' =>
      let r := rstrip s' in
      if is_space c && is_empty r then EmptyString else String c r
  end.

(** [s.strip()] *)
Definition strip (s : string) : string := rstrip (lstrip s).

(** [s.isspace()]: at least one character, and all of them whitespace. *)
Definition isspace (s : string) : bool :=
  negb (is_empty s) && is_empty (lstrip s).

(** [c in chars] for a character and a string used as a set of characters. *)
Fixpoint mem_char (c : ascii) (chars : string) : bool :=
  match chars with
  | EmptyString => false
  | String d chars' => Ascii.eqb c d || mem_char c chars'
  end.

(** [s.lstrip(chars)] *)
Fixpoint lstrip_chars (chars s : string) : string :=
  match s with
  | EmptyString => EmptyString
  | String c s' => if mem_char c chars then lstrip_chars chars s' else s
  end.

(** [s.startswith(p)] *)
Definition startswith (p s : string) : bool := String.prefix p s.

(** [s.endswith(suffix)] *)
Fixpoint endswith (suffix s : string) : bool :=
  String.eqb suffix s
  || match s with
     | EmptyString => false
     | String _ s' => endswith suffix s'
     end.

(** [sub in s] *)
Fixpoint contains (sub s : string) : bool :=
  String.prefix sub s
  || match s with
     | EmptyString => false
     | String _ s' => contains sub s'
     end.

(** [s.split(sep)] for a non-empty [sep]: scan from the left; where [sep]
    starts, close the current piece and skip the separator. [skip] counts
    the characters of a matched separator still to pass over, [cur] holds
    the current piece reversed. *)
Fixpoint split_go (sep : string) (skip : nat) (cur : list ascii) (s : string)
  : list string :=
  match s with
  | EmptyString => [string_of_list_ascii (rev cur)]
  | String c s' =>
      match skip with
      | S k => split_go sep k cur s'
      | O =>
          if String.prefix sep s
          then string_of_list_ascii (rev cur)
               :: split_go sep (String.length sep - 1) [] s'
          else split_go sep 0 (c :: cur) s'
      end
  end.

Definition split (sep s : string) : list string := split_go sep 0 [] s.

(** [s.split()]: the maximal runs of non-whitespace characters. *)
Fixpoint split_ws_go (cur : list ascii) (s : string) : list string :=
  match s with
  | EmptyString =>
      match cur with [] => [] | _ => [string_of_list_ascii (rev cur)] end
  | String c s' =>
      if is_space c
      then match cur with
           | [] => split_ws_go [] s'
           | _ => string_of_list_ascii (rev cur) :: split_ws_go [] s'
           end
      else split_ws_go (c :: cur) s'
  end.

Definition split_ws (s : string) : list string := split_ws_go [] s.

(** [sep.join(parts)] *)
Definition join (sep : string) (parts : list string) : string :=
  String.concat sep parts.

(** [s.replace(old, new)] for a non-empty [old]. *)
Definition replace (old new s : string) : string :=
  join new (split old s).

(** [str(n)] for an [int]. *)
Definition str_of_int (n : Z) : string := pretty n.

End PyStr.

(* ===================================================================== *)
(** * Parsed JSON values *)
(* ===================================================================== *)

Module Json.

#[local] Set Warnings "-register-all".

(** A Python [float]: a finite value (the rational it denotes), an
    infinity or a NaN. *)
Inductive pyfloat :=
| Fin (q : Q)
| Inf (negative : bool)
| NaN.

(** What [json.loads] builds: [None], [bool], [int], [float], [str],
    [list] and [dict] with [str] keys, kept in insertion order. *)
Inductive json :=
| JNull
| JBool (b : bool)
| JInt (n : Z)
| JFloat (f : pyfloat)
| JStr (s : string)
| JList (l : list json)
| JDict (d : list (string * json)).

(** [d.get(k)] on the entries of a dict. *)
Fixpoint dict_get (k : string) (d : list (string * json)) : option json :=
  match d with
  | [] => None
  | (k', v) :: d' => if String.eqb k k' then Some v else dict_get k d'
  end.

(** [k in d] *)
Definition dict_has (k : string) (d : list (string * json)) : bool :=
  match dict_get k d with Some _ => true | None => false end.

(** [d[k] = v]: an existing key keeps its place, a new key goes last. *)
Fixpoint dict_set (k : string) (v : json) (d : list (string * json))
  : list (string * json) :=
  match d with
  | [] => [(k, v)]
  | (k', v') :: d' =>
      if String.eqb k k' then (k, v) :: d' else (k', v') :: dict_set k v d'
  end.

Definition is_dict (j : json) : bool :=
  match j with JDict _ => true | _ => false end.

Definition is_list (j : json) : bool :=
  match j with JList _ => true | _ => false end.

(** [bool(x)] *)
Definition truthy (j : json) : bool :=
  match j with
  | JNull => false
  | JBool b => b
  | JInt n => negb (n =? 0)%Z
  | JFloat (Fin q) => negb (Qeq_bool q 0)
  | JFloat _ => true
  | JStr s => negb (PyStr.is_empty s)
  | JList l => match l with [] => false | _ => true end
  | JDict d => match d with [] => false | _ => true end
  end.

(** [type(x).__name__], as the interpreter's messages spell it. *)
Definition type_name (j : json) : string :=
  match j with
  | JNull => "NoneType"
  | JBool _ => "bool"
  | JInt _ => "int"
  | JFloat _ => "float"
  | JStr _ => "str"
  | JList _ => "list"
  | JDict _ => "dict"
  end.

End Json.

(* ===================================================================== *)
(** * Exceptions, results, and the world the agents act on *)
(* ===================================================================== *)

Module Py.
Import Json.

(** The exception classes the agents can meet. [JSONDecodeError],
    [UnicodeDecodeError] and [UnicodeEncodeError] are subclasses of
    [ValueError]; every class is a subclass of [Exception]. *)
Inductive exn_class :=
| Exception
| ValueError
| JSONDecodeError
| UnicodeDecodeError
| UnicodeEncodeError
| TypeError
| AttributeError
| KeyError
| IndexError
| OverflowError
| OSError
| RequestException.

Definition exn_class_eqb (a b : exn_class) : bool :=
  match a, b with
  | Exception, Exception | ValueError, ValueError
  | JSONDecodeError, JSONDecodeError
  | UnicodeDecodeError, UnicodeDecodeError
  | UnicodeEncodeError, UnicodeEncodeError | TypeError, TypeError
  | AttributeError, AttributeError | KeyError, KeyError
  | IndexError, IndexError | OverflowError, OverflowError
  | OSError, OSError | RequestException, RequestException => true
  | _, _ => false
  end.

(** [issubclass(c, parent)] *)
Definition subclass (c parent : exn_class) : bool :=
  match parent with
  | Exception => true
  | ValueError =>
      match c with
      | ValueError | JSONDecodeError | UnicodeDecodeError
      | UnicodeEncodeError => true
      | _ => false
      end
  | _ => exn_class_eqb c parent
  end.

(** An exception object: its class and [str(e)]. *)
Record exn := mkExn { exn_cls : exn_class; exn_str : string }.

Inductive result (A : Type) :=
| Ok (a : A)
| Raise (e : exn).
Arguments Ok {A} a.
Arguments Raise {A} e.

#[global] Instance result_ret : MRet result := fun A a => Ok a.
#[global] Instance result_bind : MBind result := fun A B f r =>
  match r with Ok a => f a | Raise e => Raise e end.

Definition raise {A} (c : exn_class) (m : string) : result A :=
  Raise (mkExn c m).

(** [try: body  except classes as e: handler e] *)
Definition try_except {A} (body : result A) (classes : list exn_class)
  (handler : exn -> result A) : result A :=
  match body with
  | Ok a => Ok a
  | Raise e =>
      if existsb (subclass (exn_cls e)) classes then handler e else Raise e
  end.

(** ** Subscripts, iteration and conversions on parsed JSON *)

(** [j[k]] for a string key. *)
Definition subscript (j : json) (k : string) : result json :=
  match j with
  | JDict d =>
      match dict_get k d with
      | Some v => Ok v
      | None => raise KeyError ("'" ++ k ++ "'")
      end
  | JList _ =>
      raise TypeError "list indices must be integers or slices, not str"
  | JStr _ => raise TypeError "string indices must be integers, not 'str'"
  | _ => raise TypeError ("'" ++ type_name j ++ "' object is not subscriptable")
  end.

(** [j[0]] *)
Definition subscript0 (j : json) : result json :=
  match j with
  | JList (x :: _) => Ok x
  | JList [] => raise IndexError "list index out of range"
  | JStr (String c _) => Ok (JStr (String c EmptyString))
  | JStr EmptyString => raise IndexError "string index out of range"
  | JDict _ => raise KeyError "0"
  | _ => raise TypeError ("'" ++ type_name j ++ "' object is not subscriptable")
  end.

Fixpoint chars_of (s : string) : list json :=
  match s with
  | EmptyString => []
  | String c s' => JStr (String c EmptyString) :: chars_of s'
  end.

(** [for x in j]: the elements of a list, the characters of a string, the
    keys of a dict; anything else is not iterable. *)
Definition iterate (j : json) : result (list json) :=
  match j with
  | JList l => Ok l
  | JStr s => Ok (chars_of s)
  | JDict d => Ok (map (fun kv => JStr (fst kv)) d)
  | _ => raise TypeError ("'" ++ type_name j ++ "' object is not iterable")
  end.

(** ** The interpreter, the libraries and the system the agents rely on

    [json.loads], [json.dumps], [float] on strings and large integers,
    float arithmetic, the NLTK functions, the creation of a file and the
    encoding of standard output are not part of the repository: they are
    parameters of the model. *)

Inductive parse_result :=
| Parsed (j : json)
| DecodeError (message : string).

Class Runtime := {
  (** [json.loads(s)]; [DecodeError m] stands for a [JSONDecodeError]
      with [str(e) = m]. The other exceptions of [json.loads], for an
      integer of more digits than the interpreter converts and for a
      nesting beyond its recursion limit, are left out. *)
  json_loads : string -> parse_result;
  (** [json.dumps(j, ensure_ascii=False, indent=2)] *)
  json_dumps : json -> string;
  (** [float(s)] for a [str]; [None] is a [ValueError]. *)
  float_of_str : string -> option pyfloat;
  (** [float(n)] for an [int]; [None] is an [OverflowError]. *)
  float_of_int : Z -> option Q;
  (** [x + y] and [x * y] on finite floats. *)
  float_add : Q -> Q -> Q;
  float_mul : Q -> Q -> Q;
  (** [nltk.word_tokenize], membership in [stopwords.words("english")],
      [PorterStemmer().stem], [WordNetLemmatizer().lemmatize]. *)
  word_tokenize : string -> list string;
  stop_word : string -> bool;
  stem : string -> string;
  lemmatize : string -> string;
  (** [open(path, "w")], [open(path, "wb")] and [doc.save(path)] for a path
      that holds no file yet: [None] where the system creates the file,
      and [str(e)] of the [OSError] where it refuses (no such directory,
      no permission). *)
  create_error : string -> option string;
  (** [print(text)]: [None] where the encoding of standard output has
      every character of the text, and [str(e)] of the
      [UnicodeEncodeError] where it lacks one. *)
  print_error : string -> option string
}.

(** ** Files *)

(** What a path holds: a UTF-8 text, or a packaged document with its
    paragraphs. *)
Inductive file :=
| TextFile (content : string)
| DocxFile (paragraphs : list string)
| OdtFile (paragraphs : list string).

(** ** The provider *)

(** What one [requests.post] comes back with: a response with its status
    code and body, or an exception of the transport. *)
Record response := mkResponse { status_code : Z; text : string }.

Inductive outcome :=
| Responds (r : response)
| Fails (message : string).

Inductive event :=
| Post
| Sleep (seconds : Z).

(** ** The world

    The files by path; the provider as the outcomes of its calls in order,
    with the number of calls made so far; the values [random.uniform(-5, 5)]
    returns in order, with the number drawn so far; and the trace of posts
    and sleeps. What is printed is not kept. *)
Record world := mkWorld {
  fs : gmap string file;
  provider : nat -> outcome;
  calls : nat;
  uniform : nat -> Q;
  draws : nat;
  trace : list event
}.

Definition M (A : Type) : Type := world -> result A * world.

#[global] Instance M_ret : MRet M := fun A a w => (Ok a, w).
#[global] Instance M_bind : MBind M := fun A B f m w =>
  match m w with
  | (Ok a, w') => f a w'
  | (Raise e, w') => (Raise e, w')
  end.

(** A computation without effects, run in the world. *)
Definition lift {A} (r : result A) : M A := fun w => (r, w).

Definition throw {A} (c : exn_class) (m : string) : M A :=
  lift (raise c m).

(** [try: body  except classes as e: handler e], the effects of [body] up
    to the exception kept. *)
Definition try_catch {A} (body : M A) (classes : list exn_class)
  (handler : exn -> M A) : M A := fun w =>
  match body w with
  | (Ok a, w') => (Ok a, w')
  | (Raise e, w') =>
      if existsb (subclass (exn_cls e)) classes
      then handler e w' else (Raise e, w')
  end.

(** [requests.post(url, headers=..., data=...)]: the next outcome of the
    provider. What is sent has no part in the control flow and is not
    modelled. *)
Definition requests_post : M response := fun w =>
  let w' := mkWorld (fs w) (provider w) (S (calls w)) (uniform w) (draws w)
                    (trace w ++ [Post]) in
  match provider w (calls w) with
  | Responds r => (Ok r, w')
  | Fails m => (Raise (mkExn RequestException m), w')
  end.

(** [time.sleep(n)] *)
Definition time_sleep (n : Z) : M unit := fun w =>
  (Ok tt, mkWorld (fs w) (provider w) (calls w) (uniform w) (draws w)
                  (trace w ++ [Sleep n])).

(** [random.uniform(-5, 5)] *)
Definition random_uniform : M Q := fun w =>
  (Ok (uniform w (draws w)),
   mkWorld (fs w) (provider w) (calls w) (uniform w) (S (draws w)) (trace w)).

(** [open(path, "r", encoding="utf-8").read()]; a packaged document, a ZIP
    archive, does not decode as UTF-8. *)
Definition read_text (path : string) : M string := fun w =>
  match fs w !! path with
  | Some (TextFile s) => (Ok s, w)
  | Some _ =>
      (raise UnicodeDecodeError "'utf-8' codec can't decode byte", w)
  | None => (raise OSError ("No such file or directory: '" ++ path ++ "'"), w)
  end.

(** Storing a file at a path, as [open(path, "w").write], [doc.save] and
    [open(path, "wb").write] do: a file the path holds is replaced; where
    the path holds none, the file is created, unless the system refuses
    with an [OSError]. *)
Definition store {rt : Runtime} (path : string) (f : file) : M unit := fun w =>
  match fs w !! path, create_error path with
  | None, Some message => (raise OSError message, w)
  | _, _ =>
      (Ok tt, mkWorld (<[path := f]> (fs w)) (provider w) (calls w) (uniform w)
                      (draws w) (trace w))
  end.

(** [print(text)]: it raises [UnicodeEncodeError] where the encoding of
    standard output lacks a character of the text. Every such encoding has
    the ASCII characters, so the prints of ASCII banners and of texts are
    left out of the agents below; the print of a line with a character
    outside ASCII is kept. *)
Definition print {rt : Runtime} (text : string) : M unit := fun w =>
  match print_error text with
  | None => (Ok tt, w)
  | Some message => (raise UnicodeEncodeError message, w)
  end.

(** ** Numbers *)

(** [round(x)] for a finite float: to the nearest integer, a tie to the
    even one. *)
Definition py_round (q : Q) : Z :=
  let f := Qfloor q in
  match Qcompare (q - inject_Z f) (1 # 2) with
  | Lt => f
  | Gt => (f + 1)%Z
  | Eq => if Z.even f then f else (f + 1)%Z
  end.

(** [round(x)] for any float. *)
Definition round_float (x : pyfloat) : result Z :=
  match x with
  | Fin q => Ok (py_round q)
  | Inf _ => raise OverflowError "cannot convert float infinity to integer"
  | NaN => raise ValueError "cannot convert float NaN to integer"
  end.

(** [float(j)] *)
Definition float_of {rt : Runtime} (j : json) : result pyfloat :=
  match j with
  | JInt n =>
      match float_of_int n with
      | Some q => Ok (Fin q)
      | None => raise OverflowError "int too large to convert to float"
      end
  | JBool b => Ok (Fin (if b then 1 else 0))
  | JFloat f => Ok f
  | JStr s =>
      match float_of_str s with
      | Some f => Ok f
      | None =>
          raise ValueError ("could not convert string to float: '" ++ s ++ "'")
      end
  | _ =>
      raise TypeError
        ("float() argument must be a string or a real number, not '"
           ++ type_name j ++ "'")
  end.

(** [lo <= x <= hi] on a float, with [int] bounds. *)
Definition float_between (lo hi : Z) (x : pyfloat) : bool :=
  match x with
  | Fin q => Qle_bool (inject_Z lo) q && Qle_bool q (inject_Z hi)
  | _ => false
  end.

End Py.

(* ===================================================================== *)
(** * Agent/processor_agent.py *)
(* ===================================================================== *)

Module ProcessorAgent.
Import Json Py.

Section WithRuntime.
Context {rt : Runtime}.

(** The characters [re.sub(r"[^a-z0-9\s]", "", text)] keeps, of the ASCII
    characters: the small letters, the digits and the whitespace. *)
Definition kept_char (c : ascii) : bool :=
  let n := nat_of_ascii c in
  ((97 <=? n) && (n <=? 122))%nat || PyStr.is_digit c || PyStr.is_space c.

Fixpoint remove_special (s : string) : string :=
  match s with
  | EmptyString => EmptyString
  | String c s' =>
      if kept_char c then String c (remove_special s') else remove_special s'
  end.

(** [preprocess_text]: lowercase, remove special characters, tokenize,
    remove stopwords, stem, lemmatize, join with single spaces. *)
Definition preprocess_text (text_data : string) : string :=
  let text_data := PyStr.lower text_data in
  let text_data := remove_special text_data in
  let tokens := word_tokenize text_data in
  let tokens := List.filter (fun word => negb (stop_word word)) tokens in
  let stemmed := map stem tokens in
  let lemmatized := map lemmatize stemmed in
  PyStr.join " " lemmatized.

(** [Document(file_path)] and [odf.opendocument.load(file_path)] open a
    package of their own format only. *)
Definition extract_text_from_docx (file_path : string) : M string := fun w =>
  match fs w !! file_path with
  | Some (DocxFile paragraphs) => (Ok (PyStr.join (String "010" "") paragraphs), w)
  | Some _ => (raise Exception ("Package not found at '" ++ file_path ++ "'"), w)
  | None => (raise Exception ("Package not found at '" ++ file_path ++ "'"), w)
  end.

Definition extract_text_from_odt (file_path : string) : M string := fun w =>
  match fs w !! file_path with
  | Some (OdtFile paragraphs) =>
      (Ok (fold_left (fun all_text p => all_text ++ p ++ String "010" "")
                     paragraphs ""), w)
  | Some _ => (raise Exception "File is not a zip file", w)
  | None =>
      (raise OSError ("No such file or directory: '" ++ file_path ++ "'"), w)
  end.

(** [overwrite_file]: the path's extension chooses the format written; the
    document written has the content as its one paragraph. *)
Definition overwrite_file (file_path content : string) : M unit :=
  if PyStr.endswith ".txt" file_path then store file_path (TextFile content)
  else if PyStr.endswith ".docx" file_path
       then store file_path (DocxFile [content])
  else if PyStr.endswith ".odt" file_path
       then store file_path (OdtFile [content])
  else throw ValueError "Unsupported file format for overwrite".

(** The white heavy check mark U+2705 that opens the last line
    [process_file] prints, as its three bytes in UTF-8. *)
Definition check_mark : string := String "226" (String "156" (String "133" "")).

(** [f"<U+2705> File '{file_path}' has been overwritten with preprocessed text."] *)
Definition overwritten_message (file_path : string) : string :=
  check_mark ++ " File '" ++ file_path
    ++ "' has been overwritten with preprocessed text.".

(** [process_file]: read by extension, preprocess, overwrite the same
    path, print that the file has been overwritten, return the
    preprocessed text. The four prints before the file is written show
    two ASCII banners and the two texts. *)
Definition process_file (file_path : string) : M string :=
  raw_text ←
    (if PyStr.endswith ".txt" file_path then read_text file_path
     else if PyStr.endswith ".docx" file_path
          then extract_text_from_docx file_path
     else if PyStr.endswith ".odt" file_path
          then extract_text_from_odt file_path
     else throw ValueError "Unsupported file format");
  let preprocessed := preprocess_text raw_text in
  overwrite_file file_path preprocessed;;
  print (overwritten_message file_path);;
  mret preprocessed.

End WithRuntime.
End ProcessorAgent.

(* ===================================================================== *)
(** * JSON extraction and repair

    [ScraperAgent.query_mistral] and [ValidatorAgent.query_mistral] carry
    the same lines: parse the stripped text; on a [JSONDecodeError] search
    the text with [re.search(r'\{[\s\S]*\}', ...)] and parse the match. *)
(* ===================================================================== *)

Module JsonRepair.
Import Json Py.

Definition open_brace : ascii := "{"%char.
Definition close_brace : ascii := "}"%char.

(** The suffix of [s] that starts at its first opening brace. *)
Fixpoint from_first_open (s : string) : option string :=
  match s with
  | EmptyString => None
  | String c s' => if Ascii.eqb c open_brace then Some s else from_first_open s'
  end.

(** The prefix of [s] that ends at its last closing brace. *)
Fixpoint upto_last_close (s : string) : option string :=
  match s with
  | EmptyString => None
  | String c s' =>
      match upto_last_close s' with
      | Some r => Some (String c r)
      | None =>
          if Ascii.eqb c close_brace then Some (String c EmptyString) else None
      end
  end.

(** [re.search(r'\{[\s\S]*\}', s)]: the leftmost match starts at the first
    opening brace; the starred class is greedy and matches any character,
    so the match runs to the last closing brace of the text. No match when
    no closing brace follows the first opening one. *)
Definition re_search_braces (s : string) : option string :=
  match from_first_open s with
  | Some t => upto_last_close t
  | None => None
  end.

Section WithRuntime.
Context {rt : Runtime}.

(** [json.loads(s)] as a computation that may raise. *)
Definition loads (s : string) : result json :=
  match json_loads s with
  | Parsed j => Ok j
  | DecodeError m => raise JSONDecodeError m
  end.

(** The lines shared by the two agents. *)
Definition extract_json (response_content : string) : result json :=
  try_except (loads (PyStr.strip response_content)) [JSONDecodeError]
    (fun _ =>
       match re_search_braces response_content with
       | Some json_match => loads json_match
       | None => raise ValueError "No valid JSON found in response"
       end).

(** [response.json()["choices"][0]["message"]["content"]] *)
Definition message_content (r : response) : result json :=
  body ← loads (text r);
  choices ← subscript body "choices";
  first ← subscript0 choices;
  message ← subscript first "message";
  subscript message "content".

(** [if not response_content or response_content.isspace(): raise
    ValueError(message)]; a value that is not a [str] and not falsy has no
    [isspace]. *)
Definition require_text (message : string) (response_content : json)
  : result string :=
  if negb (truthy response_content) then raise ValueError message
  else match response_content with
       | JStr s => if PyStr.isspace s then raise ValueError message else Ok s
       | _ =>
           raise AttributeError
             ("'" ++ type_name response_content
                  ++ "' object has no attribute 'isspace'")
       end.

End WithRuntime.

(** The span the specification describes, for comparison with
    [re_search_braces]: the first balanced [{...}] span of the text, found
    by matching braces. [close_at depth s] is the prefix of [s] up to the
    closing brace that brings the nesting depth [S depth] back to zero. *)
Fixpoint close_at (depth : nat) (s : string) : option string :=
  match s with
  | EmptyString => None
  | String c s' =>
      if Ascii.eqb c open_brace
      then option_map (String c) (close_at (S depth) s')
      else if Ascii.eqb c close_brace
           then match depth with
                | O => Some (String c EmptyString)
                | S d => option_map (String c) (close_at d s')
                end
           else option_map (String c) (close_at depth s')
  end.

Fixpoint first_balanced_span (s : string) : option string :=
  match s with
  | EmptyString => None
  | String c s' =>
      if Ascii.eqb c open_brace
      then match close_at 0 s' with
           | Some r => Some (String c r)
           | None => first_balanced_span s'
           end
      else first_balanced_span s'
  end.

End JsonRepair.

(* ===================================================================== *)
(** * The retry loop's steps *)
(* ===================================================================== *)

Module Retry.

(** How one pass of [for attempt in range(max_retries)] ends: [continue]
    and [break] with the [last_error] they leave, or [return]. *)
Inductive step (A : Type) :=
| Continue (last_error : string)
| Break (last_error : string)
| Return (a : A).
Arguments Continue {A} last_error.
Arguments Break {A} last_error.
Arguments Return {A} a.

(** [if attempt < max_retries - 1: time.sleep(seconds)] *)
Definition sleep_unless_last (max_retries : Z) (attempt : nat) (seconds : Z)
  : Py.M unit :=
  if (Z.of_nat attempt <? max_retries - 1)%Z
  then Py.time_sleep seconds else mret tt.

(** [range(max_retries)] *)
Definition range (max_retries : Z) : list nat := seq 0 (Z.to_nat max_retries).

(** [f"{last_error}"]: [None] prints as [None]. *)
Definition show_last_error (last_error : option string) : string :=
  match last_error with Some e => e | None => "None" end.

End Retry.

(* ===================================================================== *)
(** * Agent/scraper_agent.py *)
(* ===================================================================== *)

Module ScraperAgent.
Import Json Py JsonRepair Retry.

Record agent := mkAgent {
  api_key : string;
  file_path : string;
  text_data : string
}.

(** [_load_text] *)
Definition _load_text (file_path : string) : M string :=
  s ← read_text file_path; mret (PyStr.strip s).

(** [ScraperAgent(api_key, file_path)] *)
Definition init (api_key file_path : string) : M agent :=
  text_data ← _load_text file_path;
  mret (mkAgent api_key file_path text_data).

Definition categories : list (string * list string) :=
  [ ("E-commerce", ["shop"; "retail"; "store"; "marketplace"; "commerce"; "sell"]);
    ("FinTech", ["payment"; "finance"; "bank"; "invest"; "money"; "trading"]);
    ("EdTech", ["education"; "learn"; "teach"; "student"; "school"; "course"]);
    ("HealthTech", ["health"; "medical"; "wellness"; "fitness"; "doctor"; "patient"]);
    ("AI/ML", ["ai"; "machine learning"; "artificial intelligence"; "predict"; "automate"]);
    ("SaaS", ["software"; "platform"; "service"; "cloud"; "subscription"]);
    ("Enterprise", ["business"; "enterprise"; "corporate"; "company"; "organization"]);
    ("Consumer", ["user"; "consumer"; "personal"; "individual"; "customer"]);
    ("Mobile", ["app"; "mobile"; "phone"; "ios"; "android"]);
    ("IoT", ["iot"; "device"; "sensor"; "hardware"; "smart home"]) ].

(** [_get_category]: the category with the most keywords found in the
    lowercased description, the first of the table among equals, and
    [General] when no keyword is found. *)
Definition _get_category (description : string) : string :=
  let description := PyStr.lower description in
  snd
    (fold_left
       (fun (best : nat * string) (entry : string * list string) =>
          let matches :=
            length (List.filter (fun keyword => PyStr.contains keyword description)
                                (snd entry)) in
          if (fst best <? matches)%nat then (matches, fst entry) else best)
       categories (0%nat, "General")).

(** [_get_category(idea["idea_description"])] on a parsed value: only a
    [str] has [lower]. *)
Definition category_of (description : json) : result string :=
  match description with
  | JStr s => Ok (_get_category s)
  | _ =>
      raise AttributeError
        ("'" ++ type_name description ++ "' object has no attribute 'lower'")
  end.

(** [min(n, x)] and [max(n, x)] for an [int] and a float: the first
    argument unless the second is strictly smaller (greater). *)
Definition min_int_float (n : Z) (x : Q) : Q :=
  if Qle_bool (inject_Z n) x then inject_Z n else x.

Definition max_int_float (n : Z) (x : Q) : Q :=
  if Qle_bool x (inject_Z n) then inject_Z n else x.

(** [max(85 - (i * 10), 25)] *)
Definition base_similarity (i : nat) : Z := Z.max (85 - Z.of_nat i * 10) 25.

Section WithRuntime.
Context {rt : Runtime}.

(** [round(max(1, min(100, base_similarity + variation)))] *)
Definition similarity_of (i : nat) (variation : Q) : Z :=
  py_round
    (max_int_float 1
       (min_int_float 100 (float_add (inject_Z (base_similarity i)) variation))).

(** The checks that keep an entry of [similar_ideas]: a dict with a truthy
    [idea_name] and a truthy [idea_description]. *)
Definition valid_idea (idea : json) : bool :=
  match idea with
  | JDict d =>
      match dict_get "idea_name" d, dict_get "idea_description" d with
      | Some n, Some ds => truthy n && truthy ds
      | _, _ => false
      end
  | _ => false
  end.

(** The body of [for i, idea in enumerate(valid_ideas)] for one idea: draw
    the variation, store the similarity, then the category (the default of
    [idea.get("category", ...)] is computed before the lookup). *)
Definition enrich (i : nat) (idea : json) : M json :=
  match idea with
  | JDict d =>
      variation ← random_uniform;
      let d := dict_set "similarity" (JInt (similarity_of i variation)) d in
      description ← lift (subscript (JDict d) "idea_description");
      computed ← lift (category_of description);
      let category :=
        match dict_get "category" d with
        | Some c => c
        | None => JStr computed
        end in
      mret (JDict (dict_set "category" category d))
  | _ =>
      throw TypeError
        ("'" ++ type_name idea ++ "' object does not support item assignment")
  end.

Fixpoint enrich_from (i : nat) (valid_ideas : list json) : M (list json) :=
  match valid_ideas with
  | [] => mret []
  | idea :: rest =>
      idea' ← enrich i idea;
      rest' ← enrich_from (S i) rest;
      mret (idea' :: rest')
  end.

(** The statements under [if response.status_code == 200: try:], up to the
    [return] (the value is what [json.dumps] is applied to). *)
Definition handle_ok (r : response) : M json :=
  response_content ←
    lift (c ← message_content r; require_text "Empty response from Mistral API" c);
  data ← lift (extract_json response_content);
  let data := if is_dict data then data else JDict [("similar_ideas", JList [])] in
  let d := match data with JDict d => d | _ => [] end in
  let d := if dict_has "similar_ideas" d then d
           else dict_set "similar_ideas" (JList []) d in
  listed ← lift (subscript (JDict d) "similar_ideas");
  entries ← lift (iterate listed);
  let valid_ideas := List.filter valid_idea entries in
  if (0 <? length valid_ideas)%nat
  then
    enriched ← enrich_from 0 valid_ideas;
    mret (JDict (dict_set "similar_ideas" (JList enriched) d))
  else throw ValueError "No valid ideas found in response".

(** One pass of the loop: the outer [try] around the post and the three
    branches on the status code. *)
Definition attempt_body (max_retries : Z) (attempt : nat) : M (step json) :=
  try_catch
    (response ← requests_post;
     if (status_code response =? 200)%Z then
       try_catch (data ← handle_ok response; mret (Return data))
         [Exception]
         (fun e =>
            sleep_unless_last max_retries attempt (2 ^ Z.of_nat attempt);;
            mret (Continue (exn_str e)))
     else if (status_code response =? 429)%Z then
       sleep_unless_last max_retries attempt (2 ^ Z.of_nat attempt);;
       mret (Continue "Rate limit exceeded")
     else
       mret (Break ("HTTP " ++ PyStr.str_of_int (status_code response)
                            ++ ": " ++ text response)))
    [Exception]
    (fun e =>
       sleep_unless_last max_retries attempt 1;;
       mret (Continue (exn_str e))).

(** The loop over the attempts still to make: the data to return, or the
    [last_error] the loop ends with. (The source keeps the parsed response
    in [data], the variable of the payload, so a pass that follows a parsed
    response posts that response; posts carry no payload here.) *)
Fixpoint attempts (max_retries : Z) (todo : list nat)
  (last_error : option string) : M (json + option string) :=
  match todo with
  | [] => mret (inr last_error)
  | attempt :: rest =>
      s ← attempt_body max_retries attempt;
      match s with
      | Return data => mret (inl data)
      | Break e => mret (inr (Some e))
      | Continue e => attempts max_retries rest (Some e)
      end
  end.

(** The structured error response. *)
Definition error_response (max_retries : Z) (last_error : option string)
  : json :=
  JDict [ ("similar_ideas", JList []);
          ("error",
           JStr ("Failed to get valid response after "
                   ++ PyStr.str_of_int max_retries
                   ++ " attempts. Last error: "
                   ++ show_last_error last_error)) ].

(** [len(str(x).strip()) > 0]: a [str] that is not blank; the text of any
    other value (of [None], a number, a list, a dict) holds a character
    that is no whitespace. *)
Definition shows_text (x : json) : bool :=
  match x with
  | JStr s => negb (PyStr.is_empty (PyStr.strip s))
  | _ => true
  end.

(** The test of [_validate_response] on one idea; [idea.get(key)] is
    [None], which is falsy, for a missing key. *)
Definition response_idea (idea : json) : bool :=
  match idea with
  | JDict d =>
      match dict_get "idea_name" d with
      | Some name =>
          truthy name
          && match dict_get "idea_description" d with
             | Some description =>
                 truthy description && shows_text name && shows_text description
             | None => false
             end
      | None => false
      end
  | _ => false
  end.

(** [_validate_response]: the content is not blank and parses to a dict
    whose [similar_ideas] is a list, not empty, with an idea that passes
    the test. The bare [except] answers [False]. *)
Definition _validate_response (content : string) : bool :=
  if PyStr.is_empty content || PyStr.isspace content then false
  else
    match
      try_except
        (data ← loads (PyStr.strip content);
         match data with
         | JDict d =>
             let similar_ideas :=
               match dict_get "similar_ideas" d with
               | Some v => v
               | None => JList []
               end in
             match similar_ideas with
             | JList [] => Ok false
             | JList ideas => Ok (existsb response_idea ideas)
             | _ => Ok false
             end
         | _ => Ok false
         end)
        [Exception] (fun _ => Ok false)
    with
    | Ok b => b
    | Raise _ => false
    end.

(** [len(x.strip()) > 0]; only a [str] has [strip]. *)
Definition strip_nonempty (x : json) : result bool :=
  match x with
  | JStr s => Ok (negb (PyStr.is_empty (PyStr.strip s)))
  | _ =>
      raise AttributeError
        ("'" ++ type_name x ++ "' object has no attribute 'strip'")
  end.

(** The test of [_validate_mistral_response] on one idea. *)
Definition mistral_idea (idea : json) : result bool :=
  match idea with
  | JDict d =>
      match dict_get "idea_name" d, dict_get "idea_description" d with
      | Some name, Some description =>
          named ← strip_nonempty name;
          if named : bool then strip_nonempty description else Ok false
      | _, _ => Ok false
      end
  | _ => Ok false
  end.

(** [any(test(idea) for idea in ideas)]: the tests run in order, up to the
    first that holds or raises. *)
Fixpoint any_of (test : json -> result bool) (ideas : list json) : result bool :=
  match ideas with
  | [] => Ok false
  | idea :: rest =>
      b ← test idea;
      if b : bool then Ok true else any_of test rest
  end.

(** [_validate_mistral_response] *)
Definition _validate_mistral_response (content : string) : bool :=
  if PyStr.is_empty content || PyStr.isspace content then false
  else
    match
      try_except
        (data ← loads (PyStr.strip content);
         match data with
         | JDict d =>
             let similar_ideas :=
               match dict_get "similar_ideas" d with
               | Some v => v
               | None => JList []
               end in
             match similar_ideas with
             | JList [] => Ok false
             | JList ideas => any_of mistral_idea ideas
             | _ => Ok false
             end
         | _ => Ok false
         end)
        [Exception] (fun _ => Ok false)
    with
    | Ok b => b
    | Raise _ => false
    end.

(** [query_mistral(max_retries)] *)
Definition query_mistral (self : agent) (max_retries : Z) : M string :=
  r ← attempts max_retries (range max_retries) None;
  match r with
  | inl data => mret (json_dumps data)
  | inr last_error => mret (json_dumps (error_response max_retries last_error))
  end.

End WithRuntime.
End ScraperAgent.

(* ===================================================================== *)
(** * Agent/validator.py *)
(* ===================================================================== *)

Module ValidatorAgent.
Import Json Py JsonRepair Retry.

Record agent := mkAgent {
  api_key : string;
  file_path : string;
  text_data : string
}.

Definition _load_text (file_path : string) : M string :=
  s ← read_text file_path; mret (PyStr.strip s).

(** [ValidatorAgent(api_key, file_path)] *)
Definition init (api_key file_path : string) : M agent :=
  text_data ← _load_text file_path;
  mret (mkAgent api_key file_path text_data).

Definition required_scores : list string :=
  [ "uniqueness"; "feasibility"; "market_trend";
    "scalability"; "problem_relevance"; "user_adoption_potential" ].

(** A number as [sum] and [sorted] see it: an [int] (a [bool] counts as
    one) or a [float]. *)
Inductive number :=
| NInt (n : Z)
| NFloat (f : pyfloat).

Definition number_of (j : json) : option number :=
  match j with
  | JInt n => Some (NInt n)
  | JBool b => Some (NInt (if b then 1 else 0))
  | JFloat f => Some (NFloat f)
  | _ => None
  end.

(** [a < b] on numbers: exact between integers and finite floats; every
    comparison with a NaN is false. *)
Definition number_lt (a b : number) : bool :=
  let as_float n := match n with NInt z => Fin (inject_Z z) | NFloat f => f end in
  match as_float a, as_float b with
  | Fin x, Fin y => negb (Qle_bool y x)
  | Fin _, Inf negative => negb negative
  | Inf negative, Fin _ => negative
  | Inf na, Inf nb => na && negb nb
  | _, _ => false
  end.

(** [comp.get("similarity", 0)]; only a dict has [get]. *)
Definition similarity_key (comp : json) : result json :=
  match comp with
  | JDict d =>
      Ok (match dict_get "similarity" d with Some s => s | None => JInt 0 end)
  | _ =>
      raise AttributeError
        ("'" ++ type_name comp ++ "' object has no attribute 'get'")
  end.

Fixpoint keys_of (competitors : list json) : result (list json) :=
  match competitors with
  | [] => Ok []
  | comp :: rest =>
      k ← similarity_key comp; ks ← keys_of rest; mret (k :: ks)
  end.

(** [sum(similarities) / len(similarities)] raises when a similarity is no
    number. The mean only enters the prompt; what the model keeps of it is
    whether computing it raises (the [OverflowError] of a sum beyond the
    range of floats is left out). *)
Fixpoint numbers_of (similarities : list json) : result (list number) :=
  match similarities with
  | [] => Ok []
  | s :: rest =>
      match number_of s with
      | Some n => ns ← numbers_of rest; mret (n :: ns)
      | None =>
          raise TypeError
            ("unsupported operand type(s) for +: 'int' and '"
               ++ type_name s ++ "'")
      end
  end.

(** [sorted(competitors, key=similarity, reverse=True)]: descending, equal
    keys in their original order. The keys are numbers once the sum has
    been taken. *)
Fixpoint insert_desc (x : number * json) (sorted : list (number * json))
  : list (number * json) :=
  match sorted with
  | [] => [x]
  | y :: rest =>
      if number_lt (fst x) (fst y) then y :: insert_desc x rest
      else x :: sorted
  end.

Definition sorted_desc (keyed : list (number * json)) : list json :=
  map snd (fold_right insert_desc [] keyed).

(** [k in data] for a string [k]: a key of a dict, an element of a list, a
    substring of a string; other values are not containers. *)
Definition contains_key (k : string) (data : json) : result bool :=
  match data with
  | JDict d => Ok (dict_has k d)
  | JList l =>
      Ok (existsb (fun x => match x with JStr s => String.eqb s k | _ => false end) l)
  | JStr s => Ok (PyStr.contains k s)
  | _ =>
      raise TypeError
        ("argument of type '" ++ type_name data ++ "' is not iterable")
  end.

Section WithRuntime.
Context {rt : Runtime}.

(** The [try] of [_analyze_competitors]: the three most similar
    competitors, and [[]] when the key is absent or anything raises. *)
Definition top_competitors_of (competitors_json : string)
  : result (list json) :=
  try_except
    (data ← loads competitors_json;
     found ← contains_key "similar_ideas" data;
     if found : bool then
       listed ← subscript data "similar_ideas";
       competitors ← iterate listed;
       similarities ← keys_of competitors;
       keys ← numbers_of similarities;
       mret (firstn 3 (sorted_desc (combine keys competitors)))
     else mret [])
    [Exception]
    (fun _ => Ok []).

(** [_analyze_competitors]: a full run of [ScraperAgent.query_mistral]
    with its default [max_retries], then the selection above. *)
Definition _analyze_competitors (self : agent) : M (list json) :=
  scraper ← ScraperAgent.init (api_key self) (file_path self);
  competitors_json ← ScraperAgent.query_mistral scraper 3;
  lift (top_competitors_of competitors_json).

(** The subscripts of the f-string that builds [competitor_context]; the
    text itself only enters the prompt. *)
Fixpoint competitor_context (top_competitors : list json) : result unit :=
  match top_competitors with
  | [] => Ok tt
  | comp :: rest =>
      subscript comp "idea_name";;
      subscript comp "idea_description";;
      similarity_key comp;;
      competitor_context rest
  end.

(** [_validate_scores]: a dict with a dict of [validation_scores] in which
    every required score converts to a float in [0, 10]. A conversion that
    raises [ValueError] or [TypeError] gives [False]; an [OverflowError]
    is not caught here. *)
Fixpoint check_scores (names : list string) (scores : list (string * json))
  : result bool :=
  match names with
  | [] => Ok true
  | score_name :: rest =>
      match dict_get score_name scores with
      | None => Ok false
      | Some v =>
          ok ← try_except
                 (score_value ← float_of v;
                  mret (float_between 0 10 score_value))
                 [ValueError; TypeError]
                 (fun _ => Ok false);
          if ok : bool then check_scores rest scores else Ok false
      end
  end.

Definition _validate_scores (data : json) : result bool :=
  match data with
  | JDict d =>
      match dict_get "validation_scores" d with
      | Some (JDict scores) => check_scores required_scores scores
      | _ => Ok false
      end
  | _ => Ok false
  end.

(** [for key in scores: scores[key] = round(float(scores[key]))] *)
Fixpoint round_scores (scores : list (string * json))
  : result (list (string * json)) :=
  match scores with
  | [] => Ok []
  | (key, v) :: rest =>
      x ← float_of v;
      n ← round_float x;
      rest' ← round_scores rest;
      mret ((key, JInt n) :: rest')
  end.

(** [sum(scores.values())] once every value is an [int]. *)
Definition sum_values (scores : list (string * json)) : Z :=
  fold_left (fun acc kv => match snd kv with JInt n => acc + n | _ => acc end)%Z
            scores 0%Z.

(** The statements after the extraction: validate, round every score,
    recompute [overall_score]. *)
Definition finish_scores (parsed_data : json) : result json :=
  valid ← _validate_scores parsed_data;
  if valid : bool then
    match parsed_data with
    | JDict d =>
        match dict_get "validation_scores" d with
        | Some (JDict scores) =>
            scores' ← round_scores scores;
            let d := dict_set "validation_scores" (JDict scores') d in
            mret (JDict (dict_set "overall_score" (JInt (sum_values scores')) d))
        | _ => raise TypeError "validation_scores is not a dict"
        end
    | _ => raise TypeError "parsed_data is not a dict"
    end
  else raise ValueError "Invalid score values in response".

(** The statements under [if response.status_code == 200: try:]. The
    first component is the [response_content] the pass assigned, if it got
    that far: the error response reports the last one as [raw_response]. *)
Definition handle_ok (r : response) : option json * result json :=
  match message_content r with
  | Raise e => (None, Raise e)
  | Ok response_content =>
      (Some response_content,
       s ← require_text "Empty response from API" response_content;
       parsed_data ← extract_json s;
       finish_scores parsed_data)
  end.

(** One pass of the loop, with the [response_content] it assigned. *)
Definition attempt_body (max_retries : Z) (attempt : nat)
  : M (step json * option json) :=
  try_catch
    (response ← requests_post;
     if (status_code response =? 200)%Z then
       let (assigned, outcome) := handle_ok response in
       match outcome with
       | Ok data => mret (Return data, assigned)
       | Raise e =>
           sleep_unless_last max_retries attempt (2 ^ Z.of_nat attempt);;
           mret (Continue (exn_str e), assigned)
       end
     else if (status_code response =? 429)%Z then
       sleep_unless_last max_retries attempt (2 ^ Z.of_nat attempt);;
       mret (Continue "Rate limit exceeded", None)
     else
       mret (Break ("HTTP " ++ PyStr.str_of_int (status_code response)
                            ++ ": " ++ text response), None))
    [Exception]
    (fun e =>
       sleep_unless_last max_retries attempt 1;;
       mret (Continue (exn_str e), None)).

(** What the loop ends with: the data to return, or [last_error] and the
    last [response_content] assigned. *)
Inductive loop_end :=
| Returned (data : json)
| Exhausted (last_error : option string) (response_content : option json).

Definition latest {A} (new old : option A) : option A :=
  match new with Some _ => new | None => old end.

Fixpoint attempts (max_retries : Z) (todo : list nat)
  (last_error : option string) (response_content : option json) : M loop_end :=
  match todo with
  | [] => mret (Exhausted last_error response_content)
  | attempt :: rest =>
      pass ← attempt_body max_retries attempt;
      let response_content := latest (snd pass) response_content in
      match fst pass with
      | Return data => mret (Returned data)
      | Break e => mret (Exhausted (Some e) response_content)
      | Continue e => attempts max_retries rest (Some e) response_content
      end
  end.

Definition error_response (max_retries : Z) (last_error : option string)
  (response_content : option json) : json :=
  JDict [ ("validation_scores",
           JDict (map (fun name => (name, JInt 0)) required_scores));
          ("overall_score", JInt 0);
          ("error",
           JStr ("Failed to get valid validation scores after "
                   ++ PyStr.str_of_int max_retries
                   ++ " attempts. Last error: "
                   ++ show_last_error last_error));
          ("raw_response",
           match response_content with Some c => c | None => JNull end) ].

(** [query_mistral(max_retries)]: the competitor context first, then the
    retry loop. *)
Definition query_mistral (self : agent) (max_retries : Z) : M string :=
  top_competitors ← _analyze_competitors self;
  lift (competitor_context top_competitors);;
  r ← attempts max_retries (range max_retries) None None;
  match r with
  | Returned data => mret (json_dumps data)
  | Exhausted last_error response_content =>
      mret (json_dumps (error_response max_retries last_error response_content))
  end.

End WithRuntime.
End ValidatorAgent.

(* ===================================================================== *)
(** * Agent/enhancer_agent.py *)
(* ===================================================================== *)

Module EnhancerAgent.
Import Json Py JsonRepair.

Record agent := mkAgent {
  api_key : string;
  idea_file_path : string;
  model : string
}.

(** [EnhancerAgent(api_key, idea_file_path)] reads no file. *)
Definition init (api_key idea_file_path : string) : agent :=
  mkAgent api_key idea_file_path "mistralai/mistral-7b-instruct".

(** [set(text.lower().split())] *)
Definition word_set (text : string) : gset string :=
  list_to_set (PyStr.split_ws (PyStr.lower text)).

(** [_similarity_score]: the Jaccard similarity of the two word sets. The
    quotient of two counts is kept exact; the float Python computes
    compares with [0.7] as the exact quotient does for any text of fewer
    than 2^49 words. *)
Definition _similarity_score (text1 text2 : string) : Q :=
  if PyStr.is_empty text1 || PyStr.is_empty text2 then 0
  else
    let words1 := word_set text1 in
    let words2 := word_set text2 in
    let intersection := size (words1 ∩ words2) in
    let union := size (words1 ∪ words2) in
    if (0 <? union)%nat
    then Qmake (Z.of_nat intersection) (Pos.of_nat union)
    else 0.

(** [x > y] on floats. *)
Definition float_gt (x y : Q) : bool := negb (Qle_bool x y).

(** [_load_idea] *)
Definition _load_idea (self : agent) : M string :=
  s ← read_text (idea_file_path self); mret (PyStr.strip s).

Definition newline : string := String "010" "".
Definition blank_line : string := String "010" (String "010" "").

(** The characters [lstrip('.-●•○◆◇■□▪️▫️►→')] removes: of the set, the dot
    and the hyphen are the 8-bit ones. *)
Definition bullet_chars : string := ".-".

(** The body of [for line in lines]: the cleaned line, or [None] where the
    loop goes on without appending. *)
Definition clean_line (line : string) : option string :=
  let line := PyStr.strip line in
  if PyStr.is_empty line then None
  else
    let line := PyStr.replace "-" "" (PyStr.replace "*" "" line) in
    let line :=
      match line with
      | String c _ =>
          if PyStr.is_digit c
          then PyStr.strip (PyStr.join "." (tl (PyStr.split "." line)))
          else line
      | EmptyString => line
      end in
    let line := PyStr.strip (PyStr.lstrip_chars bullet_chars line) in
    if PyStr.is_empty line then None else Some line.

(** The cleaned section of one candidate section, or [None] where the loop
    over the sections goes on without it. *)
Definition clean_section (section : string) : option string :=
  if PyStr.is_empty (PyStr.strip section) then None
  else
    let lines := PyStr.split newline section in
    let cleaned_lines := omap clean_line lines in
    match cleaned_lines with
    | [] => None
    | _ => Some (PyStr.join " " cleaned_lines)
    end.

(** The test inside [for seen in list(seen_content)]. *)
Definition near_duplicate (cleaned_section seen : string) : bool :=
  PyStr.contains (PyStr.lower cleaned_section) (PyStr.lower seen)
  || PyStr.contains (PyStr.lower seen) (PyStr.lower cleaned_section)
  || float_gt (_similarity_score cleaned_section seen) (7 # 10).

(** [is_duplicate] after the loop over the set. *)
Definition is_duplicate (seen_content : gset string) (cleaned_section : string)
  : bool :=
  existsb (near_duplicate cleaned_section) (elements seen_content).

(** The end of the loop body: keep a section that is no duplicate, in the
    list and in the set. *)
Definition dedup_step (st : list string * gset string)
  (cleaned_section : string) : list string * gset string :=
  let '(unique_sections, seen_content) := st in
  if is_duplicate seen_content cleaned_section then st
  else ((unique_sections ++ [cleaned_section])%list,
        {[cleaned_section]} ∪ seen_content).

(** The body of [for section in sections]. *)
Definition section_step (st : list string * gset string) (section : string)
  : list string * gset string :=
  match clean_section section with
  | Some cleaned_section => dedup_step st cleaned_section
  | None => st
  end.

(** The loop over cleaned sections alone. *)
Definition dedup (cleaned_sections : list string) : list string :=
  fst (fold_left dedup_step cleaned_sections ([], ∅)).

(** From [sections = content.split('\n\n')] to [cleaned_content]. *)
Definition post_process (content : string) : string :=
  let sections := PyStr.split blank_line content in
  let unique_sections := fst (fold_left section_step sections ([], ∅)) in
  PyStr.join blank_line unique_sections.

Section WithRuntime.
Context {rt : Runtime}.

(** The subscripts of the f-strings that build [comp_str]; the text only
    enters the prompt. *)
Fixpoint comp_str (competitors : list json) : result unit :=
  match competitors with
  | [] => Ok tt
  | c :: rest =>
      subscript c "idea_name";;
      subscript c "idea_description";;
      comp_str rest
  end.

(** [enhance_idea] *)
Definition enhance_idea (self : agent) : M string :=
  idea_text ← _load_idea self;
  scraper ← ScraperAgent.init (api_key self) (idea_file_path self);
  competitors_json ← ScraperAgent.query_mistral scraper 3;
  let competitors :=
    match
      try_except
        (data ← loads competitors_json; subscript data "similar_ideas")
        [Exception] (fun _ => Ok (JList []))
    with
    | Ok c => c
    | Raise _ => JList []
    end in
  lift (cs ← iterate competitors; comp_str cs);;
  resp ← requests_post;
  if (status_code resp =? 200)%Z then
    content ←
      lift (c ← message_content resp;
            match c with
            | JStr s => Ok (PyStr.strip s)
            | _ =>
                raise AttributeError
                  ("'" ++ type_name c ++ "' object has no attribute 'strip'")
            end);
    if PyStr.is_empty content
    then throw ValueError "Empty response from API"
    else mret (post_process content)
  else
    mret ("Error: " ++ PyStr.str_of_int (status_code resp) ++ ", " ++ text resp).

End WithRuntime.
End EnhancerAgent.

(* ===================================================================== *)
(** * Agent/main_agent.py *)
(* ===================================================================== *)

Module MainAgent.
Import Json Py JsonRepair.

Record agent := mkAgent { api_key : string; file_path : string }.

Record score_entry := mkScore {
  score_category : string;
  score : Z;
  explanation : string;
  color : string
}.

Record suggestion_item := mkSuggestion {
  category : string;
  tip : string;
  priority : string
}.

Record competitor_record := mkCompetitor {
  name : json;
  description : json;
  website : json;
  competitor_category : json;
  similarity : pyfloat
}.

(** The dict [run_pipeline] returns. *)
Record pipeline_result := mkResult {
  scores : list score_entry;
  suggestions : list suggestion_item;
  competitors : list competitor_record;
  error : option string
}.

(** [score_mappings]: key, category, color, explanation. *)
Definition score_mappings : list (string * (string * string * string)) :=
  [ ("uniqueness",
     ("Uniqueness", "from-purple-400 to-pink-500",
      "How original the idea is compared to existing solutions"));
    ("feasibility",
     ("Feasibility", "from-green-400 to-emerald-500",
      "Practicality of building and executing the idea"));
    ("market_trend",
     ("Market Trend", "from-blue-400 to-indigo-500",
      "Alignment with current and emerging market trends"));
    ("scalability",
     ("Scalability", "from-orange-400 to-red-500",
      "Ability to expand and grow at larger scale"));
    ("problem_relevance",
     ("Problem Relevance", "from-cyan-400 to-blue-500",
      "Importance of the problem being solved"));
    ("user_adoption_potential",
     ("User Adoption", "from-yellow-400 to-orange-500",
      "Likelihood that users will adopt this solution")) ].

Fixpoint lookup_mapping (key : string)
  (table : list (string * (string * string * string)))
  : option (string * string * string) :=
  match table with
  | [] => None
  | (k, m) :: rest => if String.eqb key k then Some m else lookup_mapping key rest
  end.

(** [enumerate(l)] *)
Fixpoint enumerate_from {A} (i : nat) (l : list A) : list (nat * A) :=
  match l with
  | [] => []
  | x :: rest => (i, x) :: enumerate_from (S i) rest
  end.

Definition enumerate {A} (l : list A) : list (nat * A) := enumerate_from 0 l.

(** [[s.strip().replace(f"{i+1}.", "").strip()
      for i, s in enumerate(suggestions_text.split("\n")) if s.strip()]] *)
Definition suggestions_list (suggestions_text : string) : list string :=
  omap
    (fun '(i, s) =>
       if PyStr.is_empty (PyStr.strip s) then None
       else
         Some
           (PyStr.strip
              (PyStr.replace (PyStr.str_of_int (Z.of_nat i + 1) ++ ".") ""
                 (PyStr.strip s))))
    (enumerate (PyStr.split EnhancerAgent.newline suggestions_text)).

(** ["high" if i < 2 else "medium" if i < 4 else "low"] *)
Definition priority_of (i : nat) : string :=
  if (i <? 2)%nat then "high" else if (i <? 4)%nat then "medium" else "low".

(** The body of [for i, sug in enumerate(suggestions_list)]: the item
    appended, or [None] for an empty [sug]. *)
Definition suggestion_of (entry : nat * string) : option suggestion_item :=
  let '(i, sug) := entry in
  if PyStr.is_empty sug then None
  else Some (mkSuggestion "Enhancement" sug (priority_of i)).

(** The loop over the enumerated list. *)
Definition structure_suggestions (suggestions_text : string)
  : list suggestion_item :=
  omap suggestion_of (enumerate (suggestions_list suggestions_text)).

(** [int(x)] for a float: towards zero. *)
Definition int_of_float (x : pyfloat) : result Z :=
  match x with
  | Fin q => Ok (if Qle_bool 0 q then Qfloor q else Qceiling q)
  | Inf _ => raise OverflowError "cannot convert float infinity to integer"
  | NaN => raise ValueError "cannot convert float NaN to integer"
  end.

Section WithRuntime.
Context {rt : Runtime}.

(** [x * 10] on a float. *)
Definition times_ten (x : pyfloat) : pyfloat :=
  match x with
  | Fin q => Fin (float_mul q 10)
  | other => other
  end.

(** The loop over [val_data["validation_scores"].items()]. *)
Fixpoint score_entries (items : list (string * json))
  : result (list score_entry) :=
  match items with
  | [] => Ok []
  | (key, sc) :: rest =>
      match lookup_mapping key score_mappings with
      | Some (cat, col, expl) =>
          x ← float_of sc;
          n ← int_of_float (times_ten x);
          rest' ← score_entries rest;
          mret (mkScore cat n expl col :: rest')
      | None => score_entries rest
      end
  end.

(** The [try] that structures the validation scores; [[]] when anything
    raises. *)
Definition structure_scores (validation_result : string) : list score_entry :=
  match
    (val_data ← loads validation_result;
     match val_data with
     | JDict d =>
         match dict_get "validation_scores" d with
         | Some (JDict items) => score_entries items
         | Some other =>
             raise AttributeError
               ("'" ++ type_name other ++ "' object has no attribute 'items'")
         | None => Ok []
         end
     | _ => Ok []
     end)
  with
  | Ok l => l
  | Raise _ => []
  end.

(** [competitors]: the parsed text, its [similar_ideas] when it is a dict
    that has them, and [[]] when it is no list. *)
Definition competitors_of (competitors_json : string) : list json :=
  let parsed :=
    match loads competitors_json with Ok j => j | Raise _ => JList [] end in
  match parsed with
  | JDict d =>
      match dict_get "similar_ideas" d with
      | Some (JList l) => l
      | _ => []
      end
  | JList l => l
  | _ => []
  end.

Definition get_default (key : string) (default : json) (d : list (string * json))
  : json :=
  match dict_get key d with Some v => v | None => default end.

(** The loop that structures the competitors; [float(...)] is under no
    [try]. *)
Fixpoint structure_competitors (competitors : list json)
  : result (list competitor_record) :=
  match competitors with
  | [] => Ok []
  | JDict d :: rest =>
      sim ← float_of (get_default "similarity" (JInt 50) d);
      rest' ← structure_competitors rest;
      mret (mkCompetitor (get_default "idea_name" (JStr "Unnamed Competitor") d)
                         (get_default "idea_description" (JStr "") d)
                         (get_default "website" (JStr "") d)
                         (get_default "category" (JStr "General") d)
                         sim :: rest')
  | _ :: rest => structure_competitors rest
  end.

(** [run_pipeline]; its prints show ASCII banners and the texts the
    stages returned. *)
Definition run_pipeline (self : agent) : M pipeline_result :=
  processed_text ← ProcessorAgent.process_file (file_path self);
  scraper ← ScraperAgent.init (api_key self) (file_path self);
  competitors_json ← ScraperAgent.query_mistral scraper 3;
  let competitors := competitors_of competitors_json in
  validator ← ValidatorAgent.init (api_key self) (file_path self);
  validation_result ← ValidatorAgent.query_mistral validator 3;
  let scores := structure_scores validation_result in
  let enhancer := EnhancerAgent.init (api_key self) (file_path self) in
  suggestions_text ← EnhancerAgent.enhance_idea enhancer;
  let suggestions := structure_suggestions suggestions_text in
  structured_competitors ← lift (structure_competitors competitors);
  mret (mkResult scores suggestions structured_competitors None).

End WithRuntime.
End MainAgent.

(* ===================================================================== *)
(** * api/app.py *)
(* ===================================================================== *)

Module Api.
Import Json Py.

(** The uploaded file: its name and what it holds. *)
Record upload := mkUpload { filename : string; body : file }.

(** The dict every [except] clause of the endpoint returns. *)
Definition failure (message : string) : MainAgent.pipeline_result :=
  MainAgent.mkResult [] [] [] (Some message).

Section WithRuntime.
Context {rt : Runtime}.

(** The endpoint [POST /run-pipeline]: the inner [try] has a clause for
    [json.JSONDecodeError] and one for [Exception], the outer one a clause
    for [Exception]. The result of [run_pipeline] has the three expected
    fields, so the check after the call changes nothing. *)
Definition run_pipeline (file : upload) (api_key : string)
  : M MainAgent.pipeline_result :=
  try_catch
    (let file_path := "temp_" ++ filename file in
     store file_path (body file);;
     let main_agent := MainAgent.mkAgent api_key file_path in
     try_catch
       (try_catch (MainAgent.run_pipeline main_agent)
          [JSONDecodeError]
          (fun je => mret (failure ("Invalid JSON response: " ++ exn_str je))))
       [Exception]
       (fun e => mret (failure ("Pipeline error: " ++ exn_str e))))
    [Exception]
    (fun e => mret (failure ("File upload error: " ++ exn_str e))).

End WithRuntime.
End Api.

(* ===================================================================== *)
(** * A reference runtime

    An instance of [Runtime] to run the agents on concrete inputs: a JSON
    reader and writer for texts without [\u] escapes and exponents (the
    messages of its errors are shortened), exact arithmetic for [+] and
    [*], a whitespace tokenizer with a short stop list standing in for
    NLTK, a working directory without subdirectories, and a standard
    output in UTF-8. *)
(* ===================================================================== *)

Module Reference.
Import Json Py.

Definition dquote : ascii := "034"%char.
Definition backslash : ascii := "092"%char.

(** A text with each apostrophe read as a double quote, to write JSON
    texts in examples. *)
Fixpoint jtext (s : string) : string :=
  match s with
  | EmptyString => EmptyString
  | String c s' =>
      String (if Ascii.eqb c "'"%char then dquote else c) (jtext s')
  end.

(** ** Reading *)

Definition json_ws (c : ascii) : bool :=
  let n := nat_of_ascii c in
  ((n =? 32) || (n =? 9) || (n =? 10) || (n =? 13))%nat.

Fixpoint skip_ws (s : string) : string :=
  match s with
  | String c s' => if json_ws c then skip_ws s' else s
  | EmptyString => s
  end.

(** The characters of a string literal after its opening quote, and the
    text after its closing quote. *)
Fixpoint read_string (s : string) : option (string * string) :=
  match s with
  | EmptyString => None
  | String c s' =>
      if Ascii.eqb c dquote then Some (EmptyString, s')
      else if Ascii.eqb c backslash then
        match s' with
        | String e s'' =>
            let unescaped :=
              if Ascii.eqb e "n"%char then Some "010"%char
              else if Ascii.eqb e "t"%char then Some "009"%char
              else if Ascii.eqb e "r"%char then Some "013"%char
              else if Ascii.eqb e "b"%char then Some "008"%char
              else if Ascii.eqb e "f"%char then Some "012"%char
              else if Ascii.eqb e "/"%char then Some "/"%char
              else if Ascii.eqb e dquote then Some dquote
              else if Ascii.eqb e backslash then Some backslash
              else None in
            match unescaped, read_string s'' with
            | Some u, Some (body, rest) => Some (String u body, rest)
            | _, _ => None
            end
        | EmptyString => None
        end
      else if (nat_of_ascii c <? 32)%nat then None
      else match read_string s' with
           | Some (body, rest) => Some (String c body, rest)
           | None => None
           end
  end.

(** The digits at the head of a text: their value, their number, and the
    text after them. *)
Fixpoint read_digits (acc : Z) (count : nat) (s : string) : Z * nat * string :=
  match s with
  | String c s' =>
      if PyStr.is_digit c
      then read_digits (acc * 10 + Z.of_nat (nat_of_ascii c - 48)) (S count) s'
      else (acc, count, s)
  | EmptyString => (acc, count, s)
  end.

(** A number: an optional sign, digits (no leading zero before another
    digit), an optional fraction. *)
Definition read_number (s : string) : option (json * string) :=
  let (negative, s1) :=
    match s with
    | String c s' => if Ascii.eqb c "-"%char then (true, s') else (false, s)
    | EmptyString => (false, s)
    end in
  let '(int_part, n_int, s2) := read_digits 0 0 s1 in
  let leading_zero :=
    match s1 with
    | String c _ => Ascii.eqb c "0"%char && (1 <? n_int)%nat
    | EmptyString => false
    end in
  if (n_int =? 0)%nat || leading_zero then None
  else
    let sign := if negative then (-1)%Z else 1%Z in
    match s2 with
    | String c s3 =>
        if Ascii.eqb c "."%char then
          let '(frac, n_frac, s4) := read_digits 0 0 s3 in
          if (n_frac =? 0)%nat then None
          else
            let den := Z.to_pos (10 ^ Z.of_nat n_frac) in
            Some (JFloat (Fin (Qred (Qmake (sign * (int_part * Zpos den + frac)) den))),
                  s4)
        else Some (JInt (sign * int_part), s2)
    | EmptyString => Some (JInt (sign * int_part), s2)
    end.

(** A literal at the head of a text. *)
Definition read_literal (word : string) (v : json) (s : string)
  : option (json * string) :=
  if String.prefix word s
  then Some (v, String.substring (String.length word)
                                 (String.length s - String.length word) s)
  else None.

(** A value, the elements of a list after its bracket, the members of a
    dict after its brace; [fuel] bounds the nesting and the number of
    items. *)
Fixpoint read_value (fuel : nat) (s : string) : option (json * string) :=
  match fuel with
  | O => None
  | S fuel' =>
      match skip_ws s with
      | EmptyString => None
      | String c rest as t =>
          if Ascii.eqb c "{"%char then
            match skip_ws rest with
            | String c' rest' =>
                if Ascii.eqb c' "}"%char then Some (JDict [], rest')
                else read_members fuel' [] rest
            | EmptyString => None
            end
          else if Ascii.eqb c "["%char then
            match skip_ws rest with
            | String c' rest' =>
                if Ascii.eqb c' "]"%char then Some (JList [], rest')
                else read_elements fuel' [] rest
            | EmptyString => None
            end
          else if Ascii.eqb c dquote then
            match read_string rest with
            | Some (body, rest') => Some (JStr body, rest')
            | None => None
            end
          else if Ascii.eqb c "t"%char then read_literal "true" (JBool true) t
          else if Ascii.eqb c "f"%char then read_literal "false" (JBool false) t
          else if Ascii.eqb c "n"%char then read_literal "null" JNull t
          else read_number t
      end
  end
with read_elements (fuel : nat) (acc : list json) (s : string)
  : option (json * string) :=
  match fuel with
  | O => None
  | S fuel' =>
      match read_value fuel' s with
      | Some (v, rest) =>
          match skip_ws rest with
          | String c rest' =>
              if Ascii.eqb c ","%char then read_elements fuel' (acc ++ [v]) rest'
              else if Ascii.eqb c "]"%char then Some (JList (acc ++ [v]), rest')
              else None
          | EmptyString => None
          end
      | None => None
      end
  end
with read_members (fuel : nat) (acc : list (string * json)) (s : string)
  : option (json * string) :=
  match fuel with
  | O => None
  | S fuel' =>
      match skip_ws s with
      | String q s1 =>
          if Ascii.eqb q dquote then
            match read_string s1 with
            | Some (key, s2) =>
                match skip_ws s2 with
                | String colon s3 =>
                    if Ascii.eqb colon ":"%char then
                      match read_value fuel' s3 with
                      | Some (v, rest) =>
                          match skip_ws rest with
                          | String c rest' =>
                              if Ascii.eqb c ","%char
                              then read_members fuel' (dict_set key v acc) rest'
                              else if Ascii.eqb c "}"%char
                                   then Some (JDict (dict_set key v acc), rest')
                                   else None
                          | EmptyString => None
                          end
                      | None => None
                      end
                    else None
                | EmptyString => None
                end
            | None => None
            end
          else None
      | EmptyString => None
      end
  end.

(** [json.loads]: one value, and nothing but whitespace after it. *)
Definition loads (s : string) : parse_result :=
  match read_value (S (String.length s)) s with
  | Some (v, rest) =>
      if PyStr.is_empty (skip_ws rest) then Parsed v
      else DecodeError "Extra data"
  | None => DecodeError "Expecting value"
  end.

(** ** Writing *)

Definition hex_digit (n : nat) : ascii :=
  if (n <? 10)%nat then ascii_of_nat (48 + n) else ascii_of_nat (87 + n).

Fixpoint escape (s : string) : string :=
  match s with
  | EmptyString => EmptyString
  | String c s' =>
      let n := nat_of_ascii c in
      (if Ascii.eqb c dquote then String backslash (String dquote "")
       else if Ascii.eqb c backslash then String backslash (String backslash "")
       else if (n =? 10)%nat then String backslash "n"
       else if (n =? 13)%nat then String backslash "r"
       else if (n =? 9)%nat then String backslash "t"
       else if (n =? 8)%nat then String backslash "b"
       else if (n =? 12)%nat then String backslash "f"
       else if (n <? 32)%nat
            then String backslash
                   ("u00" ++ String (hex_digit (n / 16))
                                    (String (hex_digit (n mod 16)) ""))
       else String c "")
        ++ escape s'
  end.

Definition quoted (s : string) : string :=
  String dquote (escape s) ++ String dquote "".

(** The least [k] up to [fuel] with [den] dividing [10 ^ k]. *)
Fixpoint decimal_places (fuel : nat) (k : nat) (den : Z) : nat :=
  match fuel with
  | O => k
  | S fuel' =>
      if (10 ^ Z.of_nat k mod den =? 0)%Z then k
      else decimal_places fuel' (S k) den
  end.

Fixpoint pad_zeros (width : nat) (digits : string) : string :=
  match width with
  | O => digits
  | S w =>
      if (String.length digits <? width)%nat
      then String "0"%char (pad_zeros w digits) else digits
  end.

(** [repr(x)] for a finite float with a short decimal expansion. *)
Definition float_repr (q : Q) : string :=
  let q := Qred q in
  let den := Zpos (Qden q) in
  let k := decimal_places 64 0 den in
  let scaled := (Z.abs (Qnum q) * 10 ^ Z.of_nat k / den)%Z in
  let whole := (scaled / 10 ^ Z.of_nat k)%Z in
  let frac := (scaled mod 10 ^ Z.of_nat k)%Z in
  (if (Qnum q <? 0)%Z then "-" else "")
    ++ pretty whole ++ "."
    ++ (if (k =? 0)%nat then "0" else pad_zeros k (pretty frac)).

Fixpoint spaces (n : nat) : string :=
  match n with O => EmptyString | S k => String " "%char (spaces k) end.

(** [json.dumps(j, ensure_ascii=False, indent=2)] at a nesting level. *)
Fixpoint dumps_at (level : nat) (j : json) : string :=
  let inner := String "010" (spaces (2 * S level)) in
  let outer := String "010" (spaces (2 * level)) in
  match j with
  | JNull => "null"
  | JBool b => if b then "true" else "false"
  | JInt n => pretty n
  | JFloat (Fin q) => float_repr q
  | JFloat (Inf negative) => if negative then "-Infinity" else "Infinity"
  | JFloat NaN => "NaN"
  | JStr s => quoted s
  | JList [] => "[]"
  | JList l =>
      "[" ++ inner
          ++ String.concat ("," ++ inner) (map (dumps_at (S level)) l)
          ++ outer ++ "]"
  | JDict [] => "{}"
  | JDict d =>
      "{" ++ inner
          ++ String.concat ("," ++ inner)
               (map (fun kv => quoted (fst kv) ++ ": " ++ dumps_at (S level) (snd kv)) d)
          ++ outer ++ "}"
  end.

Definition dumps (j : json) : string := dumps_at 0 j.

(** ** Numbers *)

(** [float(n)]: exact up to 53 bits, rounded to 53 bits (a tie to even)
    beyond, and an [OverflowError] from 2^1024 on. *)
Definition float_of_int_ref (n : Z) : option Q :=
  let a := Z.abs n in
  let bits := (Z.log2 a + 1)%Z in
  if (bits <=? 53)%Z then Some (inject_Z n)
  else
    let e := (bits - 53)%Z in
    let m := (a / 2 ^ e)%Z in
    let r := (a mod 2 ^ e)%Z in
    let half := (2 ^ (e - 1))%Z in
    let m' := if (r <? half)%Z then m
              else if (half <? r)%Z then (m + 1)%Z
              else if Z.even m then m else (m + 1)%Z in
    let v := (m' * 2 ^ e)%Z in
    if (2 ^ 1024 <=? v)%Z then None else Some (inject_Z (Z.sgn n * v)).

(** [float(s)] for a decimal numeral, [nan], [inf] and [infinity]. *)
Definition float_of_str_ref (s : string) : option pyfloat :=
  let t := PyStr.lower (PyStr.strip s) in
  let (negative, body) :=
    match t with
    | String c t' =>
        if Ascii.eqb c "-"%char then (true, t')
        else if Ascii.eqb c "+"%char then (false, t') else (false, t)
    | EmptyString => (false, t)
    end in
  if String.eqb body "nan" then Some NaN
  else if String.eqb body "inf" || String.eqb body "infinity"
       then Some (Inf negative)
  else
    match read_number body with
    | Some (JInt n, EmptyString) =>
        Some (Fin (inject_Z (if negative then - n else n)))
    | Some (JFloat (Fin q), EmptyString) =>
        Some (Fin (if negative then Qopp q else q))
    | _ => None
    end.

(** ** The stand-in for NLTK *)

Definition stop_list : list string :=
  ["a"; "an"; "and"; "the"; "of"; "to"; "in"; "for"; "with"; "is"; "on"].

Definition runtime : Runtime := {|
  json_loads := loads;
  json_dumps := dumps;
  float_of_str := float_of_str_ref;
  float_of_int := float_of_int_ref;
  float_add := Qplus;
  float_mul := Qmult;
  word_tokenize := PyStr.split_ws;
  stop_word := fun w => existsb (String.eqb w) stop_list;
  stem := fun w => w;
  lemmatize := fun w => w;
  create_error := fun path =>
    if PyStr.contains "/" path
    then Some ("[Errno 2] No such file or directory: '" ++ path ++ "'")
    else None;
  print_error := fun _ => None
|}.

(** The same runtime on a console whose encoding has the ASCII characters
    only. *)
Definition ascii_char (c : ascii) : bool := (nat_of_ascii c <? 128)%nat.

Definition legacy_console : Runtime := {|
  json_loads := loads;
  json_dumps := dumps;
  float_of_str := float_of_str_ref;
  float_of_int := float_of_int_ref;
  float_add := Qplus;
  float_mul := Qmult;
  word_tokenize := PyStr.split_ws;
  stop_word := fun w => existsb (String.eqb w) stop_list;
  stem := fun w => w;
  lemmatize := fun w => w;
  create_error := fun path =>
    if PyStr.contains "/" path
    then Some ("[Errno 2] No such file or directory: '" ++ path ++ "'")
    else None;
  print_error := fun text =>
    if forallb ascii_char (list_ascii_of_string text) then None
    else Some "'charmap' codec can't encode character"
|}.

(** ** Worlds for the examples *)

(** The body of a chat completion whose message has the given content. *)
Definition completion (content : string) : string :=
  dumps (JDict [("choices",
                 JList [JDict [("message", JDict [("content", JStr content)])]])]).

(** A provider that gives the outcomes of a list in order, and fails to
    connect after them. *)
Definition scripted (script : list outcome) : nat -> outcome :=
  fun n => nth n script (Fails "Connection refused").

(** A world with the given files and provider, no jitter, nothing done
    yet. *)
Definition world_of (files : gmap string file) (script : list outcome) : world :=
  mkWorld files (scripted script) 0 (fun _ => 0%Q) 0 [].

End Reference.

(* ===================================================================== *)
(** * Properties as the specification words them *)
(* ===================================================================== *)

Module Spec.


(** ** Texts as the specification speaks of them

    The notions below are defined on the characters themselves, without
    the string methods of [PyStr]. *)


(** A text of ASCII characters. On such a text the methods of [PyStr]
    read as those of Python's [str]. *)
Fixpoint ascii_text (s : string) : bool :=
  match s with
  | EmptyString => true
  | String c s' => (nat_of_ascii c <? 128)%nat && ascii_text s'
  end.

(** The capital letters [A] to [Z], the small letters [a] to [z], the
    digits [0] to [9], and the whitespace characters: TAB, LF, VT, FF, CR,
    FS, GS, RS, US and SPACE. *)
Definition capital (c : ascii) : Prop := (65 <= nat_of_ascii c <= 90)%nat.
Definition small_letter (c : ascii) : Prop := (97 <= nat_of_ascii c <= 122)%nat.
Definition digit (c : ascii) : Prop := (48 <= nat_of_ascii c <= 57)%nat.
Definition blank (c : ascii) : Prop :=
  In (nat_of_ascii c) [9; 10; 11; 12; 13; 28; 29; 30; 31; 32]%nat.

(** A character that is no letter, no digit and no whitespace. *)
Definition special (c : ascii) : Prop :=
  ~ capital c /\ ~ small_letter c /\ ~ digit c /\ ~ blank c.

(** Two characters that are the same but for the case of a letter: the
    small letter of a capital lies 32 places after it. *)
Definition same_letter (c d : ascii) : Prop :=
  c = d
  \/ (capital c /\ nat_of_ascii d = (nat_of_ascii c + 32)%nat)
  \/ (capital d /\ nat_of_ascii c = (nat_of_ascii d + 32)%nat).

(** Two texts that are the same but for the case of their letters. *)
Inductive caseless : string -> string -> Prop :=
| caseless_nil : caseless "" ""
| caseless_cons (c d : ascii) (s t : string) :
    same_letter c d -> caseless s t -> caseless (String c s) (String d t).

(** A text with special characters added to it, anywhere and any
    number of them. *)
Inductive strewn : string -> string -> Prop :=
| strewn_nil : strewn "" ""
| strewn_keep (c : ascii) (s t : string) :
    strewn s t -> strewn (String c s) (String c t)
| strewn_add (c : ascii) (s t : string) :
    special c -> strewn s t -> strewn s (String c t).






(** [clamp(lo, hi, x)] *)
Definition clamp (lo hi x : Z) : Z := Z.max lo (Z.min hi x).

(** No character of [s] is [c]. *)
Fixpoint free_of (c : ascii) (s : string) : Prop :=
  match s with
  | EmptyString => True
  | String d s' => d <> c /\ free_of c s'
  end.

(** [span] runs from the first opening brace of [text] to its last closing
    brace. *)
Definition GreedySpan (text span : string) : Prop :=
  exists pre middle post : string,
    text = pre ++ span ++ post
    /\ span = String JsonRepair.open_brace (middle ++ String JsonRepair.close_brace "")
    /\ free_of JsonRepair.open_brace pre
    /\ free_of JsonRepair.close_brace post.

(** What [process_file] reads from a path by its extension: the text of a
    [.txt] file, the paragraphs of a [.docx] document joined by newlines,
    the paragraphs of an [.odt] document each followed by a newline. *)
Inductive holds (path : string) : Py.file -> string -> Prop :=
| holds_txt (raw : string) :
    PyStr.endswith ".txt" path = true ->
    holds path (Py.TextFile raw) raw
| holds_docx (paragraphs : list string) :
    PyStr.endswith ".txt" path = false ->
    PyStr.endswith ".docx" path = true ->
    holds path (Py.DocxFile paragraphs)
          (PyStr.join EnhancerAgent.newline paragraphs)
| holds_odt (paragraphs : list string) :
    PyStr.endswith ".txt" path = false ->
    PyStr.endswith ".docx" path = false ->
    PyStr.endswith ".odt" path = true ->
    holds path (Py.OdtFile paragraphs)
          (fold_left (fun all_text p => all_text ++ p ++ EnhancerAgent.newline)
                     paragraphs "").

(** The document of the path's format whose text is [content]. *)
Definition rewritten (path content : string) : Py.file :=
  if PyStr.endswith ".txt" path then Py.TextFile content
  else if PyStr.endswith ".docx" path then Py.DocxFile [content]
  else Py.OdtFile [content].

(** The world with its files replaced. *)
Definition with_files (w : Py.world) (files : gmap string Py.file) : Py.world :=
  Py.mkWorld files (Py.provider w) (Py.calls w) (Py.uniform w) (Py.draws w)
             (Py.trace w).

(** The world after a post, and after a sleep. *)
Definition posted (w : Py.world) : Py.world :=
  Py.mkWorld (Py.fs w) (Py.provider w) (S (Py.calls w)) (Py.uniform w)
             (Py.draws w) (Py.trace w ++ [Py.Post]).

Definition slept (seconds : Z) (w : Py.world) : Py.world :=
  Py.mkWorld (Py.fs w) (Py.provider w) (Py.calls w) (Py.uniform w)
             (Py.draws w) (Py.trace w ++ [Py.Sleep seconds]).

(** Two worlds that differ at most in how many variations were drawn. *)
Definition same_but_draws (w w' : Py.world) : Prop :=
  Py.fs w' = Py.fs w /\ Py.provider w' = Py.provider w
  /\ Py.calls w' = Py.calls w /\ Py.uniform w' = Py.uniform w
  /\ Py.trace w' = Py.trace w.

(** The two delays of the retry policy: [2 ** attempt] seconds, and a flat
    second. *)
Inductive backoff := Exponential | Flat.

Definition delay (b : backoff) (attempt : nat) : Z :=
  match b with Exponential => 2 ^ Z.of_nat attempt | Flat => 1 end.

(** The world after a failed pass: a sleep, unless the pass was the last. *)
Definition after_failure (max_retries : Z) (attempt : nat) (b : backoff)
  (w : Py.world) : Py.world :=
  if (Z.of_nat attempt <? max_retries - 1)%Z
  then slept (delay b attempt) w else w.

(** The posts and sleeps of a run of failed passes, from [attempt] on. *)
Fixpoint expected_trace (max_retries : Z) (attempt : nat) (kinds : list backoff)
  : list Py.event :=
  match kinds with
  | [] => []
  | b :: rest =>
      (Py.Post :: (if (Z.of_nat attempt <? max_retries - 1)%Z
                   then [Py.Sleep (delay b attempt)] else []))
        ++ expected_trace max_retries (S attempt) rest
  end.

(** The last error after a run of failures. *)
Definition last_error_after (last_error : option string)
  (failures : list (string * backoff)) : option string :=
  fold_left (fun _ f => Some (fst f)) failures last_error.

(** A status other than 200 and 429, and the error recorded for it. *)
Definition terminal (r : Py.response) : Prop :=
  Py.status_code r <> 200%Z /\ Py.status_code r <> 429%Z.

Definition http_error (r : Py.response) : string :=
  "HTTP " ++ PyStr.str_of_int (Py.status_code r) ++ ": " ++ Py.text r.

(** The values the named scores hold, summed. *)
Definition sum_named (names : list string) (scores : list (string * Json.json))
  : Z :=
  fold_right
    (fun name acc =>
       match Json.dict_get name scores with
       | Some (Json.JInt n) => n + acc
       | _ => acc
       end)%Z
    0%Z names.

Section WithRuntime.
Context {rt : Py.Runtime}.

(** A retryable failure of [ScraperAgent.query_mistral]: an exception of
    the transport, a status 429, or a status 200 whose handling raises (an
    empty body, a JSON repair that fails, no valid entry, ...); with the
    error it leaves and the delay it is followed by. *)
Inductive retryable_failure : Py.outcome -> string -> backoff -> Prop :=
| transport_failure (m : string) :
    retryable_failure (Py.Fails m) m Flat
| rate_limited (r : Py.response) :
    Py.status_code r = 429%Z ->
    retryable_failure (Py.Responds r) "Rate limit exceeded" Exponential
| bad_response (r : Py.response) (e : Py.exn) :
    Py.status_code r = 200%Z ->
    (forall w : Py.world, fst (ScraperAgent.handle_ok r w) = Py.Raise e) ->
    retryable_failure (Py.Responds r) (Py.exn_str e) Exponential.

(** An entry of the scores the model gave and the integer it is rounded
    to: the value of the entry converts to a finite float, and the integer
    is that float rounded, a tie to the even neighbour. *)
Definition rounded_to (entry : string * Json.json) (n : Z) : Prop :=
  exists x : Q,
    Py.float_of (snd entry) = Py.Ok (Json.Fin x) /\ n = Py.py_round x.

(** The entries with their values replaced by the integers. *)
Definition with_values (scores : list (string * Json.json)) (values : list Z)
  : list (string * Json.json) :=
  map (fun p : (string * Json.json) * Z => (fst (fst p), Json.JInt (snd p)))
      (combine scores values).

(** The sum of a list of integers. *)
Definition total (values : list Z) : Z := fold_right Z.add 0%Z values.

(** What a successful validation returns for the parsed data: every entry
    of [validation_scores], required or not, holds the rounding of the
    value the model gave, and [overall_score] is replaced by the sum of
    all these integers; each required score is an integer from 0 to 10;
    and, when the model gave no other score than the required six,
    [overall_score] is the sum of those six. *)
Definition validated (parsed_data data : Json.json) : Prop :=
  exists (d scores : list (string * Json.json)) (values : list Z),
    parsed_data = Json.JDict d
    /\ Json.dict_get "validation_scores" d = Some (Json.JDict scores)
    /\ Forall2 rounded_to scores values
    /\ data
       = Json.JDict
           (Json.dict_set "overall_score" (Json.JInt (total values))
              (Json.dict_set "validation_scores"
                 (Json.JDict (with_values scores values)) d))
    /\ (forall name : string, In name ValidatorAgent.required_scores ->
          exists (v : Json.json) (x : Q),
            Json.dict_get name scores = Some v
            /\ Py.float_of v = Py.Ok (Json.Fin x)
            /\ Json.dict_get name (with_values scores values)
               = Some (Json.JInt (Py.py_round x))
            /\ (0 <= Py.py_round x <= 10)%Z)
    /\ (List.NoDup (map fst scores) ->
        (forall k : string,
            In k (map fst scores) -> In k ValidatorAgent.required_scores) ->
        total values
        = sum_named ValidatorAgent.required_scores (with_values scores values)).

End WithRuntime.

(** The priorities by position: the first two high, the next two medium,
    the rest low. *)
Definition priority_at (position : nat) : string :=
  match position with
  | 0 | 1 => "high"
  | 2 | 3 => "medium"
  | _ => "low"
  end.

(** The number of keywords of a category that occur in the lowercased
    description. *)
Definition keyword_matches (description : string) (keywords : list string) : nat :=
  length (List.filter
            (fun keyword => PyStr.contains keyword (PyStr.lower description))
            keywords).

(** The similarity a competitor is ranked by when it is an integer: the
    value of its [similarity], and 0 without one. *)
Definition similarity_int (comp : Json.json) : Z :=
  match comp with
  | Json.JDict d =>
      match Json.dict_get "similarity" d with
      | Some (Json.JInt n) => n
      | _ => 0%Z
      end
  | _ => 0%Z
  end.

(** A competitor that is a dict with an integer as [similarity], or with
    none. *)
Definition int_similarity (comp : Json.json) : Prop :=
  exists d : list (string * Json.json),
    comp = Json.JDict d
    /\ (Json.dict_get "similarity" d = None
        \/ exists n : Z, Json.dict_get "similarity" d = Some (Json.JInt n)).

(** The text without the occurrences of the character [c]. *)
Fixpoint without (c : ascii) (s : string) : string :=
  match s with
  | EmptyString => EmptyString
  | String d s' => if Ascii.eqb d c then without c s' else String d (without c s')
  end.

(** A text that begins with no whitespace. *)
Definition starts_clean (s : string) : Prop :=
  match s with
  | EmptyString => True
  | String c _ => PyStr.is_space c = false
  end.

(** What the cleaning of the enhancer leaves: a text that is not empty,
    has no whitespace around it, and holds no asterisk, no hyphen and no
    newline. *)
Definition clean_text (s : string) : Prop :=
  s <> ""
  /\ PyStr.strip s = s
  /\ free_of "*"%char s /\ free_of "-"%char s /\ free_of "010"%char s.


(** The kept sections as [run_pipeline] lists them: the section of
    index [k] (counted from [n]) loses the text [<n + 2k + 1>.] wherever
    it holds it, and the whitespace this leaves around it. *)
Fixpoint unnumbered (n : nat) (sections : list string) : list string :=
  match sections with
  | [] => []
  | section :: rest =>
      PyStr.strip
        (PyStr.replace (PyStr.str_of_int (Z.of_nat n + 1) ++ ".") "" section)
        :: unnumbered (S (S n)) rest
  end.

(** The priorities in their order. *)
Definition priority_rank (priority : string) : nat :=
  if String.eqb priority "high" then 0
  else if String.eqb priority "medium" then 1 else 2.

(** A key of [score_mappings]. *)
Definition mapped (entry : string * Json.json) : bool :=
  match MainAgent.lookup_mapping (fst entry) MainAgent.score_mappings with
  | Some _ => true
  | None => false
  end.

(** The document [ScraperAgent.query_mistral] dumps at the end of its
    loop of three attempts: the data of a pass that returned, or the error
    document. *)
Definition scraper_document (res : Json.json + option string) : Json.json :=
  match res with
  | inl data => data
  | inr last_error => ScraperAgent.error_response 3 last_error
  end.

(** A competitor with the two fields the prompts quote. *)
Definition quotable (comp : Json.json) : Prop :=
  exists (d : list (string * Json.json)) (name description : Json.json),
    comp = Json.JDict d
    /\ Json.dict_get "idea_name" d = Some name
    /\ Json.dict_get "idea_description" d = Some description.

(** A computation that returns. *)
Definition succeeds {A} (r : Py.result A) : Prop :=
  match r with Py.Ok _ => True | Py.Raise _ => False end.

(** An entry of the model's list and what [ScraperAgent.query_mistral]
    emits for it: the entry is a dict with a truthy [idea_name] and a
    text, not empty, as [idea_description]; the emitted idea is the entry
    with a [similarity] set and with a [category], the one the model gave
    or, when it gave none, the one computed from the description. *)
Definition enriched_entry (entry idea : Json.json) : Prop :=
  exists (d : list (string * Json.json)) (name : Json.json)
         (description : string) (similarity : Z),
    entry = Json.JDict d
    /\ Json.dict_get "idea_name" d = Some name /\ Json.truthy name = true
    /\ Json.dict_get "idea_description" d = Some (Json.JStr description)
    /\ description <> ""
    /\ idea
       = Json.JDict
           (Json.dict_set "category"
              (match Json.dict_get "category" d with
               | Some category => category
               | None => Json.JStr (ScraperAgent._get_category description)
               end)
              (Json.dict_set "similarity" (Json.JInt similarity) d)).

Section Responses.
Context {rt : Py.Runtime}.

(** An entry of the validation scores and the score [run_pipeline] lists
    for it: the key is one of the six of [score_mappings], the value
    converts to a float, and the score is that float times ten, cut to an
    integer. *)
Definition scored (entry : string * Json.json) (s : MainAgent.score_entry) : Prop :=
  exists (category color explanation : string) (x : Json.pyfloat) (n : Z),
    MainAgent.lookup_mapping (fst entry) MainAgent.score_mappings
    = Some (category, color, explanation)
    /\ Py.float_of (snd entry) = Py.Ok x
    /\ MainAgent.int_of_float (MainAgent.times_ten x) = Py.Ok n
    /\ s = MainAgent.mkScore category n explanation color.

(** A competitor of the scraper's document and the record [run_pipeline]
    lists for it, with the defaults of the fields it lacks. *)
Definition structured (comp : Json.json) (r : MainAgent.competitor_record) : Prop :=
  exists d : list (string * Json.json),
    comp = Json.JDict d
    /\ MainAgent.name r
       = MainAgent.get_default "idea_name" (Json.JStr "Unnamed Competitor") d
    /\ MainAgent.description r
       = MainAgent.get_default "idea_description" (Json.JStr "") d
    /\ MainAgent.website r = MainAgent.get_default "website" (Json.JStr "") d
    /\ MainAgent.competitor_category r
       = MainAgent.get_default "category" (Json.JStr "General") d
    /\ Py.float_of (MainAgent.get_default "similarity" (Json.JInt 50) d)
       = Py.Ok (MainAgent.similarity r).

(** A retryable failure of the loop of [ValidatorAgent.query_mistral]: an
    exception of the transport, a status 429, or a status 200 whose
    handling raises; with the error it leaves and the delay it is followed
    by. *)
Inductive validator_failure : Py.outcome -> string -> backoff -> Prop :=
| validator_transport_failure (m : string) :
    validator_failure (Py.Fails m) m Flat
| validator_rate_limited (r : Py.response) :
    Py.status_code r = 429%Z ->
    validator_failure (Py.Responds r) "Rate limit exceeded" Exponential
| validator_bad_response (r : Py.response) (e : Py.exn) :
    Py.status_code r = 200%Z ->
    snd (ValidatorAgent.handle_ok r) = Py.Raise e ->
    validator_failure (Py.Responds r) (Py.exn_str e) Exponential.

(** An outcome of the provider that gives the validator a response
    content: a response of status 200 whose body holds one. *)
Definition has_content (o : Py.outcome) (content : Json.json) : Prop :=
  exists r : Py.response,
    o = Py.Responds r /\ Py.status_code r = 200%Z
    /\ JsonRepair.message_content r = Py.Ok content.

(** [raw] is the content of the last of the outcomes [first], ...,
    [last - 1] of the provider that gave one, and [None] when none did. *)
Definition last_content (provider : nat -> Py.outcome) (first last : nat)
  (raw : option Json.json) : Prop :=
  (raw = None
   /\ forall (c : nat) (content : Json.json),
        (first <= c < last)%nat -> ~ has_content (provider c) content)
  \/ (exists (c : nat) (content : Json.json),
         (first <= c < last)%nat
         /\ has_content (provider c) content
         /\ raw = Some content
         /\ forall (c' : nat) (content' : Json.json),
              (c < c' < last)%nat -> ~ has_content (provider c') content').

End Responses.

(** What [process_file] reads back from a path after [overwrite_file]
    wrote [content] to it: the content itself from a [.txt] file and from
    a [.docx] document, the content followed by a newline from an [.odt]
    document. *)
Definition read_back (path content : string) : string :=
  if PyStr.endswith ".txt" path then content
  else if PyStr.endswith ".docx" path then content
  else content ++ EnhancerAgent.newline.

End Spec.

(* ===================================================================== *)
(** * Inputs of the examples *)
(* ===================================================================== *)

Module Examples.
Import Json Py Reference.

(** Two suggestion sections that share six words. *)
Definition first_section : string :=
  "Focus on local sellers with same-day delivery".
Definition second_section : string :=
  "Focus on local sellers with same day delivery and marketing".
Definition two_sections : string :=
  first_section ++ EnhancerAgent.blank_line ++ second_section.

(** The first section once cleaned: the hyphen is removed with the
    bullets. *)
Definition first_cleaned : string :=
  "Focus on local sellers with sameday delivery".

(** A model output of four sections, the second of them a bullet that
    holds a bare number. *)
Definition numbered_sections : string :=
  PyStr.join EnhancerAgent.blank_line
    ["Improve onboarding"; "- 3."; "Add a referral program";
     "Partner with schools"].

(** What [enhance_idea] returns for it: the bullet is cleaned to [3.]. *)
Definition numbered_text : string :=
  PyStr.join EnhancerAgent.blank_line
    ["Improve onboarding"; "3."; "Add a referral program";
     "Partner with schools"].

(** An idea file, and model outputs for it. *)
Definition idea_text : string := "An App for Tutors and the Students!".

Definition idea_files : gmap string file :=
  {[ "temp_idea.txt" := TextFile idea_text ]}.

Definition ideas_text : string :=
  jtext "Sure! {'similar_ideas': [{'idea_name': 'Wyzant', 'idea_description': 'Marketplace to learn with a tutor'}, {'idea_name': '', 'idea_description': 'x'}, {'idea_name': 'Preply', 'idea_description': 'Language course platform', 'category': 'Lang'}]}".

Definition scores_text : string :=
  jtext "{'validation_scores': {'uniqueness': 7.5, 'feasibility': 8, 'market_trend': '6.5', 'scalability': 2.5, 'problem_relevance': 9, 'user_adoption_potential': 10}, 'overall_score': 99}".

(** Scores with a seventh dimension the prompt did not ask for. *)
Definition seven_scores_text : string :=
  jtext "{'validation_scores': {'uniqueness': 5, 'feasibility': 5, 'market_trend': 5, 'scalability': 5, 'problem_relevance': 5, 'user_adoption_potential': 5, 'innovation': 7}, 'overall_score': 30}".

(** A text with two JSON objects in it. *)
Definition two_objects_text : string :=
  jtext "Here: {'a': 1} and {'b': 2}".

(** A model output that is a JSON document and nothing else; and one
    whose idea has a number as its name. *)
Definition plain_ideas_text : string :=
  jtext "{'similar_ideas': [{'idea_name': 'Wyzant', 'idea_description': 'Marketplace to learn with a tutor'}]}".

Definition numbered_idea_text : string :=
  jtext "{'similar_ideas': [{'idea_name': 42, 'idea_description': 'Answers'}]}".

(** A document of four competitors, one of them without a similarity. *)
Definition four_competitors_text : string :=
  jtext "{'similar_ideas': [{'idea_name': 'A', 'similarity': 60}, {'idea_name': 'B', 'similarity': 85}, {'idea_name': 'C'}, {'idea_name': 'D', 'similarity': 85}]}".

(** Lines that begin with a digit. *)
Definition decimal_line : string := "2.5x faster growth".
Definition counted_line : string := "3 ways to win".

Definition ok (content : string) : outcome :=
  Responds (mkResponse 200 (completion content)).

Definition scraper : ScraperAgent.agent :=
  ScraperAgent.mkAgent "key" "temp_idea.txt" idea_text.

Definition validator : ValidatorAgent.agent :=
  ValidatorAgent.mkAgent "key" "temp_idea.txt" idea_text.

End Examples.

(* ===================================================================== *)
(** * Facts about the string methods *)
(* ===================================================================== *)

Section StringFacts.
Import PyStr Spec.

Lemma append_cons (c : ascii) (s t : string) :
  String c s ++ t = String c (s ++ t).
Proof. reflexivity. Qed.

Lemma append_nil (t : string) : "" ++ t = t.
Proof. reflexivity. Qed.




End StringFacts.

(* ===================================================================== *)
(** * The string methods and the texts of the specification *)
(* ===================================================================== *)

Section Texts.
Import PyStr Spec.

Lemma append_assoc (a b c : string) : (a ++ b) ++ c = a ++ (b ++ c).
Proof.
  induction a as [|x a IH]; [reflexivity|]. rewrite !append_cons, IH. reflexivity.
Qed.

Lemma append_nil_r (s : string) : s ++ "" = s.
Proof. induction s as [|c s IH]; [reflexivity|]. rewrite append_cons, IH. reflexivity. Qed.



(** ** Characters *)

Lemma lower_char_nat (c : ascii) :
  nat_of_ascii (lower_char c)
  = if ((65 <=? nat_of_ascii c) && (nat_of_ascii c <=? 90))%nat
    then (nat_of_ascii c + 32)%nat else nat_of_ascii c.
Proof.
  unfold lower_char.
  destruct ((65 <=? nat_of_ascii c) && (nat_of_ascii c <=? 90))%nat eqn:Hc;
    [|reflexivity].
  apply andb_true_iff in Hc as [_ Hc]. apply Nat.leb_le in Hc.
  apply nat_ascii_embedding. lia.
Qed.

Lemma nat_of_ascii_inj (c d : ascii) : nat_of_ascii c = nat_of_ascii d -> c = d.
Proof.
  intros Heq. rewrite <- (ascii_nat_embedding c), <- (ascii_nat_embedding d), Heq.
  reflexivity.
Qed.

Lemma capital_iff (c : ascii) :
  ((65 <=? nat_of_ascii c) && (nat_of_ascii c <=? 90))%nat = true <-> capital c.
Proof.
  unfold capital. rewrite andb_true_iff, !Nat.leb_le. reflexivity.
Qed.

Lemma lower_char_same (c d : ascii) :
  lower_char c = lower_char d <-> same_letter c d.
Proof.
  unfold same_letter. split.
  - intros Heq. apply (f_equal nat_of_ascii) in Heq. rewrite !lower_char_nat in Heq.
    destruct ((65 <=? nat_of_ascii c) && (nat_of_ascii c <=? 90))%nat eqn:Hc;
      destruct ((65 <=? nat_of_ascii d) && (nat_of_ascii d <=? 90))%nat eqn:Hd.
    + left. apply nat_of_ascii_inj. lia.
    + right. left. apply capital_iff in Hc. split; [exact Hc | lia].
    + right. right. apply capital_iff in Hd. split; [exact Hd | lia].
    + left. apply nat_of_ascii_inj. exact Heq.
  - intros [-> | [[Hc Hd] | [Hd Hc]]]; [reflexivity| |];
      apply nat_of_ascii_inj; rewrite !lower_char_nat.
    + pose proof (proj2 (capital_iff c) Hc) as ->. unfold capital in Hc.
      destruct ((65 <=? nat_of_ascii d) && (nat_of_ascii d <=? 90))%nat eqn:Hd';
        [apply capital_iff in Hd'; unfold capital in Hd'; lia | lia].
    + pose proof (proj2 (capital_iff d) Hd) as ->. unfold capital in Hd.
      destruct ((65 <=? nat_of_ascii c) && (nat_of_ascii c <=? 90))%nat eqn:Hc';
        [apply capital_iff in Hc'; unfold capital in Hc'; lia | lia].
Qed.


Lemma lower_char_small (c : ascii) : ~ capital c -> lower_char c = c.
Proof.
  intros Hc. apply nat_of_ascii_inj. rewrite lower_char_nat.
  destruct ((65 <=? nat_of_ascii c) && (nat_of_ascii c <=? 90))%nat eqn:Hc';
    [apply capital_iff in Hc'; contradiction | reflexivity].
Qed.

Lemma is_space_blank (c : ascii) : is_space c = true <-> blank c.
Proof.
  unfold is_space, blank. cbv zeta. simpl In.
  rewrite orb_true_iff, !andb_true_iff, !Nat.leb_le. lia.
Qed.


(** ** Lowering a text *)


Lemma lower_caseless (a b : string) : lower a = lower b <-> caseless a b.
Proof.
  revert b. induction a as [|c a IH]; intros [|d b]; simpl.
  - split; [constructor | reflexivity].
  - split; [discriminate | intros H; inversion H].
  - split; [discriminate | intros H; inversion H].
  - split.
    + intros Heq. injection Heq as Hc Hrest.
      constructor; [apply lower_char_same, Hc | apply IH, Hrest].
    + intros H. inversion H as [|? ? ? ? Hc Hrest]; subst.
      apply lower_char_same in Hc. apply IH in Hrest. congruence.
Qed.







(** ** The words of a text *)








End Texts.


(* ===================================================================== *)
(** * IdeaEnhancer: deduplication of the sections *)
(* ===================================================================== *)

Section Dedup.
Import PyStr Spec EnhancerAgent.

Lemma word_set_empty : word_set "" = ∅.
Proof. reflexivity. Qed.









Lemma fold_sublist sections st :
  exists kept, fst (fold_left dedup_step sections st) = (fst st ++ kept)%list
               /\ sublist kept sections.
Proof.
  revert st. induction sections as [|s sections IH]; intros st; simpl.
  - exists []. rewrite app_nil_r. split; [reflexivity | constructor].
  - destruct (IH (dedup_step st s)) as [kept [Hfst Hsub]].
    destruct st as [unique seen]. unfold dedup_step in *. simpl in *.
    destruct (is_duplicate seen s); simpl in *.
    + exists kept. split; [exact Hfst | apply sublist_cons, Hsub].
    + exists (s :: kept). rewrite Hfst, <- app_assoc. split; [reflexivity|].
      apply sublist_skip, Hsub.
Qed.

Lemma dedup_sublist (sections : list string) : sublist (dedup sections) sections.
Proof.
  destruct (fold_sublist sections ([], ∅)) as [kept [Hfst Hsub]].
  unfold dedup. rewrite Hfst. exact Hsub.
Qed.

(** The loop of [enhance_idea] cleans each section and hands the cleaned
    ones to the deduplication, in order. *)
Lemma fold_section_step (sections : list string) (st : list string * gset string) :
  fold_left section_step sections st
  = fold_left dedup_step (omap clean_section sections) st.
Proof.
  revert st. induction sections as [|s sections IH]; intros st; simpl; [reflexivity|].
  unfold section_step at 2. destruct (clean_section s); simpl; apply IH.
Qed.

Lemma post_process_dedup (content : string) :
  post_process content
  = PyStr.join blank_line
      (dedup (omap clean_section (PyStr.split blank_line content))).
Proof. unfold post_process, dedup. rewrite fold_section_step. reflexivity. Qed.


End Dedup.


Section DedupExamples.
Import PyStr Spec EnhancerAgent.

(** A run of the deduplication: the second section contains the first, the
    third repeats the words of the first, the fourth is new. *)
Example dedup_example :
  dedup ["Add a mobile app"; "We should add a mobile app today";
         "app mobile a add"; "Offer student discounts"]
  = ["Add a mobile app"; "Offer student discounts"].
Proof. vm_compute. reflexivity. Qed.

(** C8, as the code has it. The two sections of the specification's
    example are both kept. Cleaning removes the hyphen of the first; the
    word sets then share 6 of 11 words, a similarity of 6/11 that does not
    exceed 0.7, and neither section contains the other. *)
Theorem two_sections_both_kept :
  post_process Examples.two_sections
  = Examples.first_cleaned ++ blank_line ++ Examples.second_section
  /\ clean_section Examples.first_section = Some Examples.first_cleaned
  /\ _similarity_score Examples.second_section Examples.first_cleaned = 6 # 11
  /\ _similarity_score Examples.second_section Examples.first_section = 6 # 11
  /\ near_duplicate Examples.second_section Examples.first_cleaned = false.
Proof. vm_compute. repeat split. Qed.

(** C8, as the specification words it, fails: the second section is in
    what the post-processing returns. *)
Lemma second_section_not_dropped :
  PyStr.contains Examples.second_section (post_process Examples.two_sections)
  = true
  /\ dedup [Examples.first_cleaned; Examples.second_section]
     = [Examples.first_cleaned; Examples.second_section].
Proof. vm_compute. split; reflexivity. Qed.

End DedupExamples.

(* ===================================================================== *)
(** * PipelineOrchestrator: the priorities of the suggestions *)
(* ===================================================================== *)

Section Suggestions.
Import PyStr Spec MainAgent.
Context {rt : Py.Runtime}.

Lemma priority_of_at (i : nat) : priority_of i = priority_at i.
Proof. do 4 (destruct i as [|i]; [reflexivity|]). reflexivity. Qed.

(** Each item comes from a line of [suggestions_list]; the index of the
    line is the position of the item plus the number of empty lines before
    it. *)
Lemma emitted_from (l : list string) (n k : nat) (item : suggestion_item) :
  omap suggestion_of (enumerate_from n l) !! k = Some item ->
  exists j : nat,
    l !! j = Some (tip item)
    /\ is_empty (tip item) = false
    /\ category item = "Enhancement"
    /\ priority item = priority_of (n + j)
    /\ j = (k + length (List.filter is_empty (take j l)))%nat.
Proof.
  revert n k. induction l as [|x l IH]; intros n k Hk; simpl in Hk.
  - discriminate.
  - destruct (is_empty x) eqn:Hx.
    + destruct (IH _ _ Hk) as [j [Hj [Hne [Hc [Hp Hcount]]]]].
      exists (S j). simpl. rewrite Hx. simpl.
      repeat split; try assumption.
      * rewrite Hp. f_equal. lia.
      * lia.
    + destruct k as [|k]; simpl in Hk.
      * injection Hk as <-. exists 0%nat. simpl.
        repeat split; try assumption. f_equal. lia.
      * destruct (IH _ _ Hk) as [j [Hj [Hne [Hc [Hp Hcount]]]]].
        exists (S j). simpl. rewrite Hx.
        repeat split; try assumption.
        -- rewrite Hp. f_equal. lia.
        -- lia.
Qed.

Lemma filter_none (l : list string) :
  Forall (fun s => is_empty s = false) l -> List.filter is_empty l = [].
Proof.
  induction 1 as [|x l Hx _ IH]; simpl; [reflexivity|]. rewrite Hx. exact IH.
Qed.

(** What [run_pipeline] returns as suggestions is the structure of the
    text [enhance_idea] returned. *)
Lemma run_pipeline_suggestions (self : agent) (w w' : Py.world)
  (r : pipeline_result) :
  run_pipeline self w = (Py.Ok r, w') ->
  exists (suggestions_text : string) (w5 w6 : Py.world),
    EnhancerAgent.enhance_idea
      (EnhancerAgent.init (api_key self) (file_path self)) w5
    = (Py.Ok suggestions_text, w6)
    /\ suggestions r = structure_suggestions suggestions_text.
Proof.
  unfold run_pipeline. unfold mbind at 1, Py.M_bind.
  destruct (ProcessorAgent.process_file _ w) as [[processed|e] w1]; [|discriminate].
  unfold mbind at 1, Py.M_bind.
  destruct (ScraperAgent.init _ _ w1) as [[scraper|e] w2]; [|discriminate].
  unfold mbind at 1, Py.M_bind.
  destruct (ScraperAgent.query_mistral scraper 3 w2) as [[cj|e] w3]; [|discriminate].
  unfold mbind at 1, Py.M_bind.
  destruct (ValidatorAgent.init _ _ w3) as [[validator|e] w4]; [|discriminate].
  unfold mbind at 1, Py.M_bind.
  destruct (ValidatorAgent.query_mistral validator 3 w4) as [[vr|e] w5]; [|discriminate].
  unfold mbind at 1, Py.M_bind.
  destruct (EnhancerAgent.enhance_idea _ w5) as [[text|e] w6] eqn:He; [|discriminate].
  unfold mbind at 1, Py.M_bind, Py.lift.
  destruct (structure_competitors _) as [cs|e]; [|discriminate].
  intros Heq. injection Heq as <- <-. exists text, w5, w6. split; [exact He | reflexivity].
Qed.

(** C9, as the code has it. The suggestions [run_pipeline] returns are
    built from the lines of the text of [enhance_idea], and the priority
    of an item is fixed by the index [i] its line has in
    [suggestions_list] (the non-blank lines of the text, numbering
    removed): high for 0 and 1, medium for 2 and 3, low beyond, whatever
    the text. That index is the position of the item in the result plus
    the number of earlier lines the numbering removal left empty; it is
    the position itself when no line was left empty. *)
Theorem priority_by_line_index (suggestions_text : string) (k : nat)
  (item : suggestion_item) :
  structure_suggestions suggestions_text !! k = Some item ->
  (exists i : nat,
      suggestions_list suggestions_text !! i = Some (tip item)
      /\ category item = "Enhancement"
      /\ priority item = priority_at i
      /\ i = (k + length (List.filter is_empty
                            (take i (suggestions_list suggestions_text))))%nat
      /\ (Forall (fun s => is_empty s = false) (suggestions_list suggestions_text)
          -> i = k))
  /\ forall (self : agent) (w w' : Py.world) (r : pipeline_result),
       run_pipeline self w = (Py.Ok r, w') ->
       exists (text : string) (w5 w6 : Py.world),
         EnhancerAgent.enhance_idea
           (EnhancerAgent.init (api_key self) (file_path self)) w5
         = (Py.Ok text, w6)
         /\ suggestions r = structure_suggestions text.
Proof.
  intros Hk. split; [|apply run_pipeline_suggestions].
  destruct (emitted_from _ 0 _ _ Hk) as [j [Hj [Hne [Hc [Hp Hcount]]]]].
  exists j. rewrite <- priority_of_at. repeat split; try assumption.
  intros Hall. rewrite filter_none in Hcount; [simpl in Hcount; lia|].
  apply Forall_take, Hall.
Qed.

End Suggestions.

(** The text [enhance_idea] returns for a model output whose second
    section is the bullet [- 3.]: the item at position 1 comes from the
    line of index 2. *)
Lemma priority_by_line_index_witness :
  EnhancerAgent.post_process Examples.numbered_sections = Examples.numbered_text
  /\ MainAgent.structure_suggestions Examples.numbered_text !! 1%nat
     = Some (MainAgent.mkSuggestion "Enhancement" "Add a referral program" "medium")
  /\ exists i : nat,
       MainAgent.suggestions_list Examples.numbered_text !! i
       = Some "Add a referral program"
       /\ "Enhancement" = "Enhancement"
       /\ "medium" = Spec.priority_at i
       /\ i = (1 + length (List.filter PyStr.is_empty
                             (take i (MainAgent.suggestions_list Examples.numbered_text))))%nat
       /\ (Forall (fun s => PyStr.is_empty s = false)
                  (MainAgent.suggestions_list Examples.numbered_text)
           -> i = 1%nat).
Proof.
  split; [vm_compute; reflexivity|]. split; [vm_compute; reflexivity|].
  exact (proj1 (priority_by_line_index (rt := Reference.runtime)
                  Examples.numbered_text 1
                  (MainAgent.mkSuggestion "Enhancement" "Add a referral program" "medium")
                  eq_refl)).
Defined.

(** C9, as the specification words it, fails: the model answers the
    enhancer with four sections, the second the bullet [- 3.]. Its line,
    [3.], is the third line of the text and is emptied by the removal of
    the numbering [3.]; it is skipped, and the item at position 1 of the
    suggestions of [run_pipeline] has priority medium. *)
Lemma second_item_is_medium :
  match
    fst (MainAgent.run_pipeline (rt := Reference.runtime)
           (MainAgent.mkAgent "key" "temp_idea.txt")
           (Reference.world_of Examples.idea_files
              [ Examples.ok Examples.ideas_text;
                Examples.ok Examples.ideas_text;
                Examples.ok Examples.scores_text;
                Examples.ok Examples.ideas_text;
                Examples.ok Examples.numbered_sections ]))
  with
  | Py.Ok r => Some (MainAgent.suggestions r)
  | Py.Raise _ => None
  end
  = Some [ MainAgent.mkSuggestion "Enhancement" "Improve onboarding" "high";
           MainAgent.mkSuggestion "Enhancement" "Add a referral program" "medium";
           MainAgent.mkSuggestion "Enhancement" "Partner with schools" "medium" ]
  /\ Spec.priority_at 1 = "high".
Proof. vm_compute. split; reflexivity. Qed.

(** With no emptied line, the priorities follow the positions. *)
Example priorities_in_order :
  map MainAgent.priority
      (MainAgent.structure_suggestions
         (PyStr.join EnhancerAgent.blank_line ["A"; "B"; "C"; "D"; "E"]))
  = ["high"; "high"; "medium"; "medium"; "low"].
Proof. vm_compute. reflexivity. Qed.

(* ===================================================================== *)
(** * TextNormalizer: the file is overwritten in place *)
(* ===================================================================== *)

Section Processor.
Import PyStr Spec Py ProcessorAgent.
Context {rt : Runtime}.

(** What [process_file] does up to its last print: on a path that holds
    a document of the format its extension names, it stores the
    preprocessed text under the same path; on any other path it raises,
    and leaves the world as it is. *)
Lemma process_file_run (file_path : string) (w : world) :
  (exists (f : file) (raw : string),
      fs w !! file_path = Some f
      /\ holds file_path f raw
      /\ process_file file_path w
         = (print (overwritten_message file_path);; mret (preprocess_text raw))
             (with_files w
                (<[file_path := rewritten file_path (preprocess_text raw)]> (fs w))))
  \/ ((forall (f : file) (raw : string),
         fs w !! file_path = Some f -> ~ holds file_path f raw)
      /\ exists e : exn,
           process_file file_path w = (Raise e, w)
           /\ exn_cls e <> JSONDecodeError
           /\ exn_cls e <> UnicodeEncodeError
           /\ exn_str e <> "Unsupported file format for overwrite"
           /\ (endswith ".txt" file_path = false ->
               endswith ".docx" file_path = false ->
               endswith ".odt" file_path = false ->
               e = mkExn ValueError "Unsupported file format")).
Proof.
  unfold process_file, overwrite_file, rewritten, with_files.
  destruct (endswith ".txt" file_path) eqn:Htxt;
    [|destruct (endswith ".docx" file_path) eqn:Hdocx;
      [|destruct (endswith ".odt" file_path) eqn:Hodt]].
  all: destruct (fs w !! file_path) as [[raw|ps|ps]|] eqn:Hf.
  all: try (left; eexists _, _; split; [reflexivity|];
            split; [constructor; assumption|];
            unfold mbind at 1, M_bind at 1;
            unfold read_text, extract_text_from_docx, extract_text_from_odt;
            rewrite Hf; unfold mbind at 1, M_bind at 1, store; simpl fs;
            rewrite Hf; reflexivity).
  all: right; split;
    [intros f raw' Heq Hholds; inversion Hholds; subst; congruence|].
  all: unfold mbind at 1, M_bind at 1;
    unfold read_text, extract_text_from_docx, extract_text_from_odt, throw, lift, raise;
    rewrite ?Hf.
  all: eexists; split; [reflexivity|].
  all: split; [discriminate|]; split; [discriminate|].
  all: split; [|intros; try discriminate; reflexivity].
  all: simpl; try discriminate.
  all: intros Hm; apply (f_equal String.length) in Hm;
    rewrite ?length_app in Hm; simpl in Hm; lia.
Qed.

(** [process_file] succeeds exactly on a path that holds a document of the
    format its extension names, when standard output takes the line of
    its last print; and then stores the preprocessed text under the same
    path. *)
Lemma process_file_iff (file_path : string) (w w' : world)
  (preprocessed : string) :
  process_file file_path w = (Ok preprocessed, w')
  <-> exists (f : file) (raw : string),
        fs w !! file_path = Some f
        /\ holds file_path f raw
        /\ print_error (overwritten_message file_path) = None
        /\ preprocessed = preprocess_text raw
        /\ w' = with_files w (<[file_path := rewritten file_path preprocessed]> (fs w)).
Proof.
  destruct (process_file_run file_path w)
    as [(f & raw & Hf & Hholds & ->) | (Hnone & e & -> & _)].
  - unfold mbind, M_bind, print, mret, M_ret, raise.
    destruct (print_error (overwritten_message file_path)) as [message|]; split.
    + discriminate.
    + intros (f' & raw' & _ & _ & Hp & _). discriminate Hp.
    + intros Heq. injection Heq as <- <-. exists f, raw. repeat split; assumption.
    + intros (f' & raw' & Hf' & Hholds' & _ & -> & ->).
      rewrite Hf in Hf'. injection Hf' as <-.
      assert (raw' = raw) as ->; [|reflexivity].
      inversion Hholds; subst; inversion Hholds'; subst; congruence.
  - split; [discriminate|].
    intros (f & raw & Hf & Hholds & _). destruct (Hnone f raw Hf Hholds).
Qed.


End Processor.


(* ===================================================================== *)
(** * Running the computations *)
(* ===================================================================== *)

Section Monad.
Import Py Spec.

Lemma subclass_exception (c : exn_class) : subclass c Exception = true.
Proof. reflexivity. Qed.

Lemma try_catch_all {A} (body : M A) (handler : exn -> M A) (w : world) :
  try_catch body [Exception] handler w
  = match body w with
    | (Ok a, w') => (Ok a, w')
    | (Raise e, w') => handler e w'
    end.
Proof. unfold try_catch. destruct (body w) as [[a|e] w']; reflexivity. Qed.

Lemma bind_run {A B} (m : M A) (f : A -> M B) (w : world) :
  (m ≫= f) w
  = match m w with
    | (Ok a, w') => f a w'
    | (Raise e, w') => (Raise e, w')
    end.
Proof. reflexivity. Qed.

Lemma lift_run {A} (r : result A) (w : world) : lift r w = (r, w).
Proof. reflexivity. Qed.

Lemma ret_run {A} (a : A) (w : world) : (mret a : M A) w = (Ok a, w).
Proof. reflexivity. Qed.

Lemma same_but_draws_refl w : same_but_draws w w.
Proof. repeat split. Qed.

Lemma same_but_draws_trans w1 w2 w3 :
  same_but_draws w1 w2 -> same_but_draws w2 w3 -> same_but_draws w1 w3.
Proof. unfold same_but_draws. intuition congruence. Qed.

Lemma requests_post_run (w : world) :
  requests_post w
  = match provider w (calls w) with
    | Responds r => (Ok r, posted w)
    | Fails m => (Raise (mkExn RequestException m), posted w)
    end.
Proof. reflexivity. Qed.

End Monad.

(* ===================================================================== *)
(** * Parsed values: dicts and rounding *)
(* ===================================================================== *)

Section Dict.
Import Json.

Lemma dict_get_set_eq (k : string) (v : json) (d : list (string * json)) :
  dict_get k (dict_set k v d) = Some v.
Proof.
  induction d as [|[k' v'] d IH]; simpl.
  - rewrite String.eqb_refl. reflexivity.
  - destruct (String.eqb k k') eqn:Hk; simpl.
    + rewrite String.eqb_refl. reflexivity.
    + rewrite Hk. exact IH.
Qed.

Lemma dict_get_set_ne (k k' : string) (v : json) (d : list (string * json)) :
  k <> k' -> dict_get k (dict_set k' v d) = dict_get k d.
Proof.
  intros Hne. induction d as [|[k0 v0] d IH]; simpl.
  - apply String.eqb_neq in Hne. rewrite Hne. reflexivity.
  - destruct (String.eqb k' k0) eqn:Hk; simpl.
    + apply String.eqb_eq in Hk. subst k0.
      apply String.eqb_neq in Hne. rewrite Hne. reflexivity.
    + destruct (String.eqb k k0); [reflexivity | exact IH].
Qed.

Lemma dict_get_in_keys (name : string) (v : json) (d : list (string * json)) :
  dict_get name d = Some v -> In name (map fst d).
Proof.
  induction d as [|[k v'] d IH]; simpl; [discriminate|].
  destruct (String.eqb name k) eqn:Hk.
  - apply String.eqb_eq in Hk. auto.
  - auto.
Qed.

End Dict.

Section Rounding.
Import Py.

Lemma py_round_floor (q : Q) :
  py_round q = Qfloor q \/ py_round q = (Qfloor q + 1)%Z.
Proof.
  unfold py_round. destruct (Qcompare _ _); [destruct (Z.even _)|..]; auto.
Qed.

Lemma py_round_ge (n : Z) (q : Q) : (inject_Z n <= q)%Q -> (n <= py_round q)%Z.
Proof.
  intros Hle. assert (n <= Qfloor q)%Z.
  { rewrite <- (Qfloor_Z n). apply Qfloor_resp_le, Hle. }
  destruct (py_round_floor q) as [-> | ->]; lia.
Qed.

Lemma py_round_le (n : Z) (q : Q) : (q <= inject_Z n)%Q -> (py_round q <= n)%Z.
Proof.
  intros Hle. assert (Hf : (Qfloor q <= n)%Z).
  { rewrite <- (Qfloor_Z n). apply Qfloor_resp_le, Hle. }
  destruct (Z.eq_dec (Qfloor q) n) as [Heq|Hne].
  - unfold py_round. rewrite Heq.
    destruct (Qcompare_spec (q - inject_Z n) (1 # 2)) as [H|H|H]; [lra | lia | lra].
  - destruct (py_round_floor q) as [-> | ->]; lia.
Qed.

Lemma py_round_inject (n : Z) : py_round (inject_Z n) = n.
Proof.
  apply Z.le_antisymm; [apply py_round_le | apply py_round_ge]; apply Qle_refl.
Qed.

Lemma round_bounds (x : Q) : (0 <= x <= 10)%Q -> (0 <= py_round x <= 10)%Z.
Proof.
  intros [H0 H10]. split; [apply (py_round_ge 0) | apply (py_round_le 10)]; assumption.
Qed.

(** Python rounds a tie to the even neighbour. *)
Example py_round_ties :
  map py_round [1 # 2; 3 # 2; 5 # 2; 7 # 2; 13 # 2; 15 # 2; -5 # 2]
  = [0; 2; 2; 4; 6; 8; -2]%Z.
Proof. vm_compute. reflexivity. Qed.

End Rounding.

(* ===================================================================== *)
(** * CompetitorFinder: the retry loop *)
(* ===================================================================== *)

Section Scraper.
Import Json Py JsonRepair Retry ScraperAgent Spec.
Context {rt : Runtime}.

Lemma sleep_unless_last_run (max_retries : Z) (attempt : nat) (seconds : Z) (w : world) :
  sleep_unless_last max_retries attempt seconds w
  = (Ok tt, if (Z.of_nat attempt <? max_retries - 1)%Z then slept seconds w else w).
Proof. unfold sleep_unless_last. destruct (_ <? _)%Z; reflexivity. Qed.

Lemma enrich_frame (i : nat) (idea : json) (w : world) :
  same_but_draws w (snd (enrich i idea w)).
Proof.
  unfold enrich. destruct idea; try apply same_but_draws_refl.
  rewrite bind_run. unfold random_uniform. rewrite bind_run, lift_run.
  destruct (subscript _ _) as [description|e]; [|repeat split].
  rewrite bind_run, lift_run.
  destruct (category_of description); repeat split.
Qed.

Lemma enrich_from_frame (valid_ideas : list json) (i : nat) (w : world) :
  same_but_draws w (snd (enrich_from i valid_ideas w)).
Proof.
  revert i w. induction valid_ideas as [|idea rest IH]; intros i w; simpl.
  - apply same_but_draws_refl.
  - rewrite bind_run. pose proof (enrich_frame i idea w) as H1.
    destruct (enrich i idea w) as [[idea'|e] w1]; simpl in H1; [|exact H1].
    rewrite bind_run. pose proof (IH (S i) w1) as H2.
    destruct (enrich_from (S i) rest w1) as [[rest'|e] w2]; simpl in *;
      eapply same_but_draws_trans; eauto.
Qed.

Lemma handle_ok_frame (r : response) (w : world) :
  same_but_draws w (snd (handle_ok r w)).
Proof.
  unfold handle_ok. rewrite bind_run, lift_run.
  destruct (_ ≫= _) as [response_content|e]; [|apply same_but_draws_refl].
  rewrite bind_run, lift_run.
  destruct (extract_json response_content) as [data|e]; [|apply same_but_draws_refl].
  rewrite bind_run, lift_run.
  destruct (subscript _ _) as [listed|e]; [|apply same_but_draws_refl].
  rewrite bind_run, lift_run.
  destruct (iterate listed) as [entries|e]; [|apply same_but_draws_refl].
  destruct (0 <? _)%nat; [|apply same_but_draws_refl].
  rewrite bind_run. pose proof (enrich_from_frame (List.filter valid_idea entries) 0 w) as H.
  destruct (enrich_from _ _ _) as [[enriched|e] w1]; exact H.
Qed.

Lemma attempt_body_fails (max_retries : Z) (attempt : nat) (w : world) (m : string) :
  provider w (calls w) = Fails m ->
  attempt_body max_retries attempt w
  = (Ok (Continue m), after_failure max_retries attempt Flat (posted w)).
Proof.
  intros Hp. unfold attempt_body. rewrite try_catch_all, bind_run, requests_post_run, Hp.
  rewrite bind_run, sleep_unless_last_run. reflexivity.
Qed.

Lemma attempt_body_429 (max_retries : Z) (attempt : nat) (w : world) (r : response) :
  provider w (calls w) = Responds r -> status_code r = 429%Z ->
  attempt_body max_retries attempt w
  = (Ok (Continue "Rate limit exceeded"),
     after_failure max_retries attempt Exponential (posted w)).
Proof.
  intros Hp Hs. unfold attempt_body.
  rewrite try_catch_all, bind_run, requests_post_run, Hp, Hs. simpl.
  rewrite bind_run, sleep_unless_last_run. reflexivity.
Qed.

Lemma attempt_body_terminal (max_retries : Z) (attempt : nat) (w : world) (r : response) :
  provider w (calls w) = Responds r ->
  status_code r <> 200%Z -> status_code r <> 429%Z ->
  attempt_body max_retries attempt w
  = (Ok (Break ("HTTP " ++ PyStr.str_of_int (status_code r) ++ ": " ++ text r)),
     posted w).
Proof.
  intros Hp H200 H429. unfold attempt_body.
  rewrite try_catch_all, bind_run, requests_post_run, Hp.
  apply Z.eqb_neq in H200, H429. rewrite H200, H429. reflexivity.
Qed.

Lemma attempt_body_200 (max_retries : Z) (attempt : nat) (w : world) (r : response) :
  provider w (calls w) = Responds r -> status_code r = 200%Z ->
  attempt_body max_retries attempt w
  = match handle_ok r (posted w) with
    | (Ok data, w') => (Ok (Return data), w')
    | (Raise e, w') =>
        (Ok (Continue (exn_str e)), after_failure max_retries attempt Exponential w')
    end.
Proof.
  intros Hp Hs. unfold attempt_body.
  rewrite try_catch_all, bind_run, requests_post_run, Hp, Hs. simpl.
  rewrite try_catch_all, bind_run.
  destruct (handle_ok r (posted w)) as [[data|e] w']; [reflexivity|].
  rewrite bind_run, sleep_unless_last_run. reflexivity.
Qed.

(** A pass never raises, makes one post, and leaves the files, the
    provider and the generator as they were. *)
Lemma attempt_body_total (max_retries : Z) (attempt : nat) (w : world) :
  exists (s : step json) (w' : world),
    attempt_body max_retries attempt w = (Ok s, w')
    /\ calls w' = S (calls w) /\ provider w' = provider w
    /\ fs w' = fs w /\ uniform w' = uniform w.
Proof.
  destruct (provider w (calls w)) as [r|m] eqn:Hp.
  - destruct (Z.eq_dec (status_code r) 200%Z) as [H200|H200].
    + rewrite (attempt_body_200 _ _ _ _ Hp H200).
      pose proof (handle_ok_frame r (posted w)) as Hf.
      destruct (handle_ok r (posted w)) as [[data|e] w']; simpl in Hf;
        destruct Hf as (Hfs & Hpr & Hc & Hu & Ht).
      * eexists _, _. split; [reflexivity|]. auto.
      * eexists _, _. split; [reflexivity|].
        unfold after_failure. destruct (_ <? _)%Z; simpl; auto.
    + destruct (Z.eq_dec (status_code r) 429%Z) as [H429|H429].
      * rewrite (attempt_body_429 _ _ _ _ Hp H429). eexists _, _.
        split; [reflexivity|]. unfold after_failure. destruct (_ <? _)%Z; simpl; auto.
      * rewrite (attempt_body_terminal _ _ _ _ Hp H200 H429). eexists _, _.
        split; [reflexivity|]. simpl; auto.
  - rewrite (attempt_body_fails _ _ _ _ Hp). eexists _, _.
    split; [reflexivity|]. unfold after_failure. destruct (_ <? _)%Z; simpl; auto.
Qed.

Lemma attempts_total (max_retries : Z) (todo : list nat) (last_error : option string)
  (w : world) :
  exists (r : json + option string) (w' : world),
    attempts max_retries todo last_error w = (Ok r, w')
    /\ (calls w <= calls w' <= calls w + length todo)%nat
    /\ provider w' = provider w /\ fs w' = fs w /\ uniform w' = uniform w.
Proof.
  revert last_error w. induction todo as [|attempt rest IH]; intros last_error w; simpl.
  - eexists _, _. split; [reflexivity|]. repeat split; lia.
  - rewrite bind_run.
    destruct (attempt_body_total max_retries attempt w) as (s & w1 & -> & Hc & Hp & Hf & Hu).
    destruct s as [e|e|data].
    + destruct (IH (Some e) w1) as (r & w' & -> & Hc' & Hp' & Hf' & Hu').
      eexists _, _. split; [reflexivity|]. repeat split; try congruence; lia.
    + eexists _, _. split; [reflexivity|]. repeat split; try assumption; lia.
    + eexists _, _. split; [reflexivity|]. repeat split; try assumption; lia.
Qed.

Lemma query_mistral_total (self : agent) (max_retries : Z) (w : world) :
  exists (out : string) (w' : world),
    query_mistral self max_retries w = (Ok out, w')
    /\ (calls w <= calls w' <= calls w + Z.to_nat max_retries)%nat
    /\ provider w' = provider w /\ fs w' = fs w /\ uniform w' = uniform w.
Proof.
  unfold query_mistral. rewrite bind_run.
  destruct (attempts_total max_retries (range max_retries) None w)
    as (r & w' & -> & Hc & Hp & Hf & Hu).
  unfold range in Hc. rewrite length_seq in Hc.
  destruct r; eexists _, _; (split; [reflexivity|]); auto.
Qed.

Lemma attempt_body_retryable (max_retries : Z) (attempt : nat) (w : world)
  (m : string) (b : backoff) :
  retryable_failure (provider w (calls w)) m b ->
  exists w' : world,
    attempt_body max_retries attempt w = (Ok (Continue m), w')
    /\ calls w' = S (calls w)
    /\ trace w' = (trace w ++ Post :: (if (Z.of_nat attempt <? max_retries - 1)%Z
                                      then [Sleep (delay b attempt)] else []))%list
    /\ provider w' = provider w /\ fs w' = fs w /\ uniform w' = uniform w.
Proof.
  intros Hf. inversion Hf as [m' Hp | r Hs Hp | r e Hs Hraise Hp]; subst.
  - symmetry in Hp. rewrite (attempt_body_fails _ _ _ _ Hp). eexists. split; [reflexivity|].
    unfold after_failure. destruct (_ <? _)%Z; simpl; rewrite <- ?app_assoc; auto.
  - symmetry in Hp. rewrite (attempt_body_429 _ _ _ _ Hp Hs). eexists. split; [reflexivity|].
    unfold after_failure. destruct (_ <? _)%Z; simpl; rewrite <- ?app_assoc; auto.
  - symmetry in Hp. rewrite (attempt_body_200 _ _ _ _ Hp Hs).
    pose proof (handle_ok_frame r (posted w)) as Hframe.
    specialize (Hraise (posted w)).
    destruct (handle_ok r (posted w)) as [res w1]. simpl in Hraise, Hframe. subst res.
    destruct Hframe as (Hfs & Hpr & Hc & Hu & Ht).
    eexists. split; [reflexivity|].
    unfold after_failure. destruct (_ <? _)%Z; simpl; rewrite ?Ht; simpl;
      rewrite <- ?app_assoc; auto.
Qed.


(** Whatever the provider does, a response with a terminal status is the
    last thing the loop sees: the loop ends with its post, and with the
    status and body as the last error. *)
Lemma attempts_stop_at_terminal (max_retries : Z) (todo : list nat)
  (last_error : option string) (w w' : world) (res : json + option string)
  (c : nat) (r : response) :
  attempts max_retries todo last_error w = (Ok res, w') ->
  (calls w <= c < calls w')%nat ->
  provider w c = Responds r -> terminal r ->
  calls w' = S c
  /\ res = inr (Some (http_error r))
  /\ exists before, trace w' = (before ++ [Post])%list.
Proof.
  revert last_error w. induction todo as [|attempt rest IH]; intros last_error w; simpl.
  - intros Heq Hc. injection Heq as <- <-. lia.
  - rewrite bind_run. intros Heq Hc Hp [H200 H429].
    destruct (Nat.eq_dec c (calls w)) as [->|Hne].
    + rewrite (attempt_body_terminal _ _ _ _ Hp H200 H429) in Heq.
      injection Heq as <- <-. simpl. split; [reflexivity|]. split; [reflexivity|].
      eexists. reflexivity.
    + destruct (attempt_body_total max_retries attempt w)
        as (s & w1 & Hbody & Hc1 & Hp1 & _). rewrite Hbody in Heq.
      destruct s as [e|e|data].
      * apply (IH _ _ Heq); [lia | rewrite Hp1; exact Hp | split; assumption].
      * injection Heq as <- <-. lia.
      * injection Heq as <- <-. lia.
Qed.

Lemma query_mistral_terminal_first (self : agent) (max_retries : Z) (w : world)
  (r : response) :
  (0 < max_retries)%Z ->
  provider w (calls w) = Responds r -> terminal r ->
  query_mistral self max_retries w
  = (Ok (json_dumps (error_response max_retries (Some (http_error r)))), posted w).
Proof.
  intros Hn Hp [H200 H429]. unfold query_mistral, range. rewrite bind_run.
  destruct (Z.to_nat max_retries) as [|k] eqn:Hk; [lia|]. simpl.
  rewrite bind_run, (attempt_body_terminal _ _ _ _ Hp H200 H429). reflexivity.
Qed.

Lemma attempt_body_return (max_retries : Z) (attempt : nat) (w w' : world)
  (data : json) :
  attempt_body max_retries attempt w = (Ok (Return data), w') ->
  exists r : response,
    provider w (calls w) = Responds r /\ status_code r = 200%Z
    /\ handle_ok r (posted w) = (Ok data, w').
Proof.
  destruct (provider w (calls w)) as [r|m] eqn:Hp.
  - destruct (Z.eq_dec (status_code r) 200%Z) as [H200|H200].
    + rewrite (attempt_body_200 _ _ _ _ Hp H200).
      destruct (handle_ok r (posted w)) as [[data'|e] w1] eqn:Hok; [|discriminate].
      intros Heq. injection Heq as <- <-. exists r. repeat split; assumption.
    + destruct (Z.eq_dec (status_code r) 429%Z) as [H429|H429].
      * rewrite (attempt_body_429 _ _ _ _ Hp H429). discriminate.
      * rewrite (attempt_body_terminal _ _ _ _ Hp H200 H429). discriminate.
  - rewrite (attempt_body_fails _ _ _ _ Hp). discriminate.
Qed.

Lemma attempts_returned (max_retries : Z) (todo : list nat)
  (last_error : option string) (w w' : world) (data : json) :
  attempts max_retries todo last_error w = (Ok (inl data), w') ->
  exists (r : response) (w0 : world),
    handle_ok r w0 = (Ok data, w') /\ uniform w0 = uniform w
    /\ status_code r = 200%Z.
Proof.
  revert last_error w. induction todo as [|attempt rest IH]; intros last_error w; simpl.
  - discriminate.
  - rewrite bind_run.
    destruct (attempt_body_total max_retries attempt w)
      as (s & w1 & Hbody & _ & _ & _ & Hu). rewrite Hbody.
    destruct s as [e|e|data'].
    + intros Heq. destruct (IH _ _ Heq) as (r & w0 & Hok & Hu0 & Hs).
      exists r, w0. split; [exact Hok|]. split; [congruence | exact Hs].
    + discriminate.
    + intros Heq. injection Heq as <- <-.
      destruct (attempt_body_return _ _ _ _ _ Hbody) as (r & Hp & Hs & Hok).
      exists r, (posted w). repeat split; assumption.
Qed.

(** The three failures of a status 200 the specification names. *)
Lemma empty_body_raises (r : response) (content : json) (e : exn) (w : world) :
  message_content r = Ok content ->
  require_text "Empty response from Mistral API" content = Raise e ->
  fst (handle_ok r w) = Raise e.
Proof.
  intros Hc He. unfold handle_ok. rewrite bind_run, lift_run, Hc. simpl.
  rewrite He. reflexivity.
Qed.

Lemma repair_failure_raises (r : response) (content : json) (s : string)
  (e : exn) (w : world) :
  message_content r = Ok content ->
  require_text "Empty response from Mistral API" content = Ok s ->
  extract_json s = Raise e ->
  fst (handle_ok r w) = Raise e.
Proof.
  intros Hc Hs He. unfold handle_ok. rewrite bind_run, lift_run, Hc. simpl.
  rewrite Hs. rewrite bind_run, lift_run, He. reflexivity.
Qed.

Lemma no_valid_idea_raises (r : response) (content : json) (s : string)
  (d : list (string * json)) (entries : list json) (w : world) :
  message_content r = Ok content ->
  require_text "Empty response from Mistral API" content = Ok s ->
  extract_json s = Ok (JDict d) ->
  dict_get "similar_ideas" d = Some (JList entries) ->
  List.filter valid_idea entries = [] ->
  fst (handle_ok r w)
  = Raise (mkExn ValueError "No valid ideas found in response").
Proof.
  intros Hc Hs He Hd Hnone. unfold handle_ok. rewrite bind_run, lift_run, Hc. simpl.
  rewrite Hs. rewrite bind_run, lift_run, He. simpl.
  unfold dict_has. rewrite Hd. rewrite bind_run, lift_run. simpl. rewrite Hd.
  rewrite bind_run, lift_run. simpl. rewrite Hnone. reflexivity.
Qed.


End Scraper.


(* ===================================================================== *)
(** * CompetitorFinder: the similarity of an entry *)
(* ===================================================================== *)

Section Similarity.
Import Json Py JsonRepair Retry ScraperAgent Spec.
Context {rt : Runtime}.

Lemma round_clamp (x : Q) :
  py_round (max_int_float 1 (min_int_float 100 x)) = clamp 1 100 (py_round x).
Proof.
  unfold max_int_float, min_int_float, clamp.
  destruct (Qle_bool (inject_Z 100) x) eqn:H100.
  - apply Qle_bool_iff in H100. simpl.
    pose proof (py_round_ge 100 x H100). rewrite (py_round_inject 100). lia.
  - assert (Hlt : (x < inject_Z 100)%Q).
    { apply Qnot_le_lt. intros Hle. apply Qle_bool_iff in Hle. congruence. }
    pose proof (py_round_le 100 x (Qlt_le_weak _ _ Hlt)).
    destruct (Qle_bool x (inject_Z 1)) eqn:H1.
    + apply Qle_bool_iff in H1. pose proof (py_round_le 1 x H1).
      rewrite (py_round_inject 1). lia.
    + assert (Hgt : (inject_Z 1 < x)%Q).
      { apply Qnot_le_lt. intros Hle. apply Qle_bool_iff in Hle. congruence. }
      pose proof (py_round_ge 1 x (Qlt_le_weak _ _ Hgt)). lia.
Qed.

Lemma similarity_of_clamp (i : nat) (u : Q) :
  similarity_of i u
  = clamp 1 100 (py_round (float_add (inject_Z (Z.max (85 - 10 * Z.of_nat i) 25)) u))
  /\ (1 <= similarity_of i u <= 100)%Z.
Proof.
  unfold similarity_of, base_similarity. rewrite round_clamp.
  replace (Z.of_nat i * 10)%Z with (10 * Z.of_nat i)%Z by lia.
  split; [reflexivity | unfold clamp; lia].
Qed.

(** What [enrich] leaves in an idea. *)
Lemma enrich_similarity (i : nat) (idea idea' : json) (w w' : world) :
  enrich i idea w = (Ok idea', w') ->
  draws w' = S (draws w)
  /\ exists d : list (string * json),
       idea' = JDict d
       /\ dict_get "similarity" d = Some (JInt (similarity_of i (uniform w (draws w)))).
Proof.
  unfold enrich. destruct idea as [| | | | | |d]; try discriminate.
  rewrite bind_run. unfold random_uniform. rewrite bind_run, lift_run.
  destruct (subscript _ _) as [description|e]; [|discriminate].
  rewrite bind_run, lift_run.
  destruct (category_of description) as [computed|e]; [|discriminate].
  rewrite ret_run. intros Heq. injection Heq as <- <-. simpl.
  split; [reflexivity|]. eexists. split; [reflexivity|].
  rewrite dict_get_set_ne by discriminate. apply dict_get_set_eq.
Qed.

Lemma enrich_from_similarity (valid_ideas enriched : list json) (i : nat)
  (w w' : world) :
  enrich_from i valid_ideas w = (Ok enriched, w') ->
  forall (k : nat) (idea' : json),
    enriched !! k = Some idea' ->
    exists d : list (string * json),
      idea' = JDict d
      /\ dict_get "similarity" d
         = Some (JInt (similarity_of (i + k) (uniform w (draws w + k)))).
Proof.
  revert enriched i w. induction valid_ideas as [|idea rest IH];
    intros enriched i w; simpl.
  - rewrite ret_run. intros Heq. injection Heq as <- <-. intros k idea' Hk. discriminate.
  - rewrite bind_run. destruct (enrich i idea w) as [[idea1|e] w1] eqn:H1; [|discriminate].
    rewrite bind_run.
    destruct (enrich_from (S i) rest w1) as [[rest'|e] w2] eqn:H2; [|discriminate].
    rewrite ret_run. intros Heq. injection Heq as <- <-.
    destruct (enrich_similarity _ _ _ _ _ H1) as [Hd [d [-> Hsim]]].
    pose proof (enrich_frame i idea w) as Hframe. rewrite H1 in Hframe.
    destruct Hframe as (_ & _ & _ & Hu & _). simpl in Hu.
    intros [|k] idea' Hk; simpl in Hk.
    + injection Hk as <-. exists d. rewrite !Nat.add_0_r. auto.
    + destruct (IH _ _ _ H2 k idea' Hk) as [d' [-> Hsim']].
      exists d'. split; [reflexivity|]. rewrite Hsim', Hu, Hd.
      replace (S i + k)%nat with (i + S k)%nat by lia.
      replace (S (draws w) + k)%nat with (draws w + S k)%nat by lia.
      reflexivity.
Qed.

Lemma handle_ok_similarity (r : response) (w w' : world) (data : json) :
  handle_ok r w = (Ok data, w') ->
  exists ideas : list json,
    subscript data "similar_ideas" = Ok (JList ideas)
    /\ forall (i : nat) (idea : json),
         ideas !! i = Some idea ->
         exists d : list (string * json),
           idea = JDict d
           /\ dict_get "similarity" d
              = Some (JInt (similarity_of i (uniform w (draws w + i)))).
Proof.
  unfold handle_ok. rewrite bind_run, lift_run.
  destruct (_ ≫= _) as [response_content|e]; [|discriminate].
  rewrite bind_run, lift_run.
  destruct (extract_json response_content) as [parsed|e]; [|discriminate].
  rewrite bind_run, lift_run.
  destruct (subscript _ _) as [listed|e]; [|discriminate].
  rewrite bind_run, lift_run.
  destruct (iterate listed) as [entries|e]; [|discriminate].
  destruct (0 <? _)%nat; [|discriminate].
  rewrite bind_run.
  destruct (enrich_from 0 _ w) as [[enriched|e] w1] eqn:Henrich; [|discriminate].
  rewrite ret_run. intros Heq. injection Heq as <- <-.
  exists enriched. split.
  - unfold subscript. rewrite dict_get_set_eq. reflexivity.
  - intros i idea Hi. apply (enrich_from_similarity _ _ _ _ _ Henrich i idea Hi).
Qed.

(** What [enrich] makes of a valid entry. *)
Lemma enrich_entry (i : nat) (entry idea : json) (w w' : world) :
  valid_idea entry = true ->
  enrich i entry w = (Ok idea, w') ->
  enriched_entry entry idea.
Proof.
  unfold valid_idea, enrich. destruct entry as [| | | | | |d]; try discriminate.
  destruct (dict_get "idea_name" d) as [name|] eqn:Hname; [|discriminate].
  destruct (dict_get "idea_description" d) as [ds|] eqn:Hds; [|discriminate].
  intros Htruthy. apply andb_true_iff in Htruthy as [Hn Hd].
  rewrite bind_run. unfold random_uniform. rewrite bind_run, lift_run.
  unfold subscript. rewrite dict_get_set_ne by discriminate. rewrite Hds.
  rewrite bind_run, lift_run.
  destruct ds as [| | | |description| |]; try discriminate.
  unfold category_of. cbv beta iota. rewrite ret_run.
  rewrite dict_get_set_ne by discriminate.
  intros Heq. injection Heq as <- <-.
  exists d, name, description, (similarity_of i (uniform w (draws w))).
  repeat split; try assumption.
  intros ->. discriminate Hd.
Qed.

Lemma enrich_from_entries (entries ideas : list json) (i : nat) (w w' : world) :
  Forall (fun entry => valid_idea entry = true) entries ->
  enrich_from i entries w = (Ok ideas, w') ->
  Forall2 enriched_entry entries ideas.
Proof.
  intros Hvalid. revert ideas i w.
  induction Hvalid as [|entry rest Hentry Hrest IH]; intros ideas i w; simpl.
  - rewrite ret_run. intros Heq. injection Heq as <- <-. constructor.
  - rewrite bind_run.
    destruct (enrich i entry w) as [[idea|e] w1] eqn:H1; [|discriminate].
    rewrite bind_run.
    destruct (enrich_from (S i) rest w1) as [[rest'|e] w2] eqn:H2; [|discriminate].
    rewrite ret_run. intros Heq. injection Heq as <- <-.
    constructor; [exact (enrich_entry _ _ _ _ _ Hentry H1) | exact (IH _ _ _ H2)].
Qed.

(** Only the elements of a list can be valid ideas. *)
Lemma valid_ideas_of_list (listed : json) (entries : list json) :
  iterate listed = Ok entries ->
  List.filter valid_idea entries <> [] ->
  listed = JList entries.
Proof.
  destruct listed as [| | | |s|l|d]; try discriminate; simpl;
    intros Heq; injection Heq as <-; [| reflexivity |]; intros Hne; exfalso; apply Hne;
    clear Hne.
  - induction s as [|c s IH]; [reflexivity | exact IH].
  - induction d as [|kv d IH]; [reflexivity | exact IH].
Qed.

Lemma handle_ok_entries (r : response) (w w' : world) (data : json) :
  handle_ok r w = (Ok data, w') ->
  exists (content : json) (s : string) (d : list (string * json))
         (entries ideas : list json),
    message_content r = Ok content
    /\ require_text "Empty response from Mistral API" content = Ok s
    /\ extract_json s = Ok (JDict d)
    /\ dict_get "similar_ideas" d = Some (JList entries)
    /\ data = JDict (dict_set "similar_ideas" (JList ideas) d)
    /\ Forall2 enriched_entry (List.filter valid_idea entries) ideas
    /\ ideas <> [].
Proof.
  unfold handle_ok. rewrite bind_run, lift_run.
  destruct (message_content r) as [content|e] eqn:Hc; [|discriminate].
  simpl. destruct (require_text _ content) as [s|e] eqn:Hs; [|discriminate].
  rewrite bind_run, lift_run.
  destruct (extract_json s) as [parsed|e] eqn:He; [|discriminate].
  assert (Hempty : forall (d0 : list (string * json)) (res : result json) (w1 : world),
             (listed ← lift (subscript
                               (JDict (dict_set "similar_ideas" (JList []) d0))
                               "similar_ideas");
              entries ← lift (iterate listed);
              let valid_ideas := List.filter valid_idea entries in
              if (0 <? length valid_ideas)%nat
              then
                enriched ← enrich_from 0 valid_ideas;
                mret (JDict (dict_set "similar_ideas" (JList enriched)
                               (dict_set "similar_ideas" (JList []) d0)))
              else throw ValueError "No valid ideas found in response") w
             = (res, w1) ->
             succeeds res -> False).
  { intros d0 res w1. rewrite bind_run, lift_run. unfold subscript.
    rewrite dict_get_set_eq. rewrite bind_run, lift_run. simpl.
    intros Heq. injection Heq as <- <-. intros []. }
  destruct parsed as [| | | | | |d];
    try (intros Hrun; exfalso; exact (Hempty [] _ _ Hrun I)).
  simpl is_dict. cbv iota. unfold dict_has.
  destruct (dict_get "similar_ideas" d) as [listed|] eqn:Hd;
    [|intros Hrun; exfalso; exact (Hempty d _ _ Hrun I)].
  rewrite bind_run, lift_run. unfold subscript. rewrite Hd.
  rewrite bind_run, lift_run.
  destruct (iterate listed) as [entries|e] eqn:Hi; [|discriminate].
  cbv zeta.
  destruct (0 <? length (List.filter valid_idea entries))%nat eqn:Hlen; [|discriminate].
  apply Nat.ltb_lt in Hlen.
  rewrite bind_run.
  destruct (enrich_from 0 _ w) as [[ideas|e] w1] eqn:Henrich; [|discriminate].
  rewrite ret_run. intros Heq. injection Heq as <- <-.
  assert (Hne : List.filter valid_idea entries <> []).
  { intros Hnil. rewrite Hnil in Hlen. simpl in Hlen. lia. }
  rewrite (valid_ideas_of_list _ _ Hi Hne) in Hd.
  assert (Hall : Forall2 enriched_entry (List.filter valid_idea entries) ideas).
  { refine (enrich_from_entries _ _ _ _ _ _ Henrich).
    apply List.Forall_forall. intros entry Hin. apply filter_In in Hin. tauto. }
  exists content, s, d, entries, ideas. repeat split; try assumption.
  intros ->. inversion Hall as [Hnil|]. apply Hne. symmetry. exact Hnil.
Qed.

Lemma attempts_returned_from (max_retries : Z) (todo : list nat)
  (last_error : option string) (w w' : world) (data : json) :
  attempts max_retries todo last_error w = (Ok (inl data), w') ->
  exists (c : nat) (r : response) (w0 : world),
    (calls w <= c)%nat /\ provider w c = Responds r /\ status_code r = 200%Z
    /\ handle_ok r w0 = (Ok data, w')
    /\ uniform w0 = uniform w.
Proof.
  revert last_error w. induction todo as [|attempt rest IH]; intros last_error w; simpl.
  - discriminate.
  - rewrite bind_run.
    destruct (attempt_body_total max_retries attempt w)
      as (s & w1 & Hbody & Hc & Hp & _ & Hu). rewrite Hbody.
    destruct s as [e|e|data'].
    + intros Heq. destruct (IH _ _ Heq) as (c & r & w0 & Hle & Hpc & Hs & Hok & Hu0).
      exists c, r, w0. split; [lia|]. split; [congruence|].
      split; [assumption|]. split; [assumption | congruence].
    + discriminate.
    + intros Heq. injection Heq as <- <-.
      destruct (attempt_body_return _ _ _ _ _ Hbody) as (r & Hpr & Hs & Hok).
      exists (calls w), r, (posted w). repeat split; try assumption. lia.
Qed.

(** What a handled response leaves in the document: the valid entries of
    the model's list, enriched in their order, the idea of index [i] with
    the similarity computed from [i] and from the variation drawn for
    it. *)
Lemma handle_ok_emitted (r : response) (w w' : world) (data : json) :
  handle_ok r w = (Ok data, w') ->
  exists (content : json) (s : string) (d : list (string * json))
         (entries ideas : list json),
    message_content r = Ok content
    /\ require_text "Empty response from Mistral API" content = Ok s
    /\ extract_json s = Ok (JDict d)
    /\ dict_get "similar_ideas" d = Some (JList entries)
    /\ data = JDict (dict_set "similar_ideas" (JList ideas) d)
    /\ List.filter valid_idea entries <> []
    /\ length ideas = length (List.filter valid_idea entries)
    /\ forall (i : nat) (entry : json),
         List.filter valid_idea entries !! i = Some entry ->
         exists (idea : json) (fields : list (string * json)),
           ideas !! i = Some idea
           /\ enriched_entry entry idea
           /\ idea = JDict fields
           /\ dict_get "similarity" fields
              = Some (JInt (similarity_of i (uniform w (draws w + i)))).
Proof.
  intros Hok.
  destruct (handle_ok_entries _ _ _ _ Hok)
    as (content & s & d & entries & ideas & Hc & Ht & He & Hd & -> & Hall & Hne).
  destruct (handle_ok_similarity _ _ _ _ Hok) as (ideas' & Hsub & Hsim).
  unfold subscript in Hsub. rewrite dict_get_set_eq in Hsub.
  injection Hsub as <-.
  exists content, s, d, entries, ideas.
  pose proof (Forall2_length _ _ _ Hall) as Hlen.
  repeat split; try assumption.
  - intros Hnil. rewrite Hnil in Hall. inversion Hall. subst ideas.
    apply Hne. reflexivity.
  - symmetry. exact Hlen.
  - intros i entry Hi.
    destruct (Forall2_lookup_l _ _ _ _ _ Hall Hi) as (idea & Hidea & Hentry).
    destruct (Hsim i idea Hidea) as (fields & -> & Hfields).
    exists (JDict fields), fields. repeat split; assumption.
Qed.

(** C6. [query_mistral] always returns. What it returns is the error
    document, or the document made from a response of status 200 of the
    provider: the model's own document with its list of ideas replaced by
    the entries that survive the checks, in their order and as many (at
    least one). The surviving entry of index [i] is emitted with the
    similarity [clamp(1, 100, round(max(85 - 10*i, 25) + u))], where [u]
    is the variation drawn for that entry (the draw of index [i] counted
    from the first draw for this response) and [+] the addition of floats;
    every such similarity lies between 1 and 100. *)
Theorem emitted_similarity (self : agent) (max_retries : Z) (w : world) :
  exists (out : string) (w' : world),
    query_mistral self max_retries w = (Ok out, w')
    /\ ((exists last_error : string,
            out
            = json_dumps
                (JDict
                   [ ("similar_ideas", JList []);
                     ("error",
                      JStr ("Failed to get valid response after "
                              ++ PyStr.str_of_int max_retries
                              ++ " attempts. Last error: " ++ last_error)) ]))
        \/ (exists (c : nat) (r : response) (content : json) (s : string)
                   (d : list (string * json)) (entries ideas : list json)
                   (first_draw : nat),
               provider w c = Responds r /\ status_code r = 200%Z
               /\ message_content r = Ok content
               /\ require_text "Empty response from Mistral API" content = Ok s
               /\ extract_json s = Ok (JDict d)
               /\ dict_get "similar_ideas" d = Some (JList entries)
               /\ out = json_dumps (JDict (dict_set "similar_ideas" (JList ideas) d))
               /\ List.filter valid_idea entries <> []
               /\ length ideas = length (List.filter valid_idea entries)
               /\ forall (i : nat) (entry : json),
                    List.filter valid_idea entries !! i = Some entry ->
                    exists (idea : json) (fields : list (string * json))
                           (similarity : Z),
                      ideas !! i = Some idea
                      /\ enriched_entry entry idea
                      /\ idea = JDict fields
                      /\ dict_get "similarity" fields = Some (JInt similarity)
                      /\ similarity
                         = clamp 1 100
                             (py_round
                                (float_add
                                   (inject_Z (Z.max (85 - 10 * Z.of_nat i) 25))
                                   (uniform w (first_draw + i))))
                      /\ (1 <= similarity <= 100)%Z)).
Proof.
  destruct (query_mistral_total self max_retries w) as (out & w' & Hrun & _).
  exists out, w'. split; [exact Hrun|]. revert Hrun.
  unfold query_mistral. rewrite bind_run.
  destruct (attempts max_retries (range max_retries) None w)
    as [[[data|last_error]|e] w1] eqn:Hloop;
    [| |discriminate]; rewrite ret_run; intros Heq; injection Heq as <- <-.
  - right.
    destruct (attempts_returned_from _ _ _ _ _ _ Hloop)
      as (c & r' & w0' & _ & Hp & Hs & Hok' & Huniform).
    destruct (handle_ok_emitted _ _ _ _ Hok')
      as (content & s & d & entries & ideas & Hc & Ht & He & Hd & -> & Hne & Hlen
          & Hideas).
    exists c, r', content, s, d, entries, ideas, (draws w0').
    repeat split; try assumption.
    intros i entry Hi. destruct (Hideas i entry Hi) as (idea & fields & Hidea & Hentry & -> & Hsim).
    exists (JDict fields), fields, (similarity_of i (uniform w0' (draws w0' + i))).
    rewrite <- Huniform.
    repeat split; try assumption; apply similarity_of_clamp.
  - left. exists (show_last_error last_error). reflexivity.
Qed.

End Similarity.

(** The model lists three entries, the second without a name: two
    survive, and with no variation they are emitted with 85 and 75. *)
Lemma emitted_similarity_witness :
  let w := Reference.world_of Examples.idea_files [Examples.ok Examples.ideas_text] in
  fst (ScraperAgent.query_mistral (rt := Reference.runtime) Examples.scraper 3 w)
  = Py.Ok
      (Reference.dumps
         (Json.JDict
            [("similar_ideas",
              Json.JList
                [ Json.JDict
                    [ ("idea_name", Json.JStr "Wyzant");
                      ("idea_description",
                       Json.JStr "Marketplace to learn with a tutor");
                      ("similarity", Json.JInt 85);
                      ("category", Json.JStr "E-commerce") ];
                  Json.JDict
                    [ ("idea_name", Json.JStr "Preply");
                      ("idea_description", Json.JStr "Language course platform");
                      ("category", Json.JStr "Lang");
                      ("similarity", Json.JInt 75) ] ])]))
  /\ exists (out : string) (w' : Py.world),
       ScraperAgent.query_mistral (rt := Reference.runtime) Examples.scraper 3 w
       = (Py.Ok out, w')
       /\ ((exists last_error : string,
               out
               = Reference.dumps
                   (Json.JDict
                      [ ("similar_ideas", Json.JList []);
                        ("error",
                         Json.JStr ("Failed to get valid response after "
                                      ++ PyStr.str_of_int 3
                                      ++ " attempts. Last error: " ++ last_error)) ]))
           \/ (exists (c : nat) (r : Py.response) (content : Json.json) (s : string)
                      (d : list (string * Json.json))
                      (entries ideas : list Json.json) (first_draw : nat),
                  Py.provider w c = Py.Responds r /\ Py.status_code r = 200%Z
                  /\ JsonRepair.message_content (rt := Reference.runtime) r
                     = Py.Ok content
                  /\ JsonRepair.require_text "Empty response from Mistral API" content
                     = Py.Ok s
                  /\ JsonRepair.extract_json (rt := Reference.runtime) s
                     = Py.Ok (Json.JDict d)
                  /\ Json.dict_get "similar_ideas" d = Some (Json.JList entries)
                  /\ out
                     = Reference.dumps
                         (Json.JDict
                            (Json.dict_set "similar_ideas" (Json.JList ideas) d))
                  /\ List.filter ScraperAgent.valid_idea entries <> []
                  /\ length ideas
                     = length (List.filter ScraperAgent.valid_idea entries)
                  /\ forall (i : nat) (entry : Json.json),
                       List.filter ScraperAgent.valid_idea entries !! i = Some entry ->
                       exists (idea : Json.json) (fields : list (string * Json.json))
                              (similarity : Z),
                         ideas !! i = Some idea
                         /\ Spec.enriched_entry entry idea
                         /\ idea = Json.JDict fields
                         /\ Json.dict_get "similarity" fields
                            = Some (Json.JInt similarity)
                         /\ similarity
                            = Spec.clamp 1 100
                                (Py.py_round
                                   (Qplus
                                      (inject_Z (Z.max (85 - 10 * Z.of_nat i) 25))
                                      (Py.uniform w (first_draw + i))))
                         /\ (1 <= similarity <= 100)%Z)).
Proof.
  intros w. split; [vm_compute; reflexivity|].
  exact (emitted_similarity (rt := Reference.runtime) Examples.scraper 3 w).
Defined.

(** Two entries survive of three; with no variation they get 85 and 75. *)
Example similarities_of_two_entries :
  fst (ScraperAgent.query_mistral (rt := Reference.runtime) Examples.scraper 3
         (Reference.world_of Examples.idea_files [Examples.ok Examples.ideas_text]))
  = Py.Ok
      (Reference.dumps
         (Json.JDict
            [("similar_ideas",
              Json.JList
                [ Json.JDict
                    [ ("idea_name", Json.JStr "Wyzant");
                      ("idea_description",
                       Json.JStr "Marketplace to learn with a tutor");
                      ("similarity", Json.JInt 85);
                      ("category", Json.JStr "E-commerce") ];
                  Json.JDict
                    [ ("idea_name", Json.JStr "Preply");
                      ("idea_description", Json.JStr "Language course platform");
                      ("category", Json.JStr "Lang");
                      ("similarity", Json.JInt 75) ] ])])).
Proof. vm_compute. reflexivity. Qed.

(* ===================================================================== *)
(** * IdeaValidator: the retry loop and the scores *)
(* ===================================================================== *)

Section Validator.
Import Json Py JsonRepair Retry ValidatorAgent Spec.
Context {rt : Runtime}.

Lemma validator_body_fails (max_retries : Z) (attempt : nat) (w : world) (m : string) :
  provider w (calls w) = Fails m ->
  attempt_body max_retries attempt w
  = (Ok (Continue m, None), after_failure max_retries attempt Flat (posted w)).
Proof.
  intros Hp. unfold attempt_body. rewrite try_catch_all, bind_run, requests_post_run, Hp.
  rewrite bind_run, sleep_unless_last_run. reflexivity.
Qed.

Lemma validator_body_429 (max_retries : Z) (attempt : nat) (w : world) (r : response) :
  provider w (calls w) = Responds r -> status_code r = 429%Z ->
  attempt_body max_retries attempt w
  = (Ok (Continue "Rate limit exceeded", None),
     after_failure max_retries attempt Exponential (posted w)).
Proof.
  intros Hp Hs. unfold attempt_body.
  rewrite try_catch_all, bind_run, requests_post_run, Hp, Hs. simpl.
  rewrite bind_run, sleep_unless_last_run. reflexivity.
Qed.

Lemma validator_body_terminal (max_retries : Z) (attempt : nat) (w : world) (r : response) :
  provider w (calls w) = Responds r -> terminal r ->
  attempt_body max_retries attempt w = (Ok (Break (http_error r), None), posted w).
Proof.
  intros Hp [H200 H429]. unfold attempt_body.
  rewrite try_catch_all, bind_run, requests_post_run, Hp.
  apply Z.eqb_neq in H200, H429. rewrite H200, H429. reflexivity.
Qed.

Lemma validator_body_200 (max_retries : Z) (attempt : nat) (w : world) (r : response) :
  provider w (calls w) = Responds r -> status_code r = 200%Z ->
  attempt_body max_retries attempt w
  = match handle_ok r with
    | (assigned, Ok data) => (Ok (Return data, assigned), posted w)
    | (assigned, Raise e) =>
        (Ok (Continue (exn_str e), assigned),
         after_failure max_retries attempt Exponential (posted w))
    end.
Proof.
  intros Hp Hs. unfold attempt_body.
  rewrite try_catch_all, bind_run, requests_post_run, Hp, Hs. simpl.
  destruct (handle_ok r) as [assigned [data|e]]; [reflexivity|].
  rewrite bind_run, sleep_unless_last_run. reflexivity.
Qed.

Lemma validator_body_total (max_retries : Z) (attempt : nat) (w : world) :
  exists (s : step json) (assigned : option json) (w' : world),
    attempt_body max_retries attempt w = (Ok (s, assigned), w')
    /\ calls w' = S (calls w) /\ provider w' = provider w
    /\ fs w' = fs w /\ uniform w' = uniform w.
Proof.
  destruct (provider w (calls w)) as [r|m] eqn:Hp.
  - destruct (Z.eq_dec (status_code r) 200%Z) as [H200|H200].
    + rewrite (validator_body_200 _ _ _ _ Hp H200).
      destruct (handle_ok r) as [assigned [data|e]].
      * eexists _, _, _. split; [reflexivity|]. simpl. auto.
      * eexists _, _, _. split; [reflexivity|].
        unfold after_failure. destruct (_ <? _)%Z; simpl; auto.
    + destruct (Z.eq_dec (status_code r) 429%Z) as [H429|H429].
      * rewrite (validator_body_429 _ _ _ _ Hp H429). eexists _, _, _.
        split; [reflexivity|]. unfold after_failure. destruct (_ <? _)%Z; simpl; auto.
      * rewrite (validator_body_terminal _ _ _ _ Hp (conj H200 H429)). eexists _, _, _.
        split; [reflexivity|]. simpl; auto.
  - rewrite (validator_body_fails _ _ _ _ Hp). eexists _, _, _.
    split; [reflexivity|]. unfold after_failure. destruct (_ <? _)%Z; simpl; auto.
Qed.

Lemma validator_attempts_total (max_retries : Z) (todo : list nat)
  (last_error : option string) (response_content : option json) (w : world) :
  exists (r : loop_end) (w' : world),
    attempts max_retries todo last_error response_content w = (Ok r, w')
    /\ (calls w <= calls w' <= calls w + length todo)%nat
    /\ provider w' = provider w /\ fs w' = fs w /\ uniform w' = uniform w.
Proof.
  revert last_error response_content w.
  induction todo as [|attempt rest IH]; intros last_error response_content w; simpl.
  - eexists _, _. split; [reflexivity|]. repeat split; lia.
  - rewrite bind_run.
    destruct (validator_body_total max_retries attempt w)
      as (s & assigned & w1 & -> & Hc & Hp & Hf & Hu). simpl.
    destruct s as [e|e|data].
    + destruct (IH (Some e) (latest assigned response_content) w1)
        as (r & w' & -> & Hc' & Hp' & Hf' & Hu').
      eexists _, _. split; [reflexivity|]. repeat split; try congruence; lia.
    + eexists _, _. split; [reflexivity|]. repeat split; try assumption; lia.
    + eexists _, _. split; [reflexivity|]. repeat split; try assumption; lia.
Qed.

Lemma validator_stops_at_terminal (max_retries : Z) (todo : list nat)
  (last_error : option string) (response_content : option json)
  (w w' : world) (res : loop_end) (c : nat) (r : response) :
  attempts max_retries todo last_error response_content w = (Ok res, w') ->
  (calls w <= c < calls w')%nat ->
  provider w c = Responds r -> terminal r ->
  calls w' = S c
  /\ (exists content, res = Exhausted (Some (http_error r)) content)
  /\ exists before, trace w' = (before ++ [Post])%list.
Proof.
  revert last_error response_content w.
  induction todo as [|attempt rest IH]; intros last_error response_content w; simpl.
  - intros Heq Hc. injection Heq as <- <-. lia.
  - rewrite bind_run. intros Heq Hc Hp Hterm.
    destruct (Nat.eq_dec c (calls w)) as [->|Hne].
    + rewrite (validator_body_terminal _ _ _ _ Hp Hterm) in Heq. simpl in Heq.
      injection Heq as <- <-. simpl. split; [reflexivity|].
      split; eexists; reflexivity.
    + destruct (validator_body_total max_retries attempt w)
        as (s & assigned & w1 & Hbody & Hc1 & Hp1 & _). rewrite Hbody in Heq.
      simpl in Heq. destruct s as [e|e|data].
      * apply (IH _ _ _ Heq); [lia | rewrite Hp1; exact Hp | exact Hterm].
      * injection Heq as <- <-. lia.
      * injection Heq as <- <-. lia.
Qed.

Lemma validator_terminal_first (max_retries : Z) (w : world) (r : response) :
  (0 < max_retries)%Z ->
  provider w (calls w) = Responds r -> terminal r ->
  attempts max_retries (range max_retries) None None w
  = (Ok (Exhausted (Some (http_error r)) None), posted w).
Proof.
  intros Hn Hp Hterm. unfold range.
  destruct (Z.to_nat max_retries) as [|k] eqn:Hk; [lia|]. simpl.
  rewrite bind_run, (validator_body_terminal _ _ _ _ Hp Hterm). reflexivity.
Qed.

Lemma try_except_ok {A} (body : result A) classes handler (a : A) :
  try_except body classes handler = Ok a ->
  body = Ok a \/ exists e, body = Raise e /\ handler e = Ok a.
Proof.
  unfold try_except. destruct body as [a'|e]; [left; assumption|].
  destruct (existsb _ _); [right; eauto | discriminate].
Qed.

Lemma check_scores_true (names : list string) (scores : list (string * json)) :
  check_scores names scores = Ok true ->
  forall name : string, In name names ->
    exists (v : json) (x : Q),
      dict_get name scores = Some v /\ float_of v = Ok (Fin x)
      /\ (0 <= x <= 10)%Q.
Proof.
  induction names as [|score_name rest IH]; simpl; intros Hcheck name Hin; [contradiction|].
  destruct (dict_get score_name scores) as [v|] eqn:Hget; [|discriminate].
  destruct (try_except _ _ _) as [ok|e] eqn:Htry; [|discriminate].
  simpl in Hcheck. destruct ok; [|discriminate].
  destruct Hin as [<-|Hin]; [|apply IH; assumption].
  apply try_except_ok in Htry. destruct Htry as [Hbody | [e [_ Hh]]]; [|discriminate].
  destruct (float_of v) as [x|e] eqn:Hfloat; [|discriminate]. simpl in Hbody.
  injection Hbody as Hbetween. destruct x as [q| |]; try discriminate.
  simpl in Hbetween. apply andb_true_iff in Hbetween. destruct Hbetween as [H0 H10].
  apply Qle_bool_iff in H0, H10. exists v, q. repeat split; assumption.
Qed.

Lemma round_scores_get (scores rounded : list (string * json)) :
  round_scores scores = Ok rounded ->
  map fst rounded = map fst scores
  /\ (forall (name : string) (v : json),
        dict_get name scores = Some v ->
        exists (x : pyfloat) (n : Z),
          float_of v = Ok x /\ round_float x = Ok n
          /\ dict_get name rounded = Some (JInt n))
  /\ Forall (fun kv => exists n, snd kv = JInt n) rounded.
Proof.
  revert rounded. induction scores as [|[key v] scores IH]; intros rounded; simpl.
  - intros Heq. injection Heq as <-. repeat split; [discriminate | constructor].
  - destruct (float_of v) as [x|e] eqn:Hx; [|discriminate]. simpl.
    destruct (round_float x) as [n|e] eqn:Hn; [|discriminate]. simpl.
    destruct (round_scores scores) as [rest|e]; [|discriminate]. simpl.
    intros Heq. injection Heq as <-.
    destruct (IH rest eq_refl) as (Hkeys & Hget & Hall). simpl.
    split; [f_equal; exact Hkeys|]. split.
    + intros name v'. destruct (String.eqb name key).
      * intros Hv. injection Hv as <-. eauto.
      * apply Hget.
    + constructor; [simpl; eauto | exact Hall].
Qed.

Lemma sum_values_shift (scores : list (string * json)) (acc : Z) :
  fold_left (fun acc kv => match snd kv with JInt n => acc + n | _ => acc end)%Z
            scores acc
  = (acc + sum_values scores)%Z.
Proof.
  unfold sum_values. revert acc. induction scores as [|[k v] scores IH]; intros acc; simpl.
  - lia.
  - rewrite IH. rewrite (IH (match v with JInt n => 0 + n | _ => 0 end)%Z).
    destruct v; lia.
Qed.

Lemma sum_values_cons (k : string) (n : Z) (scores : list (string * json)) :
  sum_values ((k, JInt n) :: scores) = (n + sum_values scores)%Z.
Proof. unfold sum_values at 1. simpl. rewrite sum_values_shift. lia. Qed.

(** With distinct keys, the sum over the entries is the sum over the keys
    of what each key holds. *)
Lemma sum_values_keys (scores : list (string * json)) :
  List.NoDup (map fst scores) ->
  Forall (fun kv => exists n, snd kv = JInt n) scores ->
  sum_values scores = sum_named (map fst scores) scores.
Proof.
  induction scores as [|[k v] scores IH]; intros Hnd Hall; [reflexivity|].
  inversion Hnd as [|? ? Hnotin Hnd']; subst.
  inversion Hall as [|? ? [n Hn] Hall']; subst. simpl in Hn. subst v.
  rewrite sum_values_cons. simpl. rewrite String.eqb_refl. f_equal.
  rewrite (IH Hnd' Hall'). clear IH Hall Hall' Hnd.
  assert (Hext : forall names, ~ In k names ->
            sum_named names scores = sum_named names ((k, JInt n) :: scores)).
  { induction names as [|name names IHn]; intros Hk; [reflexivity|]. simpl.
    destruct (String.eqb name k) eqn:Heq.
    - apply String.eqb_eq in Heq. subst. exfalso. apply Hk. left. reflexivity.
    - rewrite IHn; [reflexivity|]. intros Hin. apply Hk. right. exact Hin. }
  apply Hext. exact Hnotin.
Qed.

Lemma sum_named_perm (names names' : list string) (scores : list (string * json)) :
  Permutation names names' -> sum_named names scores = sum_named names' scores.
Proof.
  induction 1 as [|x l l' _ IH|x y l|l l' l'' _ IH1 _ IH2]; simpl.
  - reflexivity.
  - rewrite IH. reflexivity.
  - destruct (dict_get y scores) as [[]|], (dict_get x scores) as [[]|]; lia.
  - congruence.
Qed.

Lemma required_scores_nodup : List.NoDup required_scores.
Proof.
  unfold required_scores.
  repeat (constructor; [simpl; intuition discriminate|]). constructor.
Qed.

(** The rounding loop, entry by entry. *)
Lemma round_scores_values (scores rounded : list (string * json)) :
  round_scores scores = Ok rounded ->
  exists values : list Z,
    Forall2 rounded_to scores values
    /\ rounded = with_values scores values
    /\ sum_values rounded = total values.
Proof.
  revert rounded. induction scores as [|[key v] scores IH]; intros rounded; simpl.
  - intros Heq. injection Heq as <-. exists []. repeat split. constructor.
  - destruct (float_of v) as [x|e] eqn:Hx; [|discriminate]. simpl.
    destruct (round_float x) as [n|e] eqn:Hn; [|discriminate]. simpl.
    destruct (round_scores scores) as [rest|e]; [|discriminate]. simpl.
    intros Heq. injection Heq as <-.
    destruct (IH rest eq_refl) as (values & Hall & -> & Hsum).
    destruct x as [q| |]; try discriminate. injection Hn as <-.
    exists (py_round q :: values). split; [|split].
    + constructor; [exists q; split; [exact Hx | reflexivity] | exact Hall].
    + reflexivity.
    + rewrite sum_values_cons, Hsum. reflexivity.
Qed.

Lemma finish_scores_validated (parsed_data data : json) :
  finish_scores parsed_data = Ok data -> validated parsed_data data.
Proof.
  unfold finish_scores.
  destruct (_validate_scores parsed_data) as [[|]|e] eqn:Hvalid; try discriminate.
  cbv beta iota. destruct parsed_data as [| | | | | |d]; try discriminate.
  unfold _validate_scores in Hvalid.
  destruct (dict_get "validation_scores" d) as [[| | | | | |scores]|] eqn:Hget;
    try discriminate.
  destruct (round_scores scores) as [rounded|e] eqn:Hround; [|discriminate].
  simpl. intros Heq. injection Heq as <-.
  destruct (round_scores_get _ _ Hround) as (Hkeys & Hrounded & Hints).
  destruct (round_scores_values _ _ Hround) as (values & Hall & Hzip & Hsum).
  pose proof (check_scores_true _ _ Hvalid) as Hchecked.
  exists d, scores, values. rewrite <- Hzip, <- Hsum.
  repeat split; try assumption.
  - intros name Hin. destruct (Hchecked name Hin) as (v & x & Hv & Hx & Hrange).
    destruct (Hrounded name v Hv) as (x' & n & Hx' & Hn & Hr).
    rewrite Hx in Hx'. injection Hx' as <-. simpl in Hn. injection Hn as <-.
    exists v, x. repeat split; try assumption; apply round_bounds; assumption.
  - intros Hnd Hsub. rewrite <- Hkeys in Hnd, Hsub.
    rewrite (sum_values_keys rounded Hnd Hints).
    apply sum_named_perm. apply Permutation.NoDup_Permutation;
      [exact Hnd | apply required_scores_nodup |].
    intros k. split; [apply Hsub|]. intros Hin.
    destruct (Hchecked k Hin) as (v & x & Hv & _). rewrite Hkeys.
    apply (dict_get_in_keys _ _ _ Hv).
Qed.

(** A pass that returns got a response of status 200 from the provider,
    and returns the finished scores of what was extracted from it. *)
Lemma validator_body_return (max_retries : Z) (attempt : nat) (w w' : world)
  (data : json) (assigned : option json) :
  attempt_body max_retries attempt w = (Ok (Return data, assigned), w') ->
  exists (r : response) (content : json) (s : string) (parsed_data : json),
    provider w (calls w) = Responds r /\ status_code r = 200%Z
    /\ message_content r = Ok content
    /\ require_text "Empty response from API" content = Ok s
    /\ extract_json s = Ok parsed_data
    /\ finish_scores parsed_data = Ok data.
Proof.
  destruct (provider w (calls w)) as [r|m] eqn:Hp.
  - destruct (Z.eq_dec (status_code r) 200%Z) as [H200|H200].
    + rewrite (validator_body_200 _ _ _ _ Hp H200).
      destruct (handle_ok r) as [assigned' [data'|e]] eqn:Hok; [|discriminate].
      intros Heq. injection Heq as <- <- <-.
      unfold handle_ok in Hok.
      destruct (message_content r) as [response_content|e] eqn:Hc; [|discriminate].
      injection Hok as _ Hok.
      destruct (require_text _ response_content) as [s|e] eqn:Hs; [|discriminate].
      simpl in Hok.
      destruct (extract_json s) as [parsed_data|e] eqn:He; [|discriminate].
      simpl in Hok.
      exists r, response_content, s, parsed_data. repeat split; assumption.
    + destruct (Z.eq_dec (status_code r) 429%Z) as [H429|H429].
      * rewrite (validator_body_429 _ _ _ _ Hp H429). discriminate.
      * rewrite (validator_body_terminal _ _ _ _ Hp (conj H200 H429)). discriminate.
  - rewrite (validator_body_fails _ _ _ _ Hp). discriminate.
Qed.

Lemma validator_attempts_returned (max_retries : Z) (todo : list nat)
  (last_error : option string) (response_content : option json)
  (w w' : world) (data : json) :
  attempts max_retries todo last_error response_content w = (Ok (Returned data), w') ->
  exists (c : nat) (r : response) (content : json) (s : string)
         (parsed_data : json),
    (calls w <= c)%nat
    /\ provider w c = Responds r /\ status_code r = 200%Z
    /\ message_content r = Ok content
    /\ require_text "Empty response from API" content = Ok s
    /\ extract_json s = Ok parsed_data
    /\ finish_scores parsed_data = Ok data.
Proof.
  revert last_error response_content w.
  induction todo as [|attempt rest IH]; intros last_error response_content w; simpl.
  - discriminate.
  - rewrite bind_run.
    destruct (validator_body_total max_retries attempt w)
      as (s0 & assigned & w1 & Hbody & Hc1 & Hp1 & _). rewrite Hbody. simpl.
    destruct s0 as [e|e|data'].
    + intros Heq.
      destruct (IH _ _ _ Heq) as (c & r & content & s & parsed & Hc & Hp & Hrest).
      exists c, r, content, s, parsed. split; [lia|]. split; [congruence | exact Hrest].
    + discriminate.
    + intros Heq. injection Heq as <- <-.
      destruct (validator_body_return _ _ _ _ _ _ Hbody)
        as (r & content & s & parsed & Hp & Hrest).
      exists (calls w), r, content, s, parsed. split; [lia|]. split; assumption.
Qed.

(** The competitor search of the validator leaves the provider as it
    was. *)
Lemma analyze_competitors_frame (self : agent) (w : world) :
  provider (snd (_analyze_competitors self w)) = provider w
  /\ (calls w <= calls (snd (_analyze_competitors self w)))%nat.
Proof.
  assert (Hinit : forall w0 : world,
             snd (ScraperAgent.init (api_key self) (file_path self) w0) = w0).
  { intros w0. unfold ScraperAgent.init, ScraperAgent._load_text.
    rewrite !bind_run. unfold read_text.
    destruct (fs w0 !! file_path self) as [[idea|ps|ps]|]; reflexivity. }
  unfold _analyze_competitors. rewrite bind_run.
  specialize (Hinit w).
  destruct (ScraperAgent.init (api_key self) (file_path self) w)
    as [[scraper|e] w0]; simpl in Hinit; subst w0; simpl;
    [|split; [reflexivity | lia]].
  rewrite bind_run.
  destruct (query_mistral_total scraper 3 w) as (out & w1 & -> & Hc & Hp & _).
  rewrite lift_run. simpl. split; [exact Hp | lia].
Qed.

(** C2, as the code has it. When [query_mistral] returns a document that
    is not the error response, the document comes from a response of
    status 200 of the provider, and from the data parsed out of its
    content: each of the six required scores in it is an integer from 0 to
    10, the rounding (a tie to even) of the value the model gave; every
    other score the model gave is rounded too, and [overall_score] is the
    sum of all the rounded scores, which replaces the aggregate of the
    model. It is the sum of the six when the model gave no score besides
    them. *)
Theorem validated_scores (self : agent) (max_retries : Z) (w w' : world)
  (out : string) :
  query_mistral self max_retries w = (Ok out, w') ->
  (exists (last_error : option string) (response_content : option json),
      out = json_dumps (error_response max_retries last_error response_content))
  \/ (exists (c : nat) (r : response) (content : json) (s : string)
             (parsed_data data : json),
         provider w c = Responds r /\ status_code r = 200%Z
         /\ message_content r = Ok content
         /\ require_text "Empty response from API" content = Ok s
         /\ extract_json s = Ok parsed_data
         /\ out = json_dumps data
         /\ validated parsed_data data).
Proof.
  unfold query_mistral. rewrite bind_run.
  pose proof (analyze_competitors_frame self w) as [Hprov _].
  destruct (_analyze_competitors self w) as [[top|e] w1]; [|discriminate].
  simpl in Hprov.
  rewrite bind_run, lift_run.
  destruct (competitor_context top) as [[]|e]; [|discriminate].
  rewrite bind_run.
  destruct (attempts _ _ _ _ w1) as [[[data|last_error content]|e] w2] eqn:Hloop;
    [| |discriminate]; rewrite ret_run; intros Heq; injection Heq as <- <-.
  - right.
    destruct (validator_attempts_returned _ _ _ _ _ _ _ Hloop)
      as (c & r & content & s & parsed & _ & Hp & Hs & Hc & Ht & He & Hfin).
    exists c, r, content, s, parsed, data. rewrite <- Hprov.
    repeat split; try assumption. apply finish_scores_validated, Hfin.
  - left. eauto.
Qed.

End Validator.

(** The scores of the example are rounded, a tie to the even neighbour,
    and summed: 8 + 8 + 6 + 2 + 9 + 10. *)
Example validated_scores_example :
  fst (ValidatorAgent.query_mistral (rt := Reference.runtime) Examples.validator 3
         (Reference.world_of Examples.idea_files
            [Examples.ok Examples.ideas_text; Examples.ok Examples.scores_text]))
  = Py.Ok
      (Reference.dumps
         (Json.JDict
            [ ("validation_scores",
               Json.JDict
                 [ ("uniqueness", Json.JInt 8); ("feasibility", Json.JInt 8);
                   ("market_trend", Json.JInt 6); ("scalability", Json.JInt 2);
                   ("problem_relevance", Json.JInt 9);
                   ("user_adoption_potential", Json.JInt 10) ]);
              ("overall_score", Json.JInt 43) ])).
Proof. vm_compute. reflexivity. Qed.

Lemma validated_scores_witness :
  let script := [Examples.ok Examples.ideas_text; Examples.ok Examples.scores_text] in
  let w := Reference.world_of Examples.idea_files script in
  let w' := Py.mkWorld Examples.idea_files (Reference.scripted script) 2
              (fun _ => 0%Q) 2 [Py.Post; Py.Post] in
  let out :=
    Reference.dumps
      (Json.JDict
         [ ("validation_scores",
            Json.JDict
              [ ("uniqueness", Json.JInt 8); ("feasibility", Json.JInt 8);
                ("market_trend", Json.JInt 6); ("scalability", Json.JInt 2);
                ("problem_relevance", Json.JInt 9);
                ("user_adoption_potential", Json.JInt 10) ]);
           ("overall_score", Json.JInt 43) ]) in
  ValidatorAgent.query_mistral (rt := Reference.runtime) Examples.validator 3 w
  = (Py.Ok out, w')
  /\ ((exists (last_error : option string) (response_content : option Json.json),
          out = Reference.dumps
                  (ValidatorAgent.error_response 3 last_error response_content))
      \/ (exists (c : nat) (r : Py.response) (content : Json.json) (s : string)
                 (parsed_data data : Json.json),
             Py.provider w c = Py.Responds r /\ Py.status_code r = 200%Z
             /\ JsonRepair.message_content (rt := Reference.runtime) r = Py.Ok content
             /\ JsonRepair.require_text "Empty response from API" content = Py.Ok s
             /\ JsonRepair.extract_json (rt := Reference.runtime) s = Py.Ok parsed_data
             /\ out = Reference.dumps data
             /\ Spec.validated (rt := Reference.runtime) parsed_data data)).
Proof.
  intros script w w' out.
  assert (Hrun : ValidatorAgent.query_mistral (rt := Reference.runtime)
                   Examples.validator 3 w = (Py.Ok out, w'))
    by (vm_compute; reflexivity).
  split; [exact Hrun|].
  exact (validated_scores (rt := Reference.runtime) Examples.validator 3 w w' out Hrun).
Defined.

(** C2, as the specification words it, fails: with a seventh score of 7
    beside six scores of 5, the document returned has an [overall_score]
    of 37, not the 30 the six sum to. *)
Lemma overall_score_counts_extra_scores :
  fst (ValidatorAgent.query_mistral (rt := Reference.runtime) Examples.validator 3
         (Reference.world_of Examples.idea_files
            [Examples.ok Examples.ideas_text; Examples.ok Examples.seven_scores_text]))
  = Py.Ok
      (Reference.dumps
         (Json.JDict
            [ ("validation_scores",
               Json.JDict
                 [ ("uniqueness", Json.JInt 5); ("feasibility", Json.JInt 5);
                   ("market_trend", Json.JInt 5); ("scalability", Json.JInt 5);
                   ("problem_relevance", Json.JInt 5);
                   ("user_adoption_potential", Json.JInt 5);
                   ("innovation", Json.JInt 7) ]);
              ("overall_score", Json.JInt 37) ]))
  /\ (5 + 5 + 5 + 5 + 5 + 5 = 30)%Z.
Proof. vm_compute. split; reflexivity. Qed.

(* ===================================================================== *)
(** * Gateway: a status other than 200 and 429 is not retried *)
(* ===================================================================== *)

Section Terminal.
Import Json Py JsonRepair Retry Spec.
Context {rt : Runtime}.

(** The competitor context of the validator when its competitor search
    ended with the error document, and [json.loads] reads back what
    [json.dumps] wrote. *)
Lemma top_competitors_of_error (last_error : option string) :
  json_loads (json_dumps (ScraperAgent.error_response 3 last_error))
  = Parsed (ScraperAgent.error_response 3 last_error) ->
  ValidatorAgent.top_competitors_of
    (json_dumps (ScraperAgent.error_response 3 last_error)) = Ok [].
Proof.
  intros Hloads. unfold ValidatorAgent.top_competitors_of, loads.
  rewrite Hloads. reflexivity.
Qed.

(** C5, as the code has it. In the retry loop of either agent a response
    with a status other than 200 and 429 is the last event: whichever pass
    receives it, no sleep and no post follow, and the loop ends with
    [HTTP <status>: <body>] as the last error. So
    [ScraperAgent.query_mistral] makes exactly one post when the first
    response is of this kind, and so does the loop of
    [ValidatorAgent.query_mistral]; but [ValidatorAgent.query_mistral]
    runs [ScraperAgent.query_mistral] before its own loop, and makes two
    posts when both are answered by such a status. *)
Theorem terminal_status_is_not_retried (max_retries : Z) (w : world) :
  (forall (self : ScraperAgent.agent) (r : response),
      (0 < max_retries)%Z ->
      provider w (calls w) = Responds r -> terminal r ->
      ScraperAgent.query_mistral self max_retries w
      = (Ok (json_dumps
               (ScraperAgent.error_response max_retries (Some (http_error r)))),
         posted w))
  /\ (forall (todo : list nat) (last_error : option string) (w' : world)
        (res : json + option string) (c : nat) (r : response),
        ScraperAgent.attempts max_retries todo last_error w = (Ok res, w') ->
        (calls w <= c < calls w')%nat ->
        provider w c = Responds r -> terminal r ->
        calls w' = S c
        /\ res = inr (Some (http_error r))
        /\ exists before, trace w' = (before ++ [Post])%list)
  /\ (forall (todo : list nat) (last_error : option string)
        (response_content : option json) (w' : world)
        (res : ValidatorAgent.loop_end) (c : nat) (r : response),
        ValidatorAgent.attempts max_retries todo last_error response_content w
        = (Ok res, w') ->
        (calls w <= c < calls w')%nat ->
        provider w c = Responds r -> terminal r ->
        calls w' = S c
        /\ (exists content,
              res = ValidatorAgent.Exhausted (Some (http_error r)) content)
        /\ exists before, trace w' = (before ++ [Post])%list)
  /\ (forall r : response,
        (0 < max_retries)%Z ->
        provider w (calls w) = Responds r -> terminal r ->
        ValidatorAgent.attempts max_retries (range max_retries) None None w
        = (Ok (ValidatorAgent.Exhausted (Some (http_error r)) None), posted w))
  /\ (forall (self : ValidatorAgent.agent) (idea : string) (r1 r2 : response),
        (0 < max_retries)%Z ->
        fs w !! ValidatorAgent.file_path self = Some (TextFile idea) ->
        provider w (calls w) = Responds r1 -> terminal r1 ->
        provider w (S (calls w)) = Responds r2 -> terminal r2 ->
        json_loads
          (json_dumps (ScraperAgent.error_response 3 (Some (http_error r1))))
        = Parsed (ScraperAgent.error_response 3 (Some (http_error r1))) ->
        ValidatorAgent.query_mistral self max_retries w
        = (Ok (json_dumps
                 (ValidatorAgent.error_response max_retries
                    (Some (http_error r2)) None)),
           posted (posted w))).
Proof.
  split; [|split; [|split; [|split]]].
  - intros self r. apply query_mistral_terminal_first.
  - intros todo last_error w'. apply attempts_stop_at_terminal.
  - intros todo last_error response_content w'. apply validator_stops_at_terminal.
  - intros r. apply validator_terminal_first.
  - intros self idea r1 r2 Hn Hfile Hp1 Ht1 Hp2 Ht2 Hloads.
    unfold ValidatorAgent.query_mistral, ValidatorAgent._analyze_competitors.
    rewrite !bind_run.
    unfold ScraperAgent.init, ScraperAgent._load_text. rewrite !bind_run.
    unfold read_text. rewrite Hfile. rewrite !ret_run.
    rewrite bind_run.
    rewrite (query_mistral_terminal_first _ 3 w r1 eq_refl Hp1 Ht1).
    rewrite lift_run, (top_competitors_of_error _ Hloads).
    rewrite bind_run, lift_run. simpl. rewrite bind_run.
    rewrite (validator_terminal_first max_retries (posted w) r2 Hn Hp2 Ht2).
    reflexivity.
Qed.

End Terminal.

(** The provider answers every post with a status 500. *)
Lemma terminal_status_is_not_retried_witness :
  let w := Reference.world_of Examples.idea_files
             [ Py.Responds (Py.mkResponse 500 "oops");
               Py.Responds (Py.mkResponse 500 "oops") ] in
  ScraperAgent.query_mistral (rt := Reference.runtime) Examples.scraper 3 w
  = (Py.Ok
       (Reference.dumps
          (ScraperAgent.error_response 3 (Some "HTTP 500: oops"))),
     Spec.posted w)
  /\ ValidatorAgent.query_mistral (rt := Reference.runtime) Examples.validator 3 w
     = (Py.Ok
          (Reference.dumps
             (ValidatorAgent.error_response 3 (Some "HTTP 500: oops") None)),
        Spec.posted (Spec.posted w)).
Proof.
  intros w.
  pose proof (terminal_status_is_not_retried (rt := Reference.runtime) 3 w)
    as (Hscraper & _ & _ & _ & Hvalidator).
  split.
  - apply (Hscraper Examples.scraper (Py.mkResponse 500 "oops"));
      [reflexivity | reflexivity | split; discriminate].
  - apply (Hvalidator Examples.validator Examples.idea_text
             (Py.mkResponse 500 "oops") (Py.mkResponse 500 "oops"));
      try reflexivity; try (split; discriminate).
Defined.

(** C5, as the specification words it, fails for the validator: with a
    provider that answers 500 to every post, [ValidatorAgent.query_mistral]
    makes two posts, one in its competitor search and one in its own loop. *)
Lemma validator_makes_two_posts :
  let w := Reference.world_of Examples.idea_files
             [ Py.Responds (Py.mkResponse 500 "oops");
               Py.Responds (Py.mkResponse 500 "oops") ] in
  Py.calls
    (snd (ValidatorAgent.query_mistral (rt := Reference.runtime)
            Examples.validator 3 w)) = 2%nat
  /\ Py.trace
       (snd (ValidatorAgent.query_mistral (rt := Reference.runtime)
               Examples.validator 3 w)) = [Py.Post; Py.Post].
Proof. vm_compute. split; reflexivity. Qed.

(* ===================================================================== *)
(** * JSON extraction and repair *)
(* ===================================================================== *)

Section Repair.
Import Json Py JsonRepair Spec.

Lemma from_first_open_intro (pre rest : string) :
  free_of open_brace pre ->
  from_first_open (pre ++ String open_brace rest) = Some (String open_brace rest).
Proof.
  induction pre as [|c pre IH]; simpl; intros Hfree.
  - reflexivity.
  - destruct Hfree as [Hc Hfree]. rewrite ?append_cons. simpl.
    apply Ascii.eqb_neq in Hc. rewrite Hc. apply IH, Hfree.
Qed.

Lemma from_first_open_elim (s t : string) :
  from_first_open s = Some t ->
  exists pre rest : string,
    s = pre ++ t /\ t = String open_brace rest /\ free_of open_brace pre.
Proof.
  revert t. induction s as [|c s IH]; simpl; intros t; [discriminate|].
  destruct (Ascii.eqb c open_brace) eqn:Hc.
  - intros Heq. injection Heq as <-. apply Ascii.eqb_eq in Hc. subst c.
    exists "", s. repeat split.
  - intros Ht. destruct (IH t Ht) as (pre & rest & -> & -> & Hfree).
    exists (String c pre), rest. apply Ascii.eqb_neq in Hc. repeat split; assumption.
Qed.

Lemma upto_last_close_none (s : string) :
  upto_last_close s = None <-> free_of close_brace s.
Proof.
  induction s as [|c s IH]; simpl; [tauto|].
  destruct (upto_last_close s) as [r|].
  - split; [discriminate|]. intros [_ Hfree]. apply IH in Hfree. discriminate.
  - destruct (Ascii.eqb c close_brace) eqn:Hc.
    + apply Ascii.eqb_eq in Hc. split; [discriminate | intros [Hne _]; congruence].
    + apply Ascii.eqb_neq in Hc. split; [intros _; split; [exact Hc | apply IH; reflexivity] | reflexivity].
Qed.

Lemma upto_last_close_intro (middle post : string) :
  free_of close_brace post ->
  upto_last_close (middle ++ String close_brace post)
  = Some (middle ++ String close_brace "").
Proof.
  intros Hfree. induction middle as [|c middle IH].
  - rewrite !append_nil. simpl.
    apply upto_last_close_none in Hfree. rewrite Hfree. reflexivity.
  - rewrite !append_cons. simpl. rewrite IH. reflexivity.
Qed.

Lemma upto_last_close_elim (t r : string) :
  upto_last_close t = Some r ->
  exists middle post : string,
    r = middle ++ String close_brace ""
    /\ t = r ++ post /\ free_of close_brace post.
Proof.
  revert r. induction t as [|c t IH]; simpl; intros r; [discriminate|].
  destruct (upto_last_close t) as [r'|] eqn:Hr'.
  - intros Heq. injection Heq as <-.
    destruct (IH r' eq_refl) as (middle & post & -> & -> & Hfree).
    exists (String c middle), post. repeat split; assumption.
  - destruct (Ascii.eqb c close_brace) eqn:Hc; [|discriminate].
    intros Heq. injection Heq as <-. apply Ascii.eqb_eq in Hc. subst c.
    exists "", t. repeat split. apply upto_last_close_none, Hr'.
Qed.

(** [re.search(r'\{[\s\S]*\}', text)] finds the span from the first opening
    brace to the last closing brace. *)
Lemma re_search_braces_iff (text span : string) :
  re_search_braces text = Some span <-> GreedySpan text span.
Proof.
  unfold re_search_braces, GreedySpan. split.
  - destruct (from_first_open text) as [t|] eqn:Ht; [|discriminate].
    intros Hr.
    destruct (from_first_open_elim _ _ Ht) as (pre & rest & -> & -> & Hpre).
    destruct (upto_last_close_elim _ _ Hr) as (middle & post & -> & Hsplit & Hpost).
    destruct middle as [|c middle].
    + rewrite append_nil in Hsplit. rewrite append_cons in Hsplit.
      exfalso. assert (Hne : open_brace <> close_brace) by discriminate.
      apply Hne. congruence.
    + rewrite !append_cons in Hsplit. injection Hsplit as <- Hrest.
      exists pre, middle, post. rewrite append_cons. rewrite Hrest.
      repeat split; try assumption.
  - intros (pre & middle & post & -> & -> & Hpre & Hpost).
    rewrite append_cons, from_first_open_intro by assumption.
    rewrite append_assoc.
    change (String open_brace (middle ++ String close_brace "" ++ post))
      with (String open_brace middle ++ String close_brace post).
    apply (upto_last_close_intro (String open_brace middle) post Hpost).
Qed.

Context {rt : Runtime}.

(** C3, as the code has it. The routine first parses the stripped text.
    When that raises a [JSONDecodeError] it takes the span from the first
    opening brace of the text to its last closing brace, and parses that
    span: the result, or the [JSONDecodeError], of this second parse is
    what the routine gives. With no such span it raises the [ValueError]
    [No valid JSON found in response]. *)
Theorem extract_json_greedy (response_content : string) :
  (forall j : json,
      json_loads (PyStr.strip response_content) = Parsed j ->
      extract_json response_content = Ok j)
  /\ (forall (m span : string),
        json_loads (PyStr.strip response_content) = DecodeError m ->
        GreedySpan response_content span ->
        extract_json response_content = loads span)
  /\ (forall m : string,
        json_loads (PyStr.strip response_content) = DecodeError m ->
        (forall span : string, ~ GreedySpan response_content span) ->
        extract_json response_content
        = raise ValueError "No valid JSON found in response").
Proof.
  unfold extract_json, loads. split; [|split].
  - intros j ->. reflexivity.
  - intros m span -> Hspan. apply re_search_braces_iff in Hspan.
    simpl. rewrite Hspan. reflexivity.
  - intros m -> Hnone. simpl.
    destruct (re_search_braces response_content) as [span|] eqn:Hr; [|reflexivity].
    exfalso. apply (Hnone span), re_search_braces_iff, Hr.
Qed.

End Repair.

(** A text wrapped in prose: the direct parse fails, the span between the
    outermost braces parses. *)
Lemma extract_json_greedy_witness :
  let text := Reference.jtext "Sure! {'a': {'b': 2}} Hope this helps." in
  JsonRepair.extract_json (rt := Reference.runtime) text
  = JsonRepair.loads (rt := Reference.runtime) (Reference.jtext "{'a': {'b': 2}}")
  /\ JsonRepair.loads (rt := Reference.runtime) (Reference.jtext "{'a': {'b': 2}}")
     = Py.Ok (Json.JDict [("a", Json.JDict [("b", Json.JInt 2)])]).
Proof.
  intros text. split; [|vm_compute; reflexivity].
  apply (proj1 (proj2 (extract_json_greedy (rt := Reference.runtime) text))
           "Expecting value" (Reference.jtext "{'a': {'b': 2}}")).
  - vm_compute. reflexivity.
  - exists "Sure! ", (Reference.jtext "'a': {'b': 2}"), " Hope this helps.".
    vm_compute. repeat split; discriminate.
Defined.

(** C3, as the specification words it, fails: in a text with two objects
    the first balanced span is the first object, which parses; the routine
    takes the span that runs to the last closing brace, which does not
    parse, and raises. *)
Lemma greedy_span_is_not_first_balanced :
  JsonRepair.first_balanced_span Examples.two_objects_text
  = Some (Reference.jtext "{'a': 1}")
  /\ Reference.loads (Reference.jtext "{'a': 1}")
     = Py.Parsed (Json.JDict [("a", Json.JInt 1)])
  /\ JsonRepair.re_search_braces Examples.two_objects_text
     = Some (Reference.jtext "{'a': 1} and {'b': 2}")
  /\ JsonRepair.extract_json (rt := Reference.runtime) Examples.two_objects_text
     = Py.Raise (Py.mkExn Py.JSONDecodeError "Extra data").
Proof. vm_compute. repeat split. Qed.


(* ===================================================================== *)
(** * PipelineOrchestrator and the endpoint: who catches what *)
(* ===================================================================== *)

Section Pipeline.
Import Json Py Spec.
Context {rt : Runtime}.

Lemma try_catch_run {A} (body : M A) (classes : list exn_class)
  (handler : exn -> M A) (w : world) :
  try_catch body classes handler w
  = match body w with
    | (Ok a, w') => (Ok a, w')
    | (Raise e, w') =>
        if existsb (subclass (exn_cls e)) classes
        then handler e w' else (Raise e, w')
    end.
Proof. reflexivity. Qed.

(** Where the upload cannot be stored, the endpoint reports it and runs
    nothing. Otherwise it returns what [run_pipeline] returns on the
    stored upload, and turns what it raises into the all-empty result with
    an error. *)
Lemma endpoint_run (file : Api.upload) (api_key : string) (w : world) :
  Api.run_pipeline file api_key w
  = match fs w !! ("temp_" ++ Api.filename file),
          create_error ("temp_" ++ Api.filename file) with
    | None, Some message =>
        (Ok (Api.failure ("File upload error: " ++ message)), w)
    | _, _ =>
        match
          MainAgent.run_pipeline
            (MainAgent.mkAgent api_key ("temp_" ++ Api.filename file))
            (with_files w
               (<["temp_" ++ Api.filename file := Api.body file]> (fs w)))
        with
        | (Ok r, w') => (Ok r, w')
        | (Raise e, w') =>
            (Ok (Api.failure
                   ((if subclass (exn_cls e) JSONDecodeError
                     then "Invalid JSON response: " else "Pipeline error: ")
                      ++ exn_str e)),
             w')
        end
    end.
Proof.
  unfold Api.run_pipeline. rewrite try_catch_all, bind_run. unfold store at 1.
  assert (Hstored :
            (let (r, w0) :=
               (Ok tt,
                with_files w
                  (<["temp_" ++ Api.filename file := Api.body file]> (fs w))) in
             match r with
             | Ok a =>
                 let (r0, w') :=
                   try_catch
                     (try_catch
                        (MainAgent.run_pipeline
                           (MainAgent.mkAgent api_key ("temp_" ++ Api.filename file)))
                        [JSONDecodeError]
                        (fun je =>
                           mret (Api.failure ("Invalid JSON response: " ++ exn_str je))))
                     [Exception]
                     (fun e => mret (Api.failure ("Pipeline error: " ++ exn_str e)))
                     w0 in
                 match r0 with
                 | Ok a0 => (Ok a0, w')
                 | Raise e =>
                     (mret (Api.failure ("File upload error: " ++ exn_str e)) : M _) w'
                 end
             | Raise e =>
                 (mret (Api.failure ("File upload error: " ++ exn_str e)) : M _) w0
             end)
            = match
                MainAgent.run_pipeline
                  (MainAgent.mkAgent api_key ("temp_" ++ Api.filename file))
                  (with_files w
                     (<["temp_" ++ Api.filename file := Api.body file]> (fs w)))
              with
              | (Ok r, w') => (Ok r, w')
              | (Raise e, w') =>
                  (Ok (Api.failure
                         ((if subclass (exn_cls e) JSONDecodeError
                           then "Invalid JSON response: " else "Pipeline error: ")
                            ++ exn_str e)),
                   w')
              end).
  { cbv iota beta. rewrite try_catch_all, try_catch_run.
    destruct (MainAgent.run_pipeline _ _) as [[r|e] w']; [reflexivity|].
    simpl. rewrite orb_false_r.
    destruct (exn_class_eqb (exn_cls e) JSONDecodeError); reflexivity. }
  destruct (fs w !! ("temp_" ++ Api.filename file)) as [f|];
    [exact Hstored|].
  destruct (create_error ("temp_" ++ Api.filename file)) as [message|];
    [reflexivity | exact Hstored].
Qed.





End Pipeline.



(** An upload whose name has a directory part: the reference system has
    no such directory, the endpoint reports that the upload failed, and
    nothing is stored, read or requested. *)
Example upload_into_a_missing_directory :
  let w := Reference.world_of ∅ [Examples.ok Examples.ideas_text] in
  Api.run_pipeline (rt := Reference.runtime)
    (Api.mkUpload "sub/idea.txt" (Py.TextFile Examples.idea_text)) "key" w
  = (Py.Ok
       (MainAgent.mkResult [] [] []
          (Some "File upload error: [Errno 2] No such file or directory: 'temp_sub/idea.txt'")),
     w).
Proof. vm_compute. reflexivity. Qed.

(** The same blank answer through the endpoint: the caller gets the
    all-empty result and the error. *)
Example endpoint_reports_the_blank_answer :
  fst (Api.run_pipeline (rt := Reference.runtime)
         (Api.mkUpload "idea.txt" (Py.TextFile Examples.idea_text)) "key"
         (Reference.world_of ∅
            [ Examples.ok Examples.ideas_text;
              Examples.ok Examples.ideas_text;
              Examples.ok Examples.scores_text;
              Examples.ok Examples.ideas_text;
              Examples.ok "   " ]))
  = Py.Ok (MainAgent.mkResult [] [] []
             (Some "Pipeline error: Empty response from API")).
Proof. vm_compute. reflexivity. Qed.

(* ===================================================================== *)
(** * TextNormalizer: failures, repeated runs, and what the text keeps *)
(* ===================================================================== *)

Section ProcessorMore.
Import PyStr Spec Py ProcessorAgent.
Context {rt : Runtime}.

(** [process_file] raises before it writes, or at its last print. When
    it raises, either no file has changed, or the file has been
    overwritten as in a successful call and the exception is the
    [UnicodeEncodeError] of the print that follows [overwrite_file]:
    standard output lacks the check mark of that line. So where standard
    output takes the line, a call that raises has written nothing. For an
    unknown extension the error is the [ValueError] of the reading, never
    the one of [overwrite_file]. *)
Theorem process_file_fails_before_writing_or_at_the_print (file_path : string)
  (w w' : world) (e : exn) :
  process_file file_path w = (Raise e, w') ->
  (w' = w
   \/ (exists (f : file) (raw message : string),
          fs w !! file_path = Some f
          /\ holds file_path f raw
          /\ print_error (overwritten_message file_path) = Some message
          /\ e = mkExn UnicodeEncodeError message
          /\ w' = with_files w
                    (<[file_path := rewritten file_path (preprocess_text raw)]>
                       (fs w))))
  /\ (print_error (overwritten_message file_path) = None -> w' = w)
  /\ e <> mkExn ValueError "Unsupported file format for overwrite"
  /\ (endswith ".txt" file_path = false ->
      endswith ".docx" file_path = false ->
      endswith ".odt" file_path = false ->
      w' = w /\ e = mkExn ValueError "Unsupported file format").
Proof.
  intros Hrun.
  destruct (process_file_run file_path w)
    as [(f & raw & Hf & Hholds & Hp) | (Hnone & e' & He' & Hcls & Hcls' & Hm & Hext)].
  - rewrite Hp in Hrun. revert Hrun.
    unfold mbind, M_bind, print, mret, M_ret, raise.
    destruct (print_error (overwritten_message file_path)) as [message|] eqn:Hprint;
      [|discriminate].
    intros Heq. injection Heq as <- <-.
    split; [right; exists f, raw, message; repeat split; assumption|].
    split; [discriminate|]. split; [discriminate|].
    intros Ht Hd Ho. inversion Hholds; congruence.
  - rewrite He' in Hrun. injection Hrun as <- <-.
    split; [left; reflexivity|]. split; [reflexivity|].
    split; [intros ->; apply Hm; reflexivity|].
    intros Ht Hd Ho. split; [reflexivity | exact (Hext Ht Hd Ho)].
Qed.

(** A second run finds what the first one wrote: [process_file] succeeds
    again on the same path, on the text the first run returned (followed
    by a newline for an [.odt] document, whose paragraphs are read with a
    newline after each), and writes the result under the same path in the
    same format. *)
Theorem process_file_again (file_path : string) (w w1 : world)
  (preprocessed : string) :
  process_file file_path w = (Ok preprocessed, w1) ->
  let again := preprocess_text (read_back file_path preprocessed) in
  process_file file_path w1
  = (Ok again, with_files w1 (<[file_path := rewritten file_path again]> (fs w1))).
Proof.
  intros Hrun again. apply process_file_iff in Hrun.
  destruct Hrun as (f & raw & Hf & Hholds & Hprint & _ & ->).
  apply process_file_iff.
  exists (rewritten file_path preprocessed), (read_back file_path preprocessed).
  split; [unfold with_files; simpl; apply lookup_insert_eq|].
  split; [|split; [exact Hprint | split; reflexivity]].
  unfold rewritten, read_back.
  inversion Hholds as [raw' Ht | ps Ht Hd | ps Ht Hd Ho]; subst.
  - rewrite Ht. constructor. exact Ht.
  - rewrite Ht, Hd.
    change preprocessed with (join EnhancerAgent.newline [preprocessed]) at 2.
    constructor; assumption.
  - rewrite Ht, Hd.
    change (preprocessed ++ EnhancerAgent.newline)
      with (fold_left (fun all_text p => all_text ++ p ++ EnhancerAgent.newline)
              [preprocessed] "").
    constructor; assumption.
Qed.

Lemma lower_char_idem (c : ascii) : lower_char (lower_char c) = lower_char c.
Proof. destruct c as [[] [] [] [] [] [] [] []]; reflexivity. Qed.

Lemma kept_char_lower (c : ascii) : kept_char c = true -> lower_char c = c.
Proof. destruct c as [[] [] [] [] [] [] [] []]; intros H; try reflexivity; discriminate H. Qed.

Lemma lower_idem (s : string) : lower (lower s) = lower s.
Proof.
  induction s as [|c s IH]; simpl; [reflexivity|].
  rewrite lower_char_idem, IH. reflexivity.
Qed.

Lemma remove_special_app (s t : string) :
  remove_special (s ++ t) = remove_special s ++ remove_special t.
Proof.
  induction s as [|c s IH]; [reflexivity|].
  rewrite append_cons. simpl. destruct (kept_char c); rewrite IH; reflexivity.
Qed.

Lemma remove_special_fixed (s : string) :
  lower (remove_special s) = remove_special s
  /\ remove_special (remove_special s) = remove_special s.
Proof.
  induction s as [|c s [IHl IHr]]; simpl; [split; reflexivity|].
  destruct (kept_char c) eqn:Hc; [|split; assumption].
  simpl. rewrite Hc, IHl, IHr, (kept_char_lower c Hc). split; reflexivity.
Qed.

Lemma special_not_kept (c : ascii) : special c -> kept_char (lower_char c) = false.
Proof.
  intros (Hcap & Hsmall & Hdigit & Hblank).
  rewrite (lower_char_small c Hcap). unfold kept_char, is_digit. cbv zeta.
  destruct (is_space c) eqn:Hs; [apply is_space_blank in Hs; contradiction|].
  unfold small_letter, digit in *.
  rewrite !orb_false_iff, !andb_false_iff, !Nat.leb_gt. repeat split; try lia.
Qed.

Lemma strewn_removed (s t : string) :
  strewn s t -> remove_special (lower t) = remove_special (lower s).
Proof.
  induction 1 as [|c s t _ IH|c s t Hc _ IH]; simpl.
  - reflexivity.
  - rewrite IH. reflexivity.
  - rewrite (special_not_kept c Hc). exact IH.
Qed.

(** On ASCII texts, the normalized text does not depend on the case of
    the letters nor on the characters that are no letter, digit or
    whitespace: a text that differs from [text_data] by the case of its
    letters only, [text_data.lower()] among them, normalizes as
    [text_data] does, and so does [text_data] with such characters added
    to it anywhere. *)
Theorem preprocess_text_ignores_case_and_specials (text_data : string) :
  ascii_text text_data = true ->
  preprocess_text (lower text_data) = preprocess_text text_data
  /\ (forall other : string,
         ascii_text other = true -> caseless text_data other ->
         preprocess_text other = preprocess_text text_data)
  /\ (forall other : string,
         ascii_text other = true -> strewn text_data other ->
         preprocess_text other = preprocess_text text_data).
Proof.
  intros _. unfold preprocess_text. split; [rewrite lower_idem; reflexivity|]. split.
  - intros other _ Hcase. apply lower_caseless in Hcase. rewrite Hcase. reflexivity.
  - intros other _ Hadded. rewrite (strewn_removed _ _ Hadded). reflexivity.
Qed.

End ProcessorMore.

(** On a console whose encoding has the ASCII characters only, the idea
    file of the examples is normalized and overwritten, and the print of
    the check mark then raises. *)
Lemma process_file_fails_before_writing_or_at_the_print_witness :
  let w := Reference.world_of Examples.idea_files [] in
  let w' := Spec.with_files w
              (<["temp_idea.txt" := Py.TextFile "app tutors students"]> (Py.fs w)) in
  let e := Py.mkExn Py.UnicodeEncodeError "'charmap' codec can't encode character" in
  ProcessorAgent.process_file (rt := Reference.legacy_console) "temp_idea.txt" w
  = (Py.Raise e, w')
  /\ Py.fs w' !! "temp_idea.txt" = Some (Py.TextFile "app tutors students")
  /\ (w' = w
      \/ exists (f : Py.file) (raw message : string),
           Py.fs w !! "temp_idea.txt" = Some f
           /\ Spec.holds "temp_idea.txt" f raw
           /\ Py.print_error (Runtime := Reference.legacy_console)
                (ProcessorAgent.overwritten_message "temp_idea.txt") = Some message
           /\ e = Py.mkExn Py.UnicodeEncodeError message
           /\ w' = Spec.with_files w
                     (<["temp_idea.txt" :=
                          Spec.rewritten "temp_idea.txt"
                            (ProcessorAgent.preprocess_text
                               (rt := Reference.legacy_console) raw)]> (Py.fs w))).
Proof.
  intros w w' e.
  assert (Hrun : ProcessorAgent.process_file (rt := Reference.legacy_console)
                   "temp_idea.txt" w = (Py.Raise e, w')) by (vm_compute; reflexivity).
  split; [exact Hrun|]. split; [vm_compute; reflexivity|].
  exact (proj1 (process_file_fails_before_writing_or_at_the_print
                  (rt := Reference.legacy_console) "temp_idea.txt" w w' e Hrun)).
Defined.

(** An upload with an extension the normalizer does not know: nothing is
    written. *)
Example unsupported_extension_writes_nothing :
  let w := Reference.world_of {[ "temp_idea.pdf" := Py.TextFile Examples.idea_text ]} [] in
  ProcessorAgent.process_file (rt := Reference.runtime) "temp_idea.pdf" w
  = (Py.Raise (Py.mkExn Py.ValueError "Unsupported file format"), w).
Proof. vm_compute. reflexivity. Qed.

(** The idea of the examples in capitals, and with its punctuation
    changed: both normalize as the idea does. *)
Lemma preprocess_text_ignores_case_and_specials_witness :
  Spec.ascii_text "An App for Tutors" = true
  /\ ProcessorAgent.preprocess_text (rt := Reference.runtime) "AN APP FOR TUTORS"
     = ProcessorAgent.preprocess_text (rt := Reference.runtime) "An App for Tutors"
  /\ ProcessorAgent.preprocess_text (rt := Reference.runtime) "An App, for Tutors!"
     = ProcessorAgent.preprocess_text (rt := Reference.runtime) "An App for Tutors".
Proof.
  assert (Hascii : Spec.ascii_text "An App for Tutors" = true) by reflexivity.
  destruct (preprocess_text_ignores_case_and_specials (rt := Reference.runtime)
              "An App for Tutors" Hascii) as (_ & Hcase & Hadded).
  split; [exact Hascii|]. split.
  - apply Hcase; [reflexivity | apply lower_caseless; reflexivity].
  - apply Hadded; [reflexivity|].
    assert (Hcomma : Spec.special ","%char)
      by (unfold Spec.special, Spec.capital, Spec.small_letter, Spec.digit, Spec.blank;
          vm_compute; lia).
    assert (Hbang : Spec.special "!"%char)
      by (unfold Spec.special, Spec.capital, Spec.small_letter, Spec.digit, Spec.blank;
          vm_compute; lia).
    repeat first [ apply Spec.strewn_nil
                 | apply Spec.strewn_keep
                 | apply (Spec.strewn_add _ _ _ Hcomma)
                 | apply (Spec.strewn_add _ _ _ Hbang) ].
Defined.

(** The idea file of the examples, normalized twice. *)
Lemma process_file_again_witness :
  let w := Reference.world_of Examples.idea_files [] in
  let w1 := Spec.with_files w
              (<["temp_idea.txt" := Py.TextFile "app tutors students"]> (Py.fs w)) in
  ProcessorAgent.process_file (rt := Reference.runtime) "temp_idea.txt" w
  = (Py.Ok "app tutors students", w1)
  /\ ProcessorAgent.process_file (rt := Reference.runtime) "temp_idea.txt" w1
     = (Py.Ok "app tutors students",
        Spec.with_files w1
          (<["temp_idea.txt" := Py.TextFile "app tutors students"]> (Py.fs w1))).
Proof.
  intros w w1.
  assert (Hrun : ProcessorAgent.process_file (rt := Reference.runtime)
                   "temp_idea.txt" w = (Py.Ok "app tutors students", w1)).
  { apply process_file_iff.
    exists (Py.TextFile Examples.idea_text), Examples.idea_text.
    split; [reflexivity|]. split; [constructor; reflexivity|].
    split; [reflexivity|]. split; reflexivity. }
  split; [exact Hrun|].
  exact (process_file_again (rt := Reference.runtime) "temp_idea.txt" w w1
           "app tutors students" Hrun).
Defined.

(* ===================================================================== *)
(** * CompetitorFinder: the loop that succeeds, and what it emits *)
(* ===================================================================== *)

Section ScraperMore.
Import Json Py JsonRepair Retry ScraperAgent Spec.
Context {rt : Runtime}.

(** With no attempt to make, [query_mistral] makes no request: it returns
    the error document at once, and the document reports [None] as the
    last error. *)
Theorem no_attempt_no_request (self : agent) (max_retries : Z) (w : world) :
  (max_retries <= 0)%Z ->
  query_mistral self max_retries w
  = (Ok (json_dumps
           (JDict [ ("similar_ideas", JList []);
                    ("error",
                     JStr ("Failed to get valid response after "
                             ++ PyStr.str_of_int max_retries
                             ++ " attempts. Last error: None")) ])),
     w).
Proof.
  intros Hn. unfold query_mistral, range.
  replace (Z.to_nat max_retries) with 0%nat by lia. reflexivity.
Qed.

(** A run of retryable failures, then the passes still to make. *)
Lemma attempts_after_failures (max_retries : Z) (failures : list (string * backoff))
  (rest : list nat) (attempt : nat) (last_error : option string) (w : world) :
  (forall (i : nat) (f : string * backoff),
      failures !! i = Some f ->
      retryable_failure (provider w (calls w + i)) (fst f) (snd f)) ->
  exists w1 : world,
    attempts max_retries (seq attempt (length failures) ++ rest) last_error w
    = attempts max_retries rest (last_error_after last_error failures) w1
    /\ calls w1 = (calls w + length failures)%nat
    /\ trace w1 = (trace w ++ expected_trace max_retries attempt (map snd failures))%list
    /\ provider w1 = provider w /\ fs w1 = fs w /\ uniform w1 = uniform w.
Proof.
  revert attempt last_error w.
  induction failures as [|[m b] failures IH]; intros attempt last_error w Hall; simpl.
  - exists w. split; [reflexivity|]. rewrite app_nil_r. repeat split; lia.
  - rewrite bind_run.
    pose proof (Hall 0%nat (m, b) eq_refl) as H0. rewrite Nat.add_0_r in H0. simpl in H0.
    destruct (attempt_body_retryable max_retries attempt w m b H0)
      as (w1 & -> & Hc & Ht & Hp & Hf & Hu).
    destruct (IH (S attempt) (Some m) w1) as (w2 & -> & Hc' & Ht' & Hp' & Hf' & Hu').
    { intros i f Hi. rewrite Hp, Hc.
      replace (S (calls w) + i)%nat with (calls w + S i)%nat by lia.
      apply Hall. exact Hi. }
    exists w2. split; [reflexivity|].
    rewrite Ht', Ht, Hc', Hc. rewrite <- !app_assoc. simpl.
    repeat split; try congruence; try lia.
Qed.

(** The loop stops at the first response it can use. After any number of
    retryable failures, fewer than [max_retries], a response of status 200
    whose handling does not raise ends the loop: its document is returned,
    every failure before it was followed by its delay, and neither a post
    nor a sleep follows it. *)
Theorem first_usable_response_ends_the_loop (self : agent) (max_retries : Z)
  (w : world) (failures : list (string * backoff)) (r : response) :
  (length failures < Z.to_nat max_retries)%nat ->
  (forall (i : nat) (f : string * backoff),
      failures !! i = Some f ->
      retryable_failure (provider w (calls w + i)) (fst f) (snd f)) ->
  provider w (calls w + length failures) = Responds r ->
  status_code r = 200%Z ->
  (forall w0 : world, succeeds (fst (handle_ok r w0))) ->
  exists (data : json) (w0 w' : world),
    handle_ok r w0 = (Ok data, w')
    /\ query_mistral self max_retries w = (Ok (json_dumps data), w')
    /\ calls w' = (calls w + length failures + 1)%nat
    /\ trace w'
       = (trace w
            ++ flat_map (fun ib => [Post; Sleep (delay (snd ib) (fst ib))])
                 (combine (seq 0 (length failures)) (map snd failures))
            ++ [Post])%list.
Proof.
  intros Hlen Hall Hp Hs Hok. unfold query_mistral, range. rewrite bind_run.
  replace (Z.to_nat max_retries)
    with (length failures + S (Z.to_nat max_retries - S (length failures)))%nat by lia.
  rewrite seq_app.
  destruct (attempts_after_failures max_retries failures
              (seq (0 + length failures)
                   (S (Z.to_nat max_retries - S (length failures))))
              0 None w Hall)
    as (w1 & -> & Hc & Ht & Hp1 & _).
  simpl. rewrite bind_run.
  rewrite <- Hp1, <- Hc in Hp.
  rewrite (attempt_body_200 _ _ _ _ Hp Hs).
  specialize (Hok (posted w1)).
  pose proof (handle_ok_frame r (posted w1)) as Hframe.
  destruct (handle_ok r (posted w1)) as [[data|e] w2] eqn:Hrun; [|destruct Hok].
  simpl in Hframe. destruct Hframe as (_ & _ & Hc2 & _ & Ht2).
  exists data, (posted w1), w2. split; [exact Hrun|]. split; [reflexivity|].
  split; [rewrite Hc2; simpl; lia|].
  rewrite Ht2. simpl. rewrite Ht, <- app_assoc. f_equal. f_equal.
  clear - Hlen. 
  assert (Hgen : forall (kinds : list backoff) (attempt : nat),
             (Z.of_nat (attempt + length kinds) < max_retries)%Z ->
             expected_trace max_retries attempt kinds
             = flat_map (fun ib => [Post; Sleep (delay (snd ib) (fst ib))])
                 (combine (seq attempt (length kinds)) kinds)).
  { induction kinds as [|b kinds IH]; intros attempt Hk; simpl; [reflexivity|].
    simpl in Hk.
    assert ((Z.of_nat attempt <? max_retries - 1)%Z = true) as ->
      by (apply Z.ltb_lt; lia).
    simpl. rewrite IH by lia. reflexivity. }
  rewrite Hgen by (rewrite length_map; lia).
  rewrite length_map. reflexivity.
Qed.

(** What [query_mistral] emits, when it is not the error document, is the
    model's own document with its list of ideas replaced: the list holds
    the valid entries of the model's list and no other, in their order,
    each with a similarity and a category added (the model's category is
    kept when it gave one) and nothing else changed; the list is not
    empty, and each idea in it has a name and a description that are not
    empty. The other keys of the model's document are kept. *)
Theorem emitted_ideas_are_the_valid_entries (self : agent) (max_retries : Z)
  (w w' : world) (out : string) :
  query_mistral self max_retries w = (Ok out, w') ->
  (exists last_error : option string,
      out = json_dumps (error_response max_retries last_error))
  \/ (exists (c : nat) (r : response) (content : json) (s : string)
             (d : list (string * json)) (entries ideas : list json),
         provider w c = Responds r /\ status_code r = 200%Z
         /\ message_content r = Ok content
         /\ require_text "Empty response from Mistral API" content = Ok s
         /\ extract_json s = Ok (JDict d)
         /\ dict_get "similar_ideas" d = Some (JList entries)
         /\ out = json_dumps (JDict (dict_set "similar_ideas" (JList ideas) d))
         /\ Forall2 enriched_entry (List.filter valid_idea entries) ideas
         /\ ideas <> []).
Proof.
  unfold query_mistral. rewrite bind_run.
  destruct (attempts max_retries (range max_retries) None w)
    as [[[data|last_error]|e] w1] eqn:Hloop;
    [| |discriminate]; rewrite ret_run; intros Heq; injection Heq as <- <-.
  - right.
    destruct (attempts_returned_from _ _ _ _ _ _ Hloop)
      as (c & r & w0 & _ & Hp & Hs & Hok & _).
    destruct (handle_ok_entries _ _ _ _ Hok)
      as (content & s & d & entries & ideas & Hc & Ht & He & Hd & -> & Hall & Hne).
    exists c, r, content, s, d, entries, ideas. repeat split; assumption.
  - left. exists last_error. reflexivity.
Qed.

(** The best category so far, along any table. *)
Lemma best_category_fold (count : string * list string -> nat)
  (table : list (string * list string)) :
  let step := fun (best : nat * string) (entry : string * list string) =>
                if (fst best <? count entry)%nat then (count entry, fst entry)
                else best in
  let res := fold_left step table (0%nat, "General") in
  (res = (0%nat, "General")
   /\ forall entry, In entry table -> count entry = 0%nat)
  \/ (exists before entry after,
         table = (before ++ entry :: after)%list
         /\ res = (count entry, fst entry)
         /\ (0 < count entry)%nat
         /\ (forall e, In e before -> (count e < count entry)%nat)
         /\ (forall e, In e after -> (count e <= count entry)%nat)).
Proof.
  intros step res. subst res step.
  induction table as [|x table IH] using rev_ind.
  - left. split; [reflexivity|]. intros entry [].
  - rewrite fold_left_app. simpl.
    destruct IH as [[-> Hzero] | (before & entry & after & -> & -> & Hpos & Hb & Ha)].
    + simpl.
      destruct (0 <? count x)%nat eqn:Hx.
      * apply Nat.ltb_lt in Hx. right. exists table, x, [].
        repeat split; try assumption.
        -- intros e He. rewrite (Hzero e He). exact Hx.
        -- intros e [].
      * apply Nat.ltb_ge in Hx. left. split; [reflexivity|].
        intros e He. apply in_app_or in He as [He|[<-|[]]]; [apply Hzero, He | lia].
    + simpl.
      destruct (count entry <? count x)%nat eqn:Hx.
      * apply Nat.ltb_lt in Hx. right. exists (before ++ entry :: after)%list, x, [].
        repeat split; try lia.
        -- intros e He. apply in_app_or in He as [He|[<-|He]].
           ++ specialize (Hb e He). lia.
           ++ exact Hx.
           ++ specialize (Ha e He). lia.
        -- intros e [].
      * apply Nat.ltb_ge in Hx. right. exists before, entry, (after ++ [x])%list.
        repeat split; try assumption.
        -- rewrite <- app_assoc. reflexivity.
        -- intros e He. apply in_app_or in He as [He|[<-|[]]]; [apply Ha, He | exact Hx].
Qed.

(** [_get_category] does not look at the case of the description, and it
    answers [General] exactly when no keyword of the table occurs in the
    description; otherwise it answers the category with the most keywords
    found, and among categories with as many the first of the table. A
    keyword counts when it occurs anywhere, inside a longer word too. *)
Theorem get_category_is_the_first_best (description : string) :
  let matches := keyword_matches description in
  _get_category (PyStr.lower description) = _get_category description
  /\ ((_get_category description = "General"
       /\ forall entry, In entry categories -> matches (snd entry) = 0%nat)
      \/ (exists before entry after,
             categories = (before ++ entry :: after)%list
             /\ _get_category description = fst entry
             /\ (0 < matches (snd entry))%nat
             /\ (forall e, In e before ->
                   (matches (snd e) < matches (snd entry))%nat)
             /\ (forall e, In e after ->
                   (matches (snd e) <= matches (snd entry))%nat))).
Proof.
  intros matches. split.
  - unfold _get_category. rewrite lower_idem. reflexivity.
  - pose proof (best_category_fold (fun entry => matches (snd entry)) categories)
      as Hfold.
    cbv zeta in Hfold. unfold _get_category.
    fold (keyword_matches description) in Hfold.
    destruct Hfold as [[Hres Hzero] | (before & entry & after & Ht & Hres & Hrest)].
    + left. split; [|exact Hzero].
      unfold matches, keyword_matches in Hres. rewrite Hres. reflexivity.
    + right. exists before, entry, after. split; [exact Ht|]. split; [|exact Hrest].
      unfold matches, keyword_matches in Hres. rewrite Hres. reflexivity.
Qed.

(** The two checks of a response, side by side: whatever
    [_validate_mistral_response] accepts, [_validate_response] accepts. *)
Lemma mistral_idea_response_idea (idea : json) :
  mistral_idea idea = Ok true -> response_idea idea = true.
Proof.
  unfold mistral_idea, response_idea. destruct idea as [| | | | | |d]; try discriminate.
  destruct (dict_get "idea_name" d) as [name|]; [|discriminate].
  destruct (dict_get "idea_description" d) as [ds|]; [|discriminate].
  destruct name as [| | | |name| |]; try discriminate.
  simpl. destruct (PyStr.is_empty (PyStr.strip name)) eqn:Hn; [discriminate|].
  simpl. destruct ds as [| | | |ds| |]; try discriminate.
  simpl. destruct (PyStr.is_empty (PyStr.strip ds)) eqn:Hd; [discriminate|].
  intros _. destruct name; [discriminate Hn|]. destruct ds; [discriminate Hd|].
  reflexivity.
Qed.

Lemma any_of_mistral_idea (ideas : list json) :
  any_of mistral_idea ideas = Ok true -> existsb response_idea ideas = true.
Proof.
  induction ideas as [|idea rest IH]; simpl; [discriminate|].
  destruct (mistral_idea idea) as [[|]|e] eqn:Hidea; simpl; try discriminate.
  - intros _. rewrite (mistral_idea_response_idea _ Hidea). reflexivity.
  - intros Hrest. rewrite (IH Hrest). apply orb_true_r.
Qed.

Theorem validate_mistral_response_is_stricter (content : string) :
  _validate_mistral_response content = true ->
  _validate_response content = true.
Proof.
  unfold _validate_mistral_response, _validate_response.
  destruct (PyStr.is_empty content || PyStr.isspace content); [discriminate|].
  destruct (loads (PyStr.strip content)) as [data|e]; simpl.
  - destruct data as [| | | | | |d]; try discriminate.
    destruct (match dict_get "similar_ideas" d with Some v => v | None => JList [] end)
      as [| | | | |[|idea ideas]|]; try discriminate.
    cbv zeta.
    destruct (any_of mistral_idea (idea :: ideas)) as [[|]|e] eqn:Hany;
      simpl; try discriminate.
    intros _. exact (any_of_mistral_idea _ Hany).
  - discriminate.
Qed.

End ScraperMore.

(** No attempt: no post, and [None] as the last error. *)
Lemma no_attempt_no_request_witness :
  let w := Reference.world_of Examples.idea_files [Examples.ok Examples.ideas_text] in
  ScraperAgent.query_mistral (rt := Reference.runtime) Examples.scraper 0 w
  = (Py.Ok
       (Reference.dumps
          (Json.JDict
             [ ("similar_ideas", Json.JList []);
               ("error",
                Json.JStr
                  "Failed to get valid response after 0 attempts. Last error: None") ])),
     w).
Proof.
  intros w.
  apply (no_attempt_no_request (rt := Reference.runtime) Examples.scraper 0 w).
  lia.
Defined.

(** A status 429, then a usable answer: one sleep of a second between the
    two posts, and nothing after the second. *)
Lemma first_usable_response_ends_the_loop_witness :
  let r := Py.mkResponse 200 (Reference.completion Examples.ideas_text) in
  let w := Reference.world_of Examples.idea_files
             [ Py.Responds (Py.mkResponse 429 "slow down"); Py.Responds r ] in
  exists (data : Json.json) (w0 w' : Py.world),
    ScraperAgent.handle_ok (rt := Reference.runtime) r w0 = (Py.Ok data, w')
    /\ ScraperAgent.query_mistral (rt := Reference.runtime) Examples.scraper 3 w
       = (Py.Ok (Reference.dumps data), w')
    /\ Py.calls w' = 2%nat
    /\ Py.trace w' = [Py.Post; Py.Sleep 1; Py.Post].
Proof.
  intros r w.
  apply (first_usable_response_ends_the_loop (rt := Reference.runtime)
           Examples.scraper 3 w [("Rate limit exceeded", Spec.Exponential)] r).
  - simpl. lia.
  - intros [|i] f Hf; simpl in Hf; [|discriminate]. injection Hf as <-.
    apply (Spec.rate_limited (Py.mkResponse 429 "slow down")). reflexivity.
  - reflexivity.
  - reflexivity.
  - intros w0. vm_compute. exact I.
Defined.

(** Three entries from the model, the second without a name: the first
    and the third are emitted. *)
Lemma emitted_ideas_are_the_valid_entries_witness :
  let script := [Examples.ok Examples.ideas_text] in
  let w := Reference.world_of Examples.idea_files script in
  let w' := Py.mkWorld Examples.idea_files (Reference.scripted script) 1
              (fun _ => 0%Q) 2 [Py.Post] in
  let out :=
    Reference.dumps
      (Json.JDict
         [("similar_ideas",
           Json.JList
             [ Json.JDict
                 [ ("idea_name", Json.JStr "Wyzant");
                   ("idea_description",
                    Json.JStr "Marketplace to learn with a tutor");
                   ("similarity", Json.JInt 85);
                   ("category", Json.JStr "E-commerce") ];
               Json.JDict
                 [ ("idea_name", Json.JStr "Preply");
                   ("idea_description", Json.JStr "Language course platform");
                   ("category", Json.JStr "Lang");
                   ("similarity", Json.JInt 75) ] ])]) in
  ScraperAgent.query_mistral (rt := Reference.runtime) Examples.scraper 3 w
  = (Py.Ok out, w')
  /\ ((exists last_error : option string,
          out = Reference.dumps (ScraperAgent.error_response 3 last_error))
      \/ (exists (c : nat) (r : Py.response) (content : Json.json) (s : string)
                 (d : list (string * Json.json)) (entries ideas : list Json.json),
             Py.provider w c = Py.Responds r /\ Py.status_code r = 200%Z
             /\ JsonRepair.message_content (rt := Reference.runtime) r = Py.Ok content
             /\ JsonRepair.require_text "Empty response from Mistral API" content
                = Py.Ok s
             /\ JsonRepair.extract_json (rt := Reference.runtime) s
                = Py.Ok (Json.JDict d)
             /\ Json.dict_get "similar_ideas" d = Some (Json.JList entries)
             /\ out = Reference.dumps
                        (Json.JDict
                           (Json.dict_set "similar_ideas" (Json.JList ideas) d))
             /\ Forall2 Spec.enriched_entry
                  (List.filter ScraperAgent.valid_idea entries) ideas
             /\ ideas <> [])).
Proof.
  intros script w w' out.
  assert (Hrun : ScraperAgent.query_mistral (rt := Reference.runtime)
                   Examples.scraper 3 w = (Py.Ok out, w'))
    by (vm_compute; reflexivity).
  split; [exact Hrun|].
  exact (emitted_ideas_are_the_valid_entries (rt := Reference.runtime)
           Examples.scraper 3 w w' out Hrun).
Defined.

(** A document with one complete idea passes both checks. *)
Lemma validate_mistral_response_is_stricter_witness :
  ScraperAgent._validate_mistral_response (rt := Reference.runtime)
    Examples.plain_ideas_text = true
  /\ ScraperAgent._validate_response (rt := Reference.runtime)
       Examples.plain_ideas_text = true.
Proof.
  assert (H : ScraperAgent._validate_mistral_response (rt := Reference.runtime)
                Examples.plain_ideas_text = true) by (vm_compute; reflexivity).
  split; [exact H|].
  exact (validate_mistral_response_is_stricter (rt := Reference.runtime) _ H).
Defined.

(** Not the other way round: a name that is a number passes
    [_validate_response] and makes [_validate_mistral_response] answer
    [False]; and a keyword inside a longer word decides the category. *)
Example checks_and_categories :
  ScraperAgent._validate_response (rt := Reference.runtime)
    Examples.numbered_idea_text = true
  /\ ScraperAgent._validate_mistral_response (rt := Reference.runtime)
       Examples.numbered_idea_text = false
  /\ ScraperAgent._get_category "Email campaigns for RETAIL" = "E-commerce"
  /\ ScraperAgent._get_category "Email campaigns" = "AI/ML"
  /\ ScraperAgent._get_category "Tutoring" = "General".
Proof. vm_compute. repeat split; reflexivity. Qed.

(* ===================================================================== *)
(** * IdeaValidator: requests, accepted scores, competitors, raw response *)
(* ===================================================================== *)

Section ValidatorMore.
Import Json Py JsonRepair Retry ValidatorAgent Spec.
Context {rt : Runtime}.

(** The competitor search: at most three posts, and nothing else
    changed. *)
Lemma analyze_competitors_bounds (self : agent) (w : world) :
  let w1 := snd (_analyze_competitors self w) in
  (calls w <= calls w1 <= calls w + 3)%nat
  /\ provider w1 = provider w /\ fs w1 = fs w /\ uniform w1 = uniform w.
Proof.
  assert (Hinit : forall w0 : world,
             snd (ScraperAgent.init (api_key self) (file_path self) w0) = w0).
  { intros w0. unfold ScraperAgent.init, ScraperAgent._load_text.
    rewrite !bind_run. unfold read_text.
    destruct (fs w0 !! file_path self) as [[idea|ps|ps]|]; reflexivity. }
  cbv zeta. unfold _analyze_competitors. rewrite bind_run.
  specialize (Hinit w).
  destruct (ScraperAgent.init (api_key self) (file_path self) w)
    as [[scraper|e] w0]; simpl in Hinit; subst w0; simpl;
    [|repeat split; lia].
  rewrite bind_run.
  destruct (query_mistral_total scraper 3 w) as (out & w1 & -> & Hc & Hp & Hf & Hu).
  rewrite lift_run. simpl. repeat split; try assumption; lia.
Qed.

(** [query_mistral] writes no file and makes at most [max_retries + 3]
    requests, whatever it returns or raises: up to three belong to the
    competitor search it runs first, which keeps the default of three
    attempts whatever [max_retries] is. *)
Theorem validator_requests_are_bounded (self : agent) (max_retries : Z)
  (w : world) :
  let w' := snd (query_mistral self max_retries w) in
  (calls w <= calls w' <= calls w + 3 + Z.to_nat max_retries)%nat
  /\ fs w' = fs w /\ provider w' = provider w.
Proof.
  cbv zeta. unfold query_mistral. rewrite bind_run.
  pose proof (analyze_competitors_bounds self w) as Hfirst. cbv zeta in Hfirst.
  destruct (_analyze_competitors self w) as [[top|e] w1]; simpl in Hfirst;
    destruct Hfirst as (Hc & Hp & Hf & _); [|simpl; repeat split; try assumption; lia].
  rewrite bind_run, lift_run.
  destruct (competitor_context top) as [[]|e]; [|simpl; repeat split; try assumption; lia].
  rewrite bind_run.
  destruct (validator_attempts_total max_retries (range max_retries) None None w1)
    as (r & w2 & -> & Hc2 & Hp2 & Hf2 & _).
  unfold range in Hc2. rewrite length_seq in Hc2.
  destruct r; rewrite ret_run; simpl; repeat split; try congruence; lia.
Qed.

(** Which scores are accepted. *)
Lemma check_scores_accepts (names : list string) (scores : list (string * json)) :
  (forall name : string, In name names ->
     exists (v : json) (x : Q),
       dict_get name scores = Some v /\ float_of v = Ok (Fin x)
       /\ (0 <= x <= 10)%Q) ->
  check_scores names scores = Ok true.
Proof.
  induction names as [|score_name rest IH]; intros Hall; simpl; [reflexivity|].
  destruct (Hall score_name (or_introl eq_refl)) as (v & x & -> & -> & H0 & H10).
  assert (Hb : float_between 0 10 (Fin x) = true).
  { apply andb_true_iff. split; apply Qle_bool_iff; assumption. }
  unfold mbind, result_bind, try_except, mret, result_ret. rewrite Hb.
  apply IH. intros name Hin. apply Hall. right. exact Hin.
Qed.

Lemma round_scores_accepts (scores : list (string * json)) :
  succeeds (round_scores scores)
  <-> forall (key : string) (v : json),
        In (key, v) scores -> exists x : Q, float_of v = Ok (Fin x).
Proof.
  induction scores as [|[key v] scores IH]; simpl.
  - split; [intros _ key v [] | intros _; exact I].
  - destruct (float_of v) as [x|e] eqn:Hx; simpl.
    + destruct x as [q| |]; simpl.
      * destruct (round_scores scores) as [rest|e]; simpl.
        -- split; [|intros _; exact I]. intros _ key' v' [Heq|Hin].
           ++ injection Heq as <- <-. exists q. exact Hx.
           ++ apply (proj1 IH I key' v' Hin).
        -- split; [intros []|]. intros Hall. apply IH.
           intros key' v' Hin. apply (Hall key' v'). right. exact Hin.
      * split; [intros []|]. intros Hall.
        destruct (Hall key v (or_introl eq_refl)) as [x Hx']. congruence.
      * split; [intros []|]. intros Hall.
        destruct (Hall key v (or_introl eq_refl)) as [x Hx']. congruence.
    + split; [intros []|]. intros Hall.
      destruct (Hall key v (or_introl eq_refl)) as [x Hx']. congruence.
Qed.

(** A reply is accepted, that is validated and then rounded without an
    error, exactly when it is a dict whose [validation_scores] are a dict
    in which each of the six required scores converts to a float from 0
    to 10, and in which every entry, required or not, converts to a
    finite float. So a score given as a text that [float] reads is
    accepted, and one entry more that is no number makes the whole reply
    a failure, to be retried. *)
Theorem scores_are_accepted_iff (parsed_data : json) :
  succeeds (finish_scores parsed_data)
  <-> exists (d scores : list (string * json)),
        parsed_data = JDict d
        /\ dict_get "validation_scores" d = Some (JDict scores)
        /\ (forall name : string, In name required_scores ->
              exists (v : json) (x : Q),
                dict_get name scores = Some v /\ float_of v = Ok (Fin x)
                /\ (0 <= x <= 10)%Q)
        /\ (forall (key : string) (v : json),
              In (key, v) scores -> exists x : Q, float_of v = Ok (Fin x)).
Proof.
  unfold finish_scores. split.
  - destruct (_validate_scores parsed_data) as [[|]|e] eqn:Hvalid; simpl; try (intros []).
    destruct parsed_data as [| | | | | |d]; try (intros []).
    unfold _validate_scores in Hvalid.
    destruct (dict_get "validation_scores" d) as [[| | | | | |scores]|] eqn:Hget;
      try discriminate.
    intros Hok. exists d, scores. split; [reflexivity|]. split; [exact Hget|].
    split; [exact (check_scores_true _ _ Hvalid)|].
    apply round_scores_accepts.
    destruct (round_scores scores); [exact I | destruct Hok].
  - intros (d & scores & -> & Hget & Hreq & Hall).
    unfold _validate_scores. rewrite Hget.
    rewrite (check_scores_accepts _ _ Hreq). simpl.
    apply round_scores_accepts in Hall.
    destruct (round_scores scores); [exact I | destruct Hall].
Qed.

(** The insertion that [sorted(..., reverse=True)] amounts to. *)
Lemma insert_desc_perm (x : number * json) (l : list (number * json)) :
  Permutation (insert_desc x l) (x :: l).
Proof.
  induction l as [|y l IH]; simpl; [reflexivity|].
  destruct (number_lt (fst x) (fst y)); [|reflexivity].
  rewrite IH. apply perm_swap.
Qed.

Lemma sorted_desc_perm (keyed : list (number * json)) :
  Permutation (sorted_desc keyed) (map snd keyed).
Proof.
  unfold sorted_desc. apply Permutation_map.
  induction keyed as [|x keyed IH]; simpl; [reflexivity|].
  rewrite insert_desc_perm. constructor. exact IH.
Qed.

Lemma number_lt_int (a b : Z) : number_lt (NInt a) (NInt b) = (a <? b)%Z.
Proof.
  unfold number_lt, Qle_bool. simpl. rewrite !Z.mul_1_r.
  destruct (Z.ltb_spec a b), (Z.leb_spec b a); try reflexivity; lia.
Qed.

Lemma insert_desc_sorted (x : number * json) (l : list (number * json)) :
  let keyed := fun p : number * json => fst p = NInt (similarity_int (snd p)) in
  let above := fun p q : number * json =>
                 (similarity_int (snd q) <= similarity_int (snd p))%Z in
  keyed x -> Forall keyed l -> StronglySorted above l ->
  Forall keyed (insert_desc x l) /\ StronglySorted above (insert_desc x l).
Proof.
  intros keyed above Hx Hl Hs. induction Hs as [|y l Hs IH Hy]; simpl.
  - split; repeat constructor. exact Hx.
  - inversion Hl as [|? ? Hky Hkl]; subst.
    unfold keyed in Hx, Hky. rewrite Hx, Hky, number_lt_int.
    destruct (Z.ltb_spec (similarity_int (snd x)) (similarity_int (snd y))) as [Hlt|Hge].
    + destruct (IH Hkl) as [IHk IHs]. split; [constructor; assumption|].
      constructor; [exact IHs|].
      rewrite insert_desc_perm.
      constructor; [unfold above; lia | exact Hy].
    + split; [constructor; [exact Hx | constructor; assumption]|].
      constructor; [constructor; assumption|].
      constructor; [exact Hge|].
      refine (List.Forall_impl _ _ Hy).
      intros q Hq. unfold above in *. lia.
Qed.

Lemma keys_of_int (competitors : list json) :
  Forall int_similarity competitors ->
  (similarities ← keys_of competitors; numbers_of similarities)
  = Ok (map (fun comp => NInt (similarity_int comp)) competitors).
Proof.
  induction 1 as [|comp rest (d & -> & Hsim) _ IH]; [reflexivity|].
  simpl keys_of. destruct (keys_of rest) as [ks|e]; [|discriminate IH].
  simpl in IH. simpl.
  destruct Hsim as [Hnone | [n Hn]].
  - rewrite Hnone. simpl. rewrite IH. reflexivity.
  - rewrite Hn. simpl. rewrite IH. reflexivity.
Qed.

(** [_analyze_competitors] never fails on the scraper's document: it
    answers at most three competitors, and no competitor when the
    document cannot be read. When the document holds competitors with
    integer similarities, the answer is the first three of them once
    ranked by similarity, the most similar first. *)
Theorem top_competitors_are_the_most_similar (competitors_json : string) :
  (exists top : list json,
      top_competitors_of competitors_json = Ok top /\ (length top <= 3)%nat)
  /\ forall (d : list (string * json)) (competitors : list json),
       json_loads competitors_json = Parsed (JDict d) ->
       dict_get "similar_ideas" d = Some (JList competitors) ->
       Forall int_similarity competitors ->
       exists ranked : list json,
         top_competitors_of competitors_json = Ok (firstn 3 ranked)
         /\ Permutation ranked competitors
         /\ StronglySorted
              (fun a b => (similarity_int b <= similarity_int a)%Z) ranked.
Proof.
  split.
  - unfold top_competitors_of, try_except.
    destruct (_ ≫= _) as [top|e] eqn:Hbody.
    + exists top. split; [reflexivity|].
      destruct (loads competitors_json) as [data|e]; [|discriminate]. simpl in Hbody.
      destruct (contains_key "similar_ideas" data) as [[|]|e]; simpl in Hbody;
        try discriminate; [|injection Hbody as <-; simpl; lia].
      destruct (subscript data "similar_ideas") as [listed|e]; [|discriminate].
      simpl in Hbody. destruct (iterate listed) as [competitors|e]; [|discriminate].
      simpl in Hbody. destruct (keys_of competitors) as [ks|e]; [|discriminate].
      simpl in Hbody. destruct (numbers_of ks) as [ns|e]; [|discriminate].
      simpl in Hbody. injection Hbody as <-. apply firstn_le_length.
    + simpl. exists []. split; [reflexivity | simpl; lia].
  - intros d competitors Hloads Hget Hall.
    exists (sorted_desc
              (combine (map (fun comp => NInt (similarity_int comp)) competitors)
                       competitors)).
    assert (Hsnd : forall l : list json,
               map snd (combine (map (fun comp => NInt (similarity_int comp)) l) l) = l).
    { induction l as [|x l IH]; simpl; [reflexivity | rewrite IH; reflexivity]. }
    split; [|split].
    + unfold top_competitors_of, loads. rewrite Hloads. simpl.
      unfold dict_has. rewrite Hget. simpl.
      pose proof (keys_of_int competitors Hall) as Hkeys.
      destruct (keys_of competitors) as [ks|e]; [|discriminate Hkeys].
      simpl in Hkeys. simpl. rewrite Hkeys. reflexivity.
    + rewrite sorted_desc_perm. rewrite Hsnd. reflexivity.
    + unfold sorted_desc.
      assert (Hboth :
                Forall (fun p : number * json => fst p = NInt (similarity_int (snd p)))
                  (fold_right insert_desc []
                     (combine (map (fun comp => NInt (similarity_int comp)) competitors)
                              competitors))
                /\ StronglySorted
                     (fun p q : number * json =>
                        (similarity_int (snd q) <= similarity_int (snd p))%Z)
                     (fold_right insert_desc []
                        (combine (map (fun comp => NInt (similarity_int comp)) competitors)
                                 competitors))).
      { clear. induction competitors as [|x l [IHk IHs]]; simpl.
        - split; constructor.
        - apply insert_desc_sorted; [reflexivity | exact IHk | exact IHs]. }
      destruct Hboth as [_ Hsorted].
      induction Hsorted as [|p l Hs IH Hp]; simpl; constructor; [exact IH|].
      apply List.Forall_map. exact Hp.
Qed.

(** The content a pass assigns is the content of the response it got. *)
Lemma validator_body_assigns (max_retries : Z) (attempt : nat) (w w' : world)
  (s : step json) (assigned : option json) :
  attempt_body max_retries attempt w = (Ok (s, assigned), w') ->
  forall content : json,
    assigned = Some content <-> has_content (provider w (calls w)) content.
Proof.
  unfold has_content.
  destruct (provider w (calls w)) as [r|m] eqn:Hp.
  - destruct (Z.eq_dec (status_code r) 200%Z) as [H200|H200].
    + rewrite (validator_body_200 _ _ _ _ Hp H200). unfold handle_ok.
      destruct (message_content r) as [c|e] eqn:Hc.
      * destruct (_ ≫= _); intros Heq; injection Heq as <- <- <-; intros content; split.
        all: try (intros Hs; injection Hs as <-; exists r; auto).
        all: intros (r' & Hr & _ & Hc'); injection Hr as <-; congruence.
      * intros Heq; injection Heq as <- <- <-; intros content; split; [discriminate|].
        intros (r' & Hr & _ & Hc'); injection Hr as <-; congruence.
    + intros Hbody. assert (Hnone : assigned = None).
      { destruct (Z.eq_dec (status_code r) 429%Z) as [H429|H429].
        - rewrite (validator_body_429 _ _ _ _ Hp H429) in Hbody. congruence.
        - rewrite (validator_body_terminal _ _ _ _ Hp (conj H200 H429)) in Hbody.
          congruence. }
      intros content. rewrite Hnone. split; [discriminate|].
      intros (r' & Hr & Hs & _); injection Hr as <-; contradiction.
  - rewrite (validator_body_fails _ _ _ _ Hp). intros Heq; injection Heq as <- <- <-.
    intros content. split; [discriminate|]. intros (r' & Hr & _); discriminate.
Qed.

Lemma attempts_last_content (max_retries : Z) (todo : list nat)
  (last_error last_error' : option string) (raw : option json)
  (w w' : world) :
  attempts max_retries todo last_error None w = (Ok (Exhausted last_error' raw), w') ->
  last_content (provider w) (calls w) (calls w') raw.
Proof.
  assert (Hgen : forall (response_content : option json) (first : nat),
             (first <= calls w)%nat ->
             last_content (provider w) first (calls w) response_content ->
             attempts max_retries todo last_error response_content w
             = (Ok (Exhausted last_error' raw), w') ->
             last_content (provider w) first (calls w') raw).
  { revert last_error w.
    induction todo as [|attempt rest IH];
      intros last_error w response_content first Hfirst Hsofar; simpl.
    - intros Heq. injection Heq as <- <- <-. exact Hsofar.
    - rewrite bind_run.
      destruct (validator_body_total max_retries attempt w)
        as (s & assigned & w1 & Hbody & Hc & Hp & _). rewrite Hbody. simpl.
      pose proof (validator_body_assigns _ _ _ _ _ _ Hbody) as Hassigned.
      assert (Hnext : last_content (provider w) first (calls w1)
                        (latest assigned response_content)).
      { rewrite Hc. destruct assigned as [content|]; simpl.
        - right. exists (calls w), content. split; [lia|].
          split; [apply Hassigned; reflexivity|]. split; [reflexivity|].
          intros c' content' Hc'. lia.
        - destruct Hsofar as [[-> Hnone] | (c & content & Hrange & Hhas & -> & Hlater)].
          + left. split; [reflexivity|]. intros c content Hrange Hhas.
            destruct (Nat.eq_dec c (calls w)) as [->|Hne].
            * apply Hassigned in Hhas. discriminate.
            * apply (Hnone c content); [lia | exact Hhas].
          + right. exists c, content. split; [lia|]. split; [exact Hhas|].
            split; [reflexivity|]. intros c' content' Hrange' Hhas'.
            destruct (Nat.eq_dec c' (calls w)) as [->|Hne].
            * apply Hassigned in Hhas'. discriminate.
            * apply (Hlater c' content'); [lia | exact Hhas']. }
      destruct s as [e|e|data].
      + intros Heq. rewrite <- Hp in Hnext |- *.
        assert (Hle : (first <= calls w1)%nat) by lia.
        exact (IH _ w1 _ first Hle Hnext Heq).
      + intros Heq. injection Heq as <- <- <-. exact Hnext.
      + discriminate. }
  apply (Hgen None (calls w)); [lia|].
  left. split; [reflexivity|]. intros c content Hc. lia.
Qed.

(** The [raw_response] of the error document is the content of the last
    response of the validator's own loop that held one, whatever went
    wrong with that response or with the attempts after it; it is [None]
    when no response of the loop held a content. *)
Theorem raw_response_is_the_last_content (self : agent) (max_retries : Z)
  (w w' : world) (out : string) :
  query_mistral self max_retries w = (Ok out, w') ->
  (exists parsed_data data : json,
      finish_scores parsed_data = Ok data /\ out = json_dumps data)
  \/ (exists (last_error : option string) (raw : option json),
         out = json_dumps (error_response max_retries last_error raw)
         /\ last_content (provider w)
              (calls (snd (_analyze_competitors self w))) (calls w') raw).
Proof.
  unfold query_mistral. rewrite bind_run.
  pose proof (analyze_competitors_bounds self w) as Hfirst. cbv zeta in Hfirst.
  destruct (_analyze_competitors self w) as [[top|e] w1]; [|discriminate].
  simpl in Hfirst. destruct Hfirst as (_ & Hp & _). simpl snd.
  rewrite bind_run, lift_run.
  destruct (competitor_context top) as [[]|e]; [|discriminate].
  rewrite bind_run.
  destruct (attempts _ _ _ _ w1) as [[[data|last_error raw]|e] w2] eqn:Hloop;
    [| |discriminate]; rewrite ret_run; intros Heq; injection Heq as <- <-.
  - left.
    destruct (validator_attempts_returned _ _ _ _ _ _ _ Hloop)
      as (c & r & content & s & parsed & _ & _ & _ & _ & _ & _ & Hfin).
    exists parsed, data. split; [exact Hfin | reflexivity].
  - right. exists last_error, raw. split; [reflexivity|].
    rewrite <- Hp. exact (attempts_last_content _ _ _ _ _ _ _ Hloop).
Qed.

End ValidatorMore.

(** Four competitors, two of them with the same similarity and one with
    none: the three most similar are answered, the first of the two equal
    ones first. *)
Lemma top_competitors_are_the_most_similar_witness :
  exists ranked : list Json.json,
    ValidatorAgent.top_competitors_of (rt := Reference.runtime)
      Examples.four_competitors_text
    = Py.Ok (firstn 3 ranked)
    /\ Permutation ranked
         [ Json.JDict [("idea_name", Json.JStr "A"); ("similarity", Json.JInt 60)];
           Json.JDict [("idea_name", Json.JStr "B"); ("similarity", Json.JInt 85)];
           Json.JDict [("idea_name", Json.JStr "C")];
           Json.JDict [("idea_name", Json.JStr "D"); ("similarity", Json.JInt 85)] ]
    /\ StronglySorted
         (fun a b => (Spec.similarity_int b <= Spec.similarity_int a)%Z) ranked.
Proof.
  apply (proj2 (top_competitors_are_the_most_similar (rt := Reference.runtime)
                  Examples.four_competitors_text)
           [("similar_ideas",
             Json.JList
               [ Json.JDict [("idea_name", Json.JStr "A"); ("similarity", Json.JInt 60)];
                 Json.JDict [("idea_name", Json.JStr "B"); ("similarity", Json.JInt 85)];
                 Json.JDict [("idea_name", Json.JStr "C")];
                 Json.JDict [("idea_name", Json.JStr "D"); ("similarity", Json.JInt 85)] ])]).
  - vm_compute. reflexivity.
  - reflexivity.
  - repeat constructor; eexists; (split; [reflexivity|]);
      first [left; reflexivity | right; eexists; reflexivity].
Defined.

Example top_three_of_four :
  ValidatorAgent.top_competitors_of (rt := Reference.runtime)
    Examples.four_competitors_text
  = Py.Ok
      [ Json.JDict [("idea_name", Json.JStr "B"); ("similarity", Json.JInt 85)];
        Json.JDict [("idea_name", Json.JStr "D"); ("similarity", Json.JInt 85)];
        Json.JDict [("idea_name", Json.JStr "A"); ("similarity", Json.JInt 60)] ].
Proof. vm_compute. reflexivity. Qed.

(** The competitor search is answered at once; the validator then gets a
    text without JSON, a status 429 and a timeout. The error document
    reports the timeout as the last error and the text of the first
    response as the raw response. *)
Lemma raw_response_is_the_last_content_witness :
  let script := [ Examples.ok Examples.ideas_text;
                  Examples.ok "no json here";
                  Py.Responds (Py.mkResponse 429 "slow down");
                  Py.Fails "timed out" ] in
  let w := Reference.world_of Examples.idea_files script in
  let w' := Py.mkWorld Examples.idea_files (Reference.scripted script) 4
              (fun _ => 0%Q) 2
              [Py.Post; Py.Post; Py.Sleep 1; Py.Post; Py.Sleep 2; Py.Post] in
  let out :=
    Reference.dumps
      (ValidatorAgent.error_response 3 (Some "timed out")
         (Some (Json.JStr "no json here"))) in
  ValidatorAgent.query_mistral (rt := Reference.runtime) Examples.validator 3 w
  = (Py.Ok out, w')
  /\ ((exists parsed_data data : Json.json,
          ValidatorAgent.finish_scores (rt := Reference.runtime) parsed_data
          = Py.Ok data
          /\ out = Reference.dumps data)
      \/ (exists (last_error : option string) (raw : option Json.json),
             out = Reference.dumps (ValidatorAgent.error_response 3 last_error raw)
             /\ Spec.last_content (rt := Reference.runtime) (Py.provider w)
                  (Py.calls
                     (snd (ValidatorAgent._analyze_competitors
                             (rt := Reference.runtime) Examples.validator w)))
                  (Py.calls w') raw)).
Proof.
  intros script w w' out.
  assert (Hrun : ValidatorAgent.query_mistral (rt := Reference.runtime)
                   Examples.validator 3 w = (Py.Ok out, w'))
    by (vm_compute; reflexivity).
  split; [exact Hrun|].
  exact (raw_response_is_the_last_content (rt := Reference.runtime)
           Examples.validator 3 w w' out Hrun).
Defined.

(* ===================================================================== *)
(** * More facts about the string methods *)
(* ===================================================================== *)

Section StringMore.
Import PyStr Spec.

Lemma string_length_app (s t : string) :
  String.length (s ++ t) = (String.length s + String.length t)%nat.
Proof.
  induction s as [|c s IH]; [reflexivity|]. rewrite append_cons. simpl.
  rewrite IH. reflexivity.
Qed.

Lemma string_of_list_ascii_app (l1 l2 : list ascii) :
  string_of_list_ascii (l1 ++ l2)
  = string_of_list_ascii l1 ++ string_of_list_ascii l2.
Proof.
  induction l1 as [|c l1 IH]; [reflexivity|]. simpl.
  rewrite append_cons, IH. reflexivity.
Qed.

Lemma prefix_nil (s : string) : String.prefix "" s = true.
Proof. destruct s; reflexivity. Qed.

Lemma prefix_char (c d : ascii) (s : string) :
  String.prefix (String c "") (String d s) = Ascii.eqb c d.
Proof.
  simpl. destruct (Ascii.ascii_dec c d) as [->|Hne].
  - rewrite prefix_nil, Ascii.eqb_refl. reflexivity.
  - symmetry. apply Ascii.eqb_neq. exact Hne.
Qed.

Lemma split_go_nonempty (sep : string) (skip : nat) (cur : list ascii) (s : string) :
  split_go sep skip cur s <> [].
Proof.
  revert skip cur. induction s as [|c s IH]; intros skip cur; [discriminate|].
  destruct skip as [|k]; [|apply (IH k cur)].
  change (split_go sep 0 cur (String c s))
    with (if String.prefix sep (String c s)
          then string_of_list_ascii (rev cur)
               :: split_go sep (String.length sep - 1) [] s
          else split_go sep 0 (c :: cur) s).
  destruct (String.prefix sep (String c s)); [discriminate | apply IH].
Qed.

Lemma split_char_cons (c d : ascii) (cur : list ascii) (s : string) :
  split_go (String c "") 0 cur (String d s)
  = if Ascii.eqb c d
    then string_of_list_ascii (rev cur) :: split_go (String c "") 0 [] s
    else split_go (String c "") 0 (d :: cur) s.
Proof.
  change (split_go (String c "") 0 cur (String d s))
    with (if String.prefix (String c "") (String d s)
          then string_of_list_ascii (rev cur) :: split_go (String c "") 0 [] s
          else split_go (String c "") 0 (d :: cur) s).
  rewrite prefix_char. reflexivity.
Qed.

Lemma free_of_app (c : ascii) (s t : string) :
  free_of c (s ++ t) <-> free_of c s /\ free_of c t.
Proof.
  induction s as [|d s IH]; [rewrite append_nil; simpl; tauto|].
  rewrite append_cons. simpl. tauto.
Qed.

Lemma split_char_free (c : ascii) (cur : list ascii) (s : string) :
  free_of c s ->
  split_go (String c "") 0 cur s = [string_of_list_ascii (rev cur) ++ s].
Proof.
  revert cur. induction s as [|d s IH]; intros cur Hfree.
  - simpl. rewrite append_nil_r. reflexivity.
  - destruct Hfree as [Hd Hfree]. rewrite split_char_cons.
    assert (Ascii.eqb c d = false) as ->
      by (apply Ascii.eqb_neq; intros Heq; apply Hd; symmetry; exact Heq).
    rewrite (IH _ Hfree). simpl. rewrite string_of_list_ascii_app.
    rewrite append_assoc. reflexivity.
Qed.

Lemma split_char_app (c : ascii) (cur : list ascii) (s t : string) :
  free_of c s ->
  split_go (String c "") 0 cur (s ++ String c t)
  = (string_of_list_ascii (rev cur) ++ s) :: split_go (String c "") 0 [] t.
Proof.
  revert cur. induction s as [|d s IH]; intros cur Hfree.
  - rewrite append_nil, split_char_cons, Ascii.eqb_refl, append_nil_r. reflexivity.
  - destruct Hfree as [Hd Hfree]. rewrite append_cons, split_char_cons.
    assert (Ascii.eqb c d = false) as ->
      by (apply Ascii.eqb_neq; intros Heq; apply Hd; symmetry; exact Heq).
    rewrite (IH _ Hfree). simpl. rewrite string_of_list_ascii_app.
    rewrite append_assoc. reflexivity.
Qed.

(** Splitting at a character: a text without it is one piece; otherwise
    the first piece ends at its first occurrence. *)
Lemma split_free (c : ascii) (s : string) :
  free_of c s -> split (String c "") s = [s].
Proof. intros Hfree. unfold split. rewrite (split_char_free _ _ _ Hfree). reflexivity. Qed.

Lemma split_app (c : ascii) (s t : string) :
  free_of c s ->
  split (String c "") (s ++ String c t) = s :: split (String c "") t.
Proof. intros Hfree. unfold split. rewrite (split_char_app _ _ _ _ Hfree). reflexivity. Qed.

Lemma first_occurrence (c : ascii) (s : string) :
  free_of c s
  \/ exists before after : string, s = before ++ String c after /\ free_of c before.
Proof.
  induction s as [|d s IH]; [left; exact I|].
  destruct (Ascii.ascii_dec d c) as [->|Hne].
  - right. exists "", s. split; [reflexivity | exact I].
  - destruct IH as [Hfree | (before & after & -> & Hfree)].
    + left. split; assumption.
    + right. exists (String d before), after. split; [reflexivity | split; assumption].
Qed.

Lemma join_cons (sep x : string) (l : list string) :
  l <> [] -> join sep (x :: l) = x ++ sep ++ join sep l.
Proof. destruct l; [congruence | reflexivity]. Qed.

Lemma join_split (c : ascii) (s : string) :
  join (String c "") (split (String c "") s) = s.
Proof.
  remember (String.length s) as n eqn:Hn. revert s Hn.
  induction n as [n IH] using lt_wf_ind. intros s Hn.
  destruct (first_occurrence c s) as [Hfree | (before & after & -> & Hfree)].
  - rewrite (split_free _ _ Hfree). reflexivity.
  - rewrite (split_app _ _ _ Hfree).
    rewrite join_cons by apply split_go_nonempty.
    rewrite (IH (String.length after)); [reflexivity | | reflexivity].
    subst n. rewrite string_length_app. simpl. lia.
Qed.

(** What follows the first period, as the removal of a numbering computes
    it. *)
Lemma after_first (c : ascii) (s : string) :
  (free_of c s /\ join (String c "") (tl (split (String c "") s)) = "")
  \/ (exists before after : string,
         s = before ++ String c after /\ free_of c before
         /\ join (String c "") (tl (split (String c "") s)) = after).
Proof.
  destruct (first_occurrence c s) as [Hfree | (before & after & -> & Hfree)].
  - left. split; [exact Hfree|]. rewrite (split_free _ _ Hfree). reflexivity.
  - right. exists before, after. split; [reflexivity|]. split; [exact Hfree|].
    rewrite (split_app _ _ _ Hfree). simpl. apply join_split.
Qed.

(** Replacing a character by nothing removes its occurrences. *)
Lemma replace_char_go (c : ascii) (cur : list ascii) (s : string) :
  join "" (split_go (String c "") 0 cur s)
  = string_of_list_ascii (rev cur) ++ without c s.
Proof.
  revert cur. induction s as [|d s IH]; intros cur.
  - simpl. rewrite append_nil_r. reflexivity.
  - rewrite split_char_cons. simpl without. rewrite (Ascii.eqb_sym d c).
    destruct (Ascii.eqb c d).
    + rewrite join_cons by apply split_go_nonempty.
      rewrite IH. reflexivity.
    + rewrite IH. simpl. rewrite string_of_list_ascii_app, append_assoc. reflexivity.
Qed.

Lemma replace_char (c : ascii) (s : string) :
  replace (String c "") "" s = without c s.
Proof. unfold replace, split. rewrite replace_char_go. reflexivity. Qed.

Lemma free_of_without_same (c : ascii) (s : string) : free_of c (without c s).
Proof.
  induction s as [|d s IH]; simpl; [exact I|].
  destruct (Ascii.eqb d c) eqn:Hd; [exact IH|].
  split; [apply Ascii.eqb_neq; exact Hd | exact IH].
Qed.

Lemma free_of_without (c d : ascii) (s : string) :
  free_of d s -> free_of d (without c s).
Proof.
  induction s as [|x s IH]; simpl; [tauto|]. intros [Hx Hs].
  destruct (Ascii.eqb x c); [apply IH, Hs | split; [exact Hx | apply IH, Hs]].
Qed.

Lemma free_of_lstrip (c : ascii) (s : string) : free_of c s -> free_of c (lstrip s).
Proof.
  induction s as [|d s IH]; simpl; [tauto|]. intros [Hd Hs].
  destruct (is_space d); [apply IH, Hs | split; assumption].
Qed.

Lemma free_of_rstrip (c : ascii) (s : string) : free_of c s -> free_of c (rstrip s).
Proof.
  induction s as [|d s IH]; simpl; [tauto|]. intros [Hd Hs].
  destruct (is_space d && is_empty (rstrip s)); [exact I | split; [exact Hd | apply IH, Hs]].
Qed.

Lemma free_of_strip (c : ascii) (s : string) : free_of c s -> free_of c (strip s).
Proof. intros H. apply free_of_rstrip, free_of_lstrip, H. Qed.

Lemma free_of_lstrip_chars (c : ascii) (chars s : string) :
  free_of c s -> free_of c (lstrip_chars chars s).
Proof.
  induction s as [|d s IH]; simpl; [tauto|]. intros [Hd Hs].
  destruct (mem_char d chars); [apply IH, Hs | split; assumption].
Qed.

Lemma free_of_join (c : ascii) (sep : string) (l : list string) :
  free_of c sep -> Forall (free_of c) l -> free_of c (join sep l).
Proof.
  intros Hsep Hall. induction Hall as [|x l Hx Hl IH]; [exact I|].
  destruct l as [|y l]; [exact Hx|].
  rewrite join_cons by discriminate. rewrite !free_of_app. auto.
Qed.

Lemma lstrip_starts_clean (s : string) : starts_clean (lstrip s).
Proof.
  induction s as [|c s IH]; simpl; [exact I|].
  destruct (is_space c) eqn:Hc; [exact IH | exact Hc].
Qed.

Lemma starts_clean_lstrip (s : string) : starts_clean s -> lstrip s = s.
Proof. destruct s as [|c s]; simpl; [reflexivity|]. intros ->. reflexivity. Qed.

Lemma rstrip_starts_clean (s : string) : starts_clean s -> starts_clean (rstrip s).
Proof. destruct s as [|c s]; simpl; [tauto|]. intros Hc. rewrite Hc. exact Hc. Qed.

Lemma rstrip_idem (s : string) : rstrip (rstrip s) = rstrip s.
Proof.
  induction s as [|c s IH]; simpl; [reflexivity|].
  destruct (is_space c && is_empty (rstrip s)) eqn:Hc; [reflexivity|].
  simpl. rewrite IH, Hc. reflexivity.
Qed.

Lemma strip_starts_clean (s : string) : starts_clean (strip s).
Proof. apply rstrip_starts_clean, lstrip_starts_clean. Qed.

Lemma strip_idem (s : string) : strip (strip s) = strip s.
Proof.
  unfold strip at 1. rewrite (starts_clean_lstrip _ (strip_starts_clean s)).
  apply rstrip_idem.
Qed.

Lemma lstrip_app (s t : string) :
  s <> "" -> starts_clean s -> lstrip (s ++ t) = s ++ t.
Proof.
  destruct s as [|c s]; [congruence|]. intros _ Hc. rewrite append_cons.
  simpl in *. rewrite Hc. reflexivity.
Qed.

Lemma rstrip_app (s t : string) :
  t <> "" -> rstrip t = t -> rstrip (s ++ t) = s ++ t.
Proof.
  intros Hne Ht. induction s as [|c s IH]; [rewrite append_nil; exact Ht|].
  rewrite append_cons. simpl. rewrite IH.
  destruct (s ++ t) eqn:Hst.
  - destruct s; [rewrite append_nil in Hst; congruence | rewrite append_cons in Hst; discriminate].
  - rewrite andb_false_r. reflexivity.
Qed.

Lemma stripped_parts (s : string) :
  strip s = s -> starts_clean s /\ rstrip s = s.
Proof.
  intros Hs. split.
  - rewrite <- Hs. apply strip_starts_clean.
  - rewrite <- Hs at 1. unfold strip. rewrite rstrip_idem. exact Hs.
Qed.

Lemma strip_app (s t : string) :
  s <> "" -> strip s = s -> t <> "" -> strip t = t ->
  forall middle : string, strip (s ++ middle ++ t) = s ++ middle ++ t.
Proof.
  intros Hs Hss Ht Hst middle.
  destruct (stripped_parts _ Hss) as [Hclean _].
  destruct (stripped_parts _ Hst) as [_ Hright].
  unfold strip. rewrite (lstrip_app _ _ Hs Hclean).
  rewrite <- !append_assoc. apply (rstrip_app _ _ Ht Hright).
Qed.

Lemma join_nonempty (sep x : string) (l : list string) :
  x <> "" -> join sep (x :: l) <> "".
Proof.
  intros Hx. destruct l as [|y l]; [exact Hx|].
  rewrite join_cons by discriminate. destruct x; [congruence|].
  rewrite append_cons. discriminate.
Qed.

(** Lines without whitespace around them, joined by single spaces, make a
    text without whitespace around it. *)
Lemma join_stripped (l : list string) :
  Forall (fun x => x <> "" /\ strip x = x) l ->
  strip (join " " l) = join " " l.
Proof.
  induction 1 as [|x l [Hx Hsx] Hl IH]; [reflexivity|].
  destruct l as [|y l]; [exact Hsx|].
  rewrite join_cons by discriminate.
  inversion Hl as [|? ? [Hy Hsy] Hl']; subst.
  apply (strip_app _ _ Hx Hsx (join_nonempty _ _ _ Hy) IH " ").
Qed.

Lemma split_pieces_free (c : ascii) (s : string) :
  Forall (free_of c) (split (String c "") s).
Proof.
  remember (String.length s) as n eqn:Hn. revert s Hn.
  induction n as [n IH] using lt_wf_ind. intros s Hn.
  destruct (first_occurrence c s) as [Hfree | (before & after & -> & Hfree)].
  - rewrite (split_free _ _ Hfree). constructor; [exact Hfree | constructor].
  - rewrite (split_app _ _ _ Hfree). constructor; [exact Hfree|].
    apply (IH (String.length after)); [|reflexivity].
    subst n. rewrite string_length_app. simpl. lia.
Qed.

End StringMore.

(* ===================================================================== *)
(** * IdeaEnhancer: what the cleaning and the deduplication leave *)
(* ===================================================================== *)

Section EnhancerMore.
Import PyStr Spec EnhancerAgent.

Lemma is_empty_false (s : string) : is_empty s = false <-> s <> "".
Proof. destruct s; simpl; split; congruence. Qed.

(** What follows the first period holds no character the line did not
    hold. *)
Lemma free_of_after_first (c d : ascii) (s : string) :
  free_of d s -> free_of d (join (String c "") (tl (split (String c "") s))).
Proof.
  intros Hfree.
  destruct (after_first c s) as [[_ ->] | (before & after & -> & _ & ->)]; [exact I|].
  apply free_of_app in Hfree as [_ [_ Hafter]]. exact Hafter.
Qed.

(** A cleaned line is not empty, has no whitespace around it, holds no
    asterisk and no hyphen, and no character the line did not hold. *)
Lemma clean_line_some (line cleaned : string) :
  clean_line line = Some cleaned ->
  cleaned <> "" /\ strip cleaned = cleaned
  /\ free_of "*"%char cleaned /\ free_of "-"%char cleaned
  /\ forall c : ascii, free_of c line -> free_of c cleaned.
Proof.
  unfold clean_line.
  destruct (is_empty (strip line)); [discriminate|].
  rewrite !replace_char.
  set (unmarked := without "-" (without "*" (strip line))).
  assert (Hkeeps : forall c : ascii, free_of c line -> free_of c unmarked).
  { intros c Hc. apply free_of_without, free_of_without, free_of_strip, Hc. }
  assert (Hstar : free_of "*"%char unmarked)
    by apply free_of_without, free_of_without_same.
  assert (Hhyphen : free_of "-"%char unmarked) by apply free_of_without_same.
  set (numbered :=
         match unmarked with
         | String c _ =>
             if is_digit c then strip (join "." (tl (split "." unmarked)))
             else unmarked
         | EmptyString => unmarked
         end).
  assert (Hnumbered : forall c : ascii, free_of c unmarked -> free_of c numbered).
  { intros c Hc. unfold numbered. destruct unmarked as [|d rest] eqn:Hu; [exact Hc|].
    destruct (is_digit d); [|exact Hc].
    apply free_of_strip, (free_of_after_first "."%char), Hc. }
  destruct (is_empty (strip (lstrip_chars bullet_chars numbered))) eqn:Hempty;
    [discriminate|].
  intros Heq. injection Heq as <-.
  split; [apply is_empty_false, Hempty|]. split; [apply strip_idem|].
  split; [|split].
  - apply free_of_strip, free_of_lstrip_chars, Hnumbered, Hstar.
  - apply free_of_strip, free_of_lstrip_chars, Hnumbered, Hhyphen.
  - intros c Hc. apply free_of_strip, free_of_lstrip_chars, Hnumbered, Hkeeps, Hc.
Qed.

Lemma clean_section_some (section cleaned : string) :
  clean_section section = Some cleaned -> clean_text cleaned.
Proof.
  unfold clean_section. destruct (is_empty (strip section)); [discriminate|].
  pose proof (split_pieces_free "010"%char section) as Hpieces.
  change (String "010" "") with newline in Hpieces.
  assert (Hlines : Forall (fun l => l <> "" /\ strip l = l
                                   /\ free_of "*"%char l /\ free_of "-"%char l
                                   /\ free_of "010"%char l)
                     (omap clean_line (split newline section))).
  { induction Hpieces as [|line lines Hline _ IH]; [constructor|]. simpl.
    destruct (clean_line line) as [l|] eqn:Hl; [|exact IH].
    constructor; [|exact IH].
    destruct (clean_line_some _ _ Hl) as (H1 & H2 & H3 & H4 & H5).
    repeat split; try assumption. apply H5, Hline. }
  destruct (omap clean_line (split newline section)) as [|l ls] eqn:Hls; [discriminate|].
  intros Heq. injection Heq as <-.
  inversion Hlines as [|? ? (Hne & _) _]; subst.
  change (clean_text (join " " (l :: ls))).
  unfold clean_text. split; [apply join_nonempty, Hne|].
  split; [apply join_stripped; refine (List.Forall_impl _ _ Hlines); tauto|].
  repeat split; apply free_of_join;
    try (repeat split; discriminate);
    refine (List.Forall_impl _ _ Hlines); tauto.
Qed.

Lemma Forall_of_sublist {A} (P : A -> Prop) (l1 l2 : list A) :
  sublist l1 l2 -> Forall P l2 -> Forall P l1.
Proof.
  induction 1 as [|x l1 l2 _ IH|x l1 l2 _ IH]; intros Hall; [constructor| |];
    inversion Hall; subst; [constructor|]; auto.
Qed.

Lemma cleaned_sections_are_clean (sections : list string) :
  Forall clean_text (omap clean_section sections).
Proof.
  induction sections as [|section sections IH]; [constructor|].
  simpl. destruct (clean_section section) as [cleaned|] eqn:Hc; [|exact IH].
  constructor; [exact (clean_section_some _ _ Hc) | exact IH].
Qed.

(** Every section the post-processing keeps is a clean text: it is not
    empty, has no whitespace around it, and holds no asterisk, no hyphen
    and no newline, so that each kept section is one line of the text
    [enhance_idea] returns. *)
Theorem kept_sections_are_clean (content : string) :
  let unique_sections := dedup (omap clean_section (split blank_line content)) in
  post_process content = join blank_line unique_sections
  /\ Forall clean_text unique_sections.
Proof.
  cbv zeta. split.
  - unfold post_process, dedup. rewrite fold_section_step. reflexivity.
  - apply (Forall_of_sublist _ _ _ (dedup_sublist _)).
    apply cleaned_sections_are_clean.
Qed.







(** The removal of a numbering cuts at the first period. A line that,
    once stripped and rid of its asterisks and hyphens, begins with a
    digit is cleaned to what follows its first period, whatever stands
    before it; it is dropped when nothing is left of it then, and when it
    holds no period at all. *)
Theorem numbering_cuts_at_the_first_period (line : string) (c : ascii)
  (rest : string) :
  without "-" (without "*" (strip line)) = String c rest ->
  is_digit c = true ->
  (free_of "."%char (String c rest) -> clean_line line = None)
  /\ (forall before after : string,
         String c rest = before ++ String "." after ->
         free_of "."%char before ->
         clean_line line
         = (let cleaned := strip (lstrip_chars bullet_chars (strip after)) in
            if is_empty cleaned then None else Some cleaned)).
Proof.
  intros Hunmarked Hdigit. unfold clean_line.
  destruct (is_empty (strip line)) eqn:Hempty.
  { destruct (strip line); [discriminate Hunmarked | discriminate Hempty]. }
  rewrite !replace_char, Hunmarked, Hdigit. split.
  - intros Hfree. rewrite (split_free _ _ Hfree). reflexivity.
  - intros before after -> Hfree. rewrite (split_app _ _ _ Hfree).
    simpl tl. rewrite join_split. reflexivity.
Qed.

(** [_similarity_score] is a Jaccard index: it does not depend on the
    order of the two texts, it lies between 0 and 1, it is 1 for two
    texts with the same words, whatever their order, case and number of
    occurrences, and 0 for two texts with no word in common. *)
Theorem similarity_score_is_a_jaccard_index (text1 text2 : string) :
  _similarity_score text1 text2 = _similarity_score text2 text1
  /\ (0 <= _similarity_score text1 text2 <= 1)%Q
  /\ (text1 <> "" -> word_set text1 <> ∅ -> word_set text1 = word_set text2 ->
      (_similarity_score text1 text2 == 1)%Q)
  /\ (word_set text1 ∩ word_set text2 = ∅ ->
      (_similarity_score text1 text2 == 0)%Q).
Proof.
  assert (Hle : (size (word_set text1 ∩ word_set text2)
                 <= size (word_set text1 ∪ word_set text2))%nat).
  { apply subseteq_size. etransitivity;
      [apply intersection_subseteq_l | apply union_subseteq_l]. }
  unfold _similarity_score. cbv zeta.
  assert (Hinter : word_set text2 ∩ word_set text1 = word_set text1 ∩ word_set text2)
    by apply intersection_comm_L.
  assert (Hunion : word_set text2 ∪ word_set text1 = word_set text1 ∪ word_set text2)
    by apply union_comm_L.
  rewrite (orb_comm (is_empty text2)), Hinter, Hunion. clear Hinter Hunion.
  split; [reflexivity|].
  destruct (is_empty text1 || is_empty text2) eqn:Hempty.
  { split; [split; discriminate|]. split; [|reflexivity].
    intros Hne Hwords Hsame. exfalso.
    apply orb_true_iff in Hempty as [H1 | H2].
    - destruct text1; [congruence | discriminate].
    - destruct text2; [|discriminate]. rewrite word_set_empty in Hsame. congruence. }
  destruct (Nat.ltb_spec 0 (size (word_set text1 ∪ word_set text2))) as [Hpos|Hzero].
  - assert (Hunion : Z.pos (Pos.of_nat (size (word_set text1 ∪ word_set text2)))
                     = Z.of_nat (size (word_set text1 ∪ word_set text2))).
    { rewrite <- positive_nat_Z. rewrite Nat2Pos.id; lia. }
    split; [|split].
    + unfold Qle. simpl. rewrite Hunion. lia.
    + intros _ _ Hsame. rewrite <- Hsame, intersection_idemp_L, union_idemp_L in *.
      unfold Qeq. simpl. rewrite Hunion. lia.
    + intros Hdisjoint. rewrite Hdisjoint, size_empty. reflexivity.
  - split; [split; discriminate|]. split; [|reflexivity].
    intros _ Hwords Hsame. exfalso. apply Hwords.
    rewrite <- Hsame, union_idemp_L in Hzero.
    apply leibniz_equiv, size_empty_inv. lia.
Qed.

End EnhancerMore.

(** A decimal number at the head of a line is cut at its point; a line
    that begins with a count and holds no period is dropped. *)
Lemma numbering_cuts_at_the_first_period_witness :
  EnhancerAgent.clean_line Examples.decimal_line = Some "5x faster growth"
  /\ EnhancerAgent.clean_line Examples.counted_line = None.
Proof.
  split.
  - apply (proj2 (numbering_cuts_at_the_first_period Examples.decimal_line "2"
                    ".5x faster growth" eq_refl eq_refl) "2" "5x faster growth").
    + reflexivity.
    + simpl. split; [discriminate | exact I].
  - apply (proj1 (numbering_cuts_at_the_first_period Examples.counted_line "3"
                    " ways to win" eq_refl eq_refl)).
    simpl. repeat split; discriminate.
Defined.

Example cleaned_sections :
  EnhancerAgent.post_process
    (PyStr.join EnhancerAgent.blank_line
       [ "**1. Offer** same-day delivery"; "   "; "- Offer same-day delivery";
         "2024 is the year"; "* Partner - with schools" ])
  = PyStr.join EnhancerAgent.blank_line
      ["Offer sameday delivery"; "Partner  with schools"].
Proof. vm_compute. reflexivity. Qed.

(* ===================================================================== *)
(** * IdeaEnhancer: the one request of its own *)
(* ===================================================================== *)

Section EnhancerRun.
Import Json Py JsonRepair Spec EnhancerAgent.
Context {rt : Runtime}.

Lemma read_text_world {A} (path : string) (f : string -> A) (w : world) :
  snd ((s ← read_text path; mret (f s)) w) = w.
Proof.
  rewrite bind_run. unfold read_text.
  destruct (fs w !! path) as [[s|ps|ps]|]; reflexivity.
Qed.

Lemma scraper_init_world (api_key file_path : string) (w : world) :
  snd (ScraperAgent.init api_key file_path w) = w.
Proof.
  unfold ScraperAgent.init. rewrite bind_run.
  pose proof (read_text_world file_path PyStr.strip w) as Hload.
  fold (ScraperAgent._load_text file_path) in Hload.
  destruct (ScraperAgent._load_text file_path w) as [[s|e] w0]; exact Hload.
Qed.

(** [enhance_idea] from the competitor search on: the world after the
    search, and what the rest of the function makes of it. *)
Lemma enhance_idea_run (self : agent) (w : world) :
  enhance_idea self w = (fst (enhance_idea self w), snd (enhance_idea self w))
  /\ ((snd (enhance_idea self w) = w /\ ~ succeeds (fst (enhance_idea self w)))
      \/ exists w1 : world,
           (calls w <= calls w1 <= calls w + 3)%nat
           /\ provider w1 = provider w /\ fs w1 = fs w
           /\ (exists (scraper : ScraperAgent.agent) (competitors_json : string),
                  ScraperAgent.init (api_key self) (idea_file_path self) w
                  = (Ok scraper, w)
                  /\ ScraperAgent.query_mistral scraper 3 w
                     = (Ok competitors_json, w1))
           /\ ((snd (enhance_idea self w) = w1
                /\ ~ succeeds (fst (enhance_idea self w)))
               \/ (snd (enhance_idea self w) = posted w1
                   /\ match provider w1 (calls w1) with
                      | Fails m => ~ succeeds (fst (enhance_idea self w))
                      | Responds r =>
                          if (status_code r =? 200)%Z
                          then forall out : string,
                                 fst (enhance_idea self w) = Ok out ->
                                 exists s : string,
                                   message_content r = Ok (JStr s)
                                   /\ PyStr.strip s <> ""
                                   /\ out = post_process (PyStr.strip s)
                          else fst (enhance_idea self w)
                               = Ok ("Error: " ++ PyStr.str_of_int (status_code r)
                                               ++ ", " ++ text r)
                      end))).
Proof.
  split; [destruct (enhance_idea self w); reflexivity|].
  unfold enhance_idea. rewrite bind_run.
  pose proof (read_text_world (idea_file_path self) PyStr.strip w) as Hload.
  fold (_load_idea self) in Hload.
  destruct (_load_idea self w) as [[idea_text|e] w0]; simpl in Hload; subst w0;
    [|left; split; [reflexivity | intros []]].
  rewrite bind_run.
  pose proof (scraper_init_world (api_key self) (idea_file_path self) w) as Hinit.
  destruct (ScraperAgent.init (api_key self) (idea_file_path self) w)
    as [[scraper|e] w0]; simpl in Hinit; subst w0;
    [|left; split; [reflexivity | intros []]].
  rewrite bind_run.
  destruct (query_mistral_total scraper 3 w) as (cj & w1 & Hsearch & Hc & Hp & Hf & _).
  rewrite Hsearch.
  right. exists w1. split; [simpl in Hc; lia|]. split; [exact Hp|]. split; [exact Hf|].
  split; [exists scraper, cj; split; [reflexivity | exact Hsearch]|].
  rewrite bind_run, lift_run.
  match goal with
  | |- context [match ?x with Ok _ => _ | Raise _ => _ end] =>
      match type of x with result unit => destruct x as [[]|e] end
  end; [|left; split; [reflexivity | intros []]].
  right. rewrite bind_run, requests_post_run.
  destruct (provider w1 (calls w1)) as [r|m];
    [|split; [reflexivity | intros []]].
  destruct (status_code r =? 200)%Z; [|split; reflexivity].
  rewrite bind_run, lift_run.
  destruct (message_content r) as [c|e]; [|split; [reflexivity | intros out Hout; discriminate Hout]].
  simpl.
  destruct c as [| | | |s| |];
    try (split; [reflexivity | intros out Hout; discriminate Hout]).
  simpl. destruct (PyStr.is_empty (PyStr.strip s)) eqn:Hempty;
    [split; [reflexivity | intros out Hout; discriminate Hout]|].
  split; [reflexivity|]. intros out Hout. injection Hout as <-.
  exists s. split; [reflexivity|]. split; [|reflexivity].
  intros Hs. rewrite Hs in Hempty. discriminate.
Qed.

(** [enhance_idea] makes exactly one request of its own, after the
    competitor search, and never a second one. A run that returns is the
    construction of the scraper (which changes nothing), its
    [query_mistral] with three attempts (at most three requests), and then
    one post and nothing else: no sleep follows it, whatever the status of
    the response, 429 included. A status other than 200 is no exception;
    it is returned as the text [Error: <status>, <body>]. A status 200
    gives the post-processing of the content, which is a text that is not
    blank. No file is written. *)
Theorem enhance_idea_asks_once (self : agent) (w w' : world) (out : string) :
  enhance_idea self w = (Ok out, w') ->
  exists (scraper : ScraperAgent.agent) (competitors_json : string) (w1 : world)
         (r : response),
    ScraperAgent.init (api_key self) (idea_file_path self) w = (Ok scraper, w)
    /\ ScraperAgent.query_mistral scraper 3 w = (Ok competitors_json, w1)
    /\ (calls w <= calls w1 <= calls w + 3)%nat
    /\ calls w' = S (calls w1)
    /\ trace w' = (trace w1 ++ [Post])%list
    /\ fs w' = fs w /\ draws w' = draws w1
    /\ provider w (calls w1) = Responds r
    /\ ((status_code r = 200%Z
         /\ exists s : string,
              message_content r = Ok (JStr s)
              /\ PyStr.strip s <> ""
              /\ out = post_process (PyStr.strip s))
        \/ (status_code r <> 200%Z
            /\ out = "Error: " ++ PyStr.str_of_int (status_code r)
                               ++ ", " ++ text r)).
Proof.
  intros Hrun. destruct (enhance_idea_run self w) as [_ Hcases].
  rewrite Hrun in Hcases. simpl in Hcases.
  destruct Hcases
    as [[_ Hno] | (w1 & Hc & Hp & Hf & (scraper & cj & Hinit & Hsearch)
                   & [[_ Hno] | [-> Hpost]])];
    try (exfalso; apply Hno; exact I).
  rewrite <- Hp.
  destruct (provider w1 (calls w1)) as [r|m] eqn:Hr; [|exfalso; apply Hpost; exact I].
  exists scraper, cj, w1, r. simpl.
  split; [exact Hinit|]. split; [exact Hsearch|]. split; [exact Hc|].
  split; [reflexivity|]. split; [reflexivity|]. split; [exact Hf|].
  split; [reflexivity|]. split; [exact Hr|].
  destruct (status_code r =? 200)%Z eqn:Hs.
  - left. apply Z.eqb_eq in Hs. split; [exact Hs|]. apply Hpost. reflexivity.
  - right. apply Z.eqb_neq in Hs. split; [exact Hs|]. congruence.
Qed.

(** Whatever it returns or raises, [enhance_idea] makes at most four
    requests and writes no file. *)
Lemma enhance_idea_frame (self : agent) (w : world) :
  (calls w <= calls (snd (enhance_idea self w)) <= calls w + 4)%nat
  /\ fs (snd (enhance_idea self w)) = fs w
  /\ provider (snd (enhance_idea self w)) = provider w.
Proof.
  destruct (enhance_idea_run self w) as [_ Hcases].
  destruct Hcases as [[-> _] | (w1 & Hc & Hp & Hf & _ & [[-> _] | [-> _]])]; simpl;
    repeat split; try assumption; lia.
Qed.

End EnhancerRun.

(** The competitor search is answered at its first request, and the
    request of the enhancer is refused with a status 429: two posts in
    all, no sleep, no second request of the enhancer, and the refusal is
    the text returned. *)
Lemma enhance_idea_asks_once_witness :
  let script := [ Examples.ok Examples.ideas_text;
                  Py.Responds (Py.mkResponse 429 "slow down") ] in
  let w := Reference.world_of Examples.idea_files script in
  let w' := Py.mkWorld Examples.idea_files (Reference.scripted script) 2
              (fun _ => 0%Q) 2 [Py.Post; Py.Post] in
  EnhancerAgent.enhance_idea (rt := Reference.runtime)
    (EnhancerAgent.init "key" "temp_idea.txt") w
  = (Py.Ok "Error: 429, slow down", w')
  /\ exists (scraper : ScraperAgent.agent) (competitors_json : string)
            (w1 : Py.world) (r : Py.response),
       ScraperAgent.init "key" "temp_idea.txt" w
       = (Py.Ok scraper, w)
       /\ ScraperAgent.query_mistral (rt := Reference.runtime) scraper 3 w
          = (Py.Ok competitors_json, w1)
       /\ (Py.calls w <= Py.calls w1 <= Py.calls w + 3)%nat
       /\ Py.calls w' = S (Py.calls w1)
       /\ Py.trace w' = (Py.trace w1 ++ [Py.Post])%list
       /\ Py.fs w' = Py.fs w /\ Py.draws w' = Py.draws w1
       /\ Py.provider w (Py.calls w1) = Py.Responds r
       /\ ((Py.status_code r = 200%Z
            /\ exists s : string,
                 JsonRepair.message_content (rt := Reference.runtime) r
                 = Py.Ok (Json.JStr s)
                 /\ PyStr.strip s <> ""
                 /\ "Error: 429, slow down"
                    = EnhancerAgent.post_process (PyStr.strip s))
           \/ (Py.status_code r <> 200%Z
               /\ "Error: 429, slow down"
                  = "Error: " ++ PyStr.str_of_int (Py.status_code r)
                              ++ ", " ++ Py.text r)).
Proof.
  intros script w w'.
  assert (Hrun : EnhancerAgent.enhance_idea (rt := Reference.runtime)
                   (EnhancerAgent.init "key" "temp_idea.txt") w
                 = (Py.Ok "Error: 429, slow down", w'))
    by (vm_compute; reflexivity).
  split; [exact Hrun|].
  exact (enhance_idea_asks_once (rt := Reference.runtime) _ w w' _ Hrun).
Defined.

(* ===================================================================== *)
(** * PipelineOrchestrator: the suggestions *)
(* ===================================================================== *)

Section SuggestionsMore.
Import PyStr Spec MainAgent.

(** The lines of kept sections joined by blank lines: each section, and
    an empty line between two of them. *)
Lemma split_joined_sections (section : string) (rest : list string) :
  Forall clean_text (section :: rest) ->
  split EnhancerAgent.newline (join EnhancerAgent.blank_line (section :: rest))
  = match rest with
    | [] => [section]
    | _ => section :: ""
             :: split EnhancerAgent.newline (join EnhancerAgent.blank_line rest)
    end.
Proof.
  intros Hall. inversion Hall as [|? ? (_ & _ & _ & _ & Hfree) _]; subst.
  destruct rest as [|next rest].
  - apply (split_free "010"%char). exact Hfree.
  - rewrite join_cons by discriminate.
    change (section ++ EnhancerAgent.blank_line ++ join EnhancerAgent.blank_line (next :: rest))
      with (section ++ String "010"
                         ("" ++ String "010"
                                  (join EnhancerAgent.blank_line (next :: rest)))).
    unfold EnhancerAgent.newline.
    rewrite (split_app "010"%char _ _ Hfree).
    rewrite (split_app "010"%char "" _ I). reflexivity.
Qed.

Lemma suggestions_list_from (n : nat) (sections : list string) :
  Forall clean_text sections -> sections <> [] ->
  omap
    (fun '(i, s) =>
       if is_empty (strip s) then None
       else Some (strip (replace (str_of_int (Z.of_nat i + 1) ++ ".") "" (strip s))))
    (enumerate_from n
       (split EnhancerAgent.newline (join EnhancerAgent.blank_line sections)))
  = unnumbered n sections.
Proof.
  intros Hall. revert n. induction Hall as [|section rest Hsection Hrest IH]; intros n Hne;
    [congruence|].
  rewrite split_joined_sections by (constructor; assumption).
  destruct Hsection as (Hnonempty & Hstripped & _).
  assert (Hfirst : is_empty (strip section) = false).
  { rewrite Hstripped. destruct section; [congruence | reflexivity]. }
  destruct rest as [|next rest].
  - simpl. rewrite Hfirst, Hstripped. reflexivity.
  - simpl enumerate_from. simpl omap. rewrite Hfirst, Hstripped.
    simpl unnumbered. f_equal. apply IH. discriminate.
Qed.

(** The numbering removal of [run_pipeline], applied to the text
    [enhance_idea] returns for a status 200: the blank lines between the
    kept sections are counted with them, so what is removed from the
    section of index [k] is the text [<2k + 1>.], that is [1.] from the
    first section, [3.] from the second, [5.] from the third, wherever
    the section holds it. *)
Theorem numbering_removal_counts_blank_lines (content : string) :
  let unique_sections :=
    EnhancerAgent.dedup
      (omap EnhancerAgent.clean_section (split EnhancerAgent.blank_line content)) in
  suggestions_list (EnhancerAgent.post_process content) = unnumbered 0 unique_sections
  /\ structure_suggestions (EnhancerAgent.post_process content)
     = omap suggestion_of (enumerate (unnumbered 0 unique_sections)).
Proof.
  cbv zeta.
  pose proof (post_process_dedup content) as Hpost.
  pose proof (Forall_of_sublist _ _ _
                (dedup_sublist _)
                (cleaned_sections_are_clean (split EnhancerAgent.blank_line content)))
    as Hclean.
  assert (Hlist : suggestions_list (EnhancerAgent.post_process content)
                  = unnumbered 0
                      (EnhancerAgent.dedup
                         (omap EnhancerAgent.clean_section
                            (split EnhancerAgent.blank_line content)))).
  { rewrite Hpost. unfold suggestions_list, enumerate.
    destruct (EnhancerAgent.dedup _) as [|section rest] eqn:Hkept; [reflexivity|].
    apply suggestions_list_from; [exact Hclean | discriminate]. }
  split; [exact Hlist|]. unfold structure_suggestions. rewrite Hlist. reflexivity.
Qed.

Lemma rank_of_priority (i : nat) :
  priority_rank (priority_of i)
  = if (i <? 2)%nat then 0%nat else if (i <? 4)%nat then 1%nat else 2%nat.
Proof. unfold priority_of. destruct (i <? 2)%nat, (i <? 4)%nat; reflexivity. Qed.

Lemma rank_of_priority_mono (i j : nat) :
  (i <= j)%nat ->
  (priority_rank (priority_of i) <= priority_rank (priority_of j))%nat.
Proof.
  intros Hij. rewrite !rank_of_priority.
  destruct (Nat.ltb_spec i 2), (Nat.ltb_spec i 4), (Nat.ltb_spec j 2),
    (Nat.ltb_spec j 4); lia.
Qed.

Lemma length_omap_le {A B} (f : A -> option B) (l : list A) :
  (length (omap f l) <= length l)%nat.
Proof.
  induction l as [|x l IH]; [simpl; lia|].
  change (omap f (x :: l))
    with (match f x with Some y => y :: omap f l | None => omap f l end).
  destruct (f x); simpl length; lia.
Qed.

Lemma length_enumerate_from {A} (n : nat) (l : list A) :
  length (enumerate_from n l) = length l.
Proof. revert n. induction l as [|x l IH]; intros n; simpl; [reflexivity|]. rewrite IH. reflexivity. Qed.

(** The items built from the lines of index [n] and beyond. *)
Lemma items_from (l : list string) (n : nat) :
  Forall (fun s => strip s = s) l ->
  let items := omap suggestion_of (enumerate_from n l) in
  Forall (fun item =>
            category item = "Enhancement" /\ tip item <> ""
            /\ strip (tip item) = tip item
            /\ (exists i : nat, (n <= i)%nat /\ priority item = priority_of i))
         items
  /\ StronglySorted
       (fun a b =>
          (priority_rank (priority a) <= priority_rank (priority b))%nat)
       items
  /\ (length (List.filter (fun item => String.eqb (priority item) "high") items)
      <= 2 - n)%nat
  /\ (length (List.filter (fun item => String.eqb (priority item) "medium") items)
      <= (if (n <? 2)%nat then 2 else 4 - n))%nat.
Proof.
  intros Hall. revert n. induction Hall as [|s l Hs _ IH]; intros n.
  - simpl. repeat split; try constructor; lia.
  - cbv zeta.
    change (omap suggestion_of (enumerate_from n (s :: l)))
      with (match suggestion_of (n, s) with
            | Some item => item :: omap suggestion_of (enumerate_from (S n) l)
            | None => omap suggestion_of (enumerate_from (S n) l)
            end).
    destruct (IH (S n)) as (Hitems & Hsorted & Hhigh & Hmedium).
    assert (Hitems' :
              Forall (fun item =>
                        category item = "Enhancement" /\ tip item <> ""
                        /\ strip (tip item) = tip item
                        /\ (exists i : nat, (n <= i)%nat /\ priority item = priority_of i))
                     (omap suggestion_of (enumerate_from (S n) l))).
    { refine (List.Forall_impl _ _ Hitems).
      intros item (Hc & Ht & Hst & i & Hi & Hp). repeat split; try assumption.
      exists i. split; [lia | exact Hp]. }
    assert (Hmedium' :
              (length (List.filter (fun item => String.eqb (priority item) "medium")
                         (omap suggestion_of (enumerate_from (S n) l)))
               <= (if (n <? 2)%nat then 2 else 4 - S n))%nat).
    { revert Hmedium.
      destruct (Nat.ltb_spec n 2), (Nat.ltb_spec (S n) 2); intros Hmedium; lia. }
    assert (Hhead : suggestion_of (n, s)
                    = if is_empty s then None
                      else Some (mkSuggestion "Enhancement" s (priority_of n)))
      by reflexivity.
    rewrite Hhead. clear Hhead. destruct (is_empty s) eqn:Hempty; cbv iota.
    + split; [exact Hitems'|]. split; [exact Hsorted|]. split; [lia|].
      revert Hmedium'. destruct (n <? 2)%nat; lia.
    + split; [|split; [|split]].
      * constructor; [|exact Hitems']. simpl.
        repeat split; try assumption.
        -- intros ->. discriminate Hempty.
        -- exists n. split; [lia | reflexivity].
      * constructor; [exact Hsorted|].
        refine (List.Forall_impl _ _ Hitems).
        intros item (_ & _ & _ & i & Hi & ->). simpl.
        apply rank_of_priority_mono. lia.
      * simpl List.filter. simpl priority. unfold priority_of at 1.
        destruct (Nat.ltb_spec n 2); [simpl; lia|].
        destruct (n <? 4)%nat; simpl; lia.
      * simpl List.filter. simpl priority. revert Hmedium'. unfold priority_of at 1.
        destruct (Nat.ltb_spec n 2); [simpl; lia|].
        destruct (Nat.ltb_spec n 4); simpl; lia.
Qed.

Lemma suggestions_list_stripped (suggestions_text : string) :
  Forall (fun s => strip s = s) (suggestions_list suggestions_text).
Proof.
  unfold suggestions_list, enumerate. generalize 0%nat.
  induction (split EnhancerAgent.newline suggestions_text) as [|line lines IH];
    intros n; [constructor|].
  simpl. destruct (is_empty (strip line)); [apply IH|].
  constructor; [apply strip_idem | apply IH].
Qed.

(** The suggestions of [run_pipeline], whatever the text they are built
    from: every item has the category [Enhancement] and a tip that is not
    empty and has no whitespace around it; the priorities never rise along
    the list, from [high] over [medium] to [low]; at most two items are
    [high] and at most two are [medium]; and there are no more items than
    the text has lines. *)
Theorem suggestions_are_ranked (suggestions_text : string) :
  let items := structure_suggestions suggestions_text in
  Forall (fun item =>
            category item = "Enhancement" /\ tip item <> ""
            /\ strip (tip item) = tip item
            /\ In (priority item) ["high"; "medium"; "low"])
         items
  /\ StronglySorted
       (fun a b =>
          (priority_rank (priority a) <= priority_rank (priority b))%nat)
       items
  /\ (length (List.filter (fun item => String.eqb (priority item) "high") items)
      <= 2)%nat
  /\ (length (List.filter (fun item => String.eqb (priority item) "medium") items)
      <= 2)%nat
  /\ (length items <= length (split EnhancerAgent.newline suggestions_text))%nat.
Proof.
  cbv zeta. unfold structure_suggestions, enumerate.
  destruct (items_from _ 0 (suggestions_list_stripped suggestions_text))
    as (Hitems & Hsorted & Hhigh & Hmedium).
  split; [|split; [exact Hsorted | split; [exact Hhigh | split; [exact Hmedium|]]]].
  - refine (List.Forall_impl _ _ Hitems).
    intros item (Hc & Ht & Hst & i & _ & ->). repeat split; try assumption.
    unfold priority_of. destruct (i <? 2)%nat; [left; reflexivity|].
    destruct (i <? 4)%nat; [right; left; reflexivity | right; right; left; reflexivity].
  - etransitivity; [apply length_omap_le|]. rewrite length_enumerate_from.
    unfold suggestions_list. etransitivity; [apply length_omap_le|].
    unfold enumerate. rewrite length_enumerate_from. lia.
Qed.

End SuggestionsMore.

(** The first section loses its [1.], the second its [3.]. *)
Example numbering_removed_inside_the_tips :
  MainAgent.structure_suggestions
    (EnhancerAgent.post_process
       (PyStr.join EnhancerAgent.blank_line
          ["Ship version 1.5 first"; "Support 3.0 and 2.0 clients"]))
  = [ MainAgent.mkSuggestion "Enhancement" "Ship version 5 first" "high";
      MainAgent.mkSuggestion "Enhancement" "Support 0 and 2.0 clients" "high" ].
Proof. vm_compute. reflexivity. Qed.

(* ===================================================================== *)
(** * PipelineOrchestrator: scores, competitors, requests and files *)
(* ===================================================================== *)

Section PipelineMore.
Import Json Py JsonRepair Spec MainAgent.
Context {rt : Runtime}.

Lemma score_entries_scored (items : list (string * json)) (entries : list score_entry) :
  score_entries items = Ok entries ->
  Forall2 scored (List.filter mapped items) entries.
Proof.
  revert entries. induction items as [|[key sc] items IH]; intros entries.
  - intros Heq. injection Heq as <-. constructor.
  - change (score_entries ((key, sc) :: items))
      with (match lookup_mapping key score_mappings with
            | Some (cat, col, expl) =>
                x ← float_of sc;
                n ← int_of_float (times_ten x);
                rest' ← score_entries items;
                mret (mkScore cat n expl col :: rest')
            | None => score_entries items
            end).
    change (List.filter mapped ((key, sc) :: items))
      with (if match lookup_mapping key score_mappings with
               | Some _ => true
               | None => false
               end
            then (key, sc) :: List.filter mapped items
            else List.filter mapped items).
    destruct (lookup_mapping key score_mappings) as [[[cat col] expl]|] eqn:Hmap;
      [|apply IH].
    destruct (float_of sc) as [x|e] eqn:Hx; [|discriminate].
    unfold mbind at 1, result_bind.
    destruct (int_of_float (times_ten x)) as [n|e] eqn:Hn; [|discriminate].
    unfold mbind at 1, result_bind.
    destruct (score_entries items) as [rest|e]; [|discriminate].
    unfold mbind at 1, result_bind, mret, result_ret.
    intros Heq. injection Heq as <-.
    constructor; [|apply IH; reflexivity].
    exists cat, col, expl, x, n. repeat split; assumption.
Qed.

(** The scores of [run_pipeline] are all there or none is: the list is
    empty, or it holds one score for each entry of the validator's
    [validation_scores] whose key is one of the six of [score_mappings],
    in the order of the document, the value of each being the float of the
    entry times ten, cut to an integer. One entry that does not convert
    empties the list, and so does a document that cannot be read. *)
Theorem scores_are_all_or_nothing (validation_result : string) :
  structure_scores validation_result = []
  \/ exists (d items : list (string * json)),
       json_loads validation_result = Parsed (JDict d)
       /\ dict_get "validation_scores" d = Some (JDict items)
       /\ Forall2 scored (List.filter mapped items)
            (structure_scores validation_result).
Proof.
  unfold structure_scores, loads.
  destruct (json_loads validation_result) as [val_data|m]; [|left; reflexivity].
  simpl. destruct val_data as [| | | | | |d]; try (left; reflexivity).
  destruct (dict_get "validation_scores" d) as [[| | | | | |items]|] eqn:Hget;
    try (left; reflexivity).
  destruct (score_entries items) as [entries|e] eqn:Hentries; [|left; reflexivity].
  right. exists d, items. split; [reflexivity|]. split; [exact Hget|].
  exact (score_entries_scored _ _ Hentries).
Qed.

(** The competitors of [run_pipeline]: one record for each competitor
    that is a dict, in order, with [Unnamed Competitor], an empty text,
    [General] and a similarity of 50 where the competitor lacks the field;
    what is no dict is skipped. The loop raises exactly when the
    similarity of a competitor does not convert to a float, and nothing
    around it catches that. *)
Theorem competitors_are_structured (competitors : list json) :
  (succeeds (structure_competitors competitors)
   <-> forall d : list (string * json),
         In (JDict d) competitors ->
         succeeds (float_of (get_default "similarity" (JInt 50) d)))
  /\ forall records : list competitor_record,
       structure_competitors competitors = Ok records ->
       Forall2 structured (List.filter is_dict competitors) records.
Proof.
  induction competitors as [|comp rest [IHok IHrec]].
  - split; [split; [intros _ d [] | intros _; exact I]|].
    intros records Heq. injection Heq as <-. constructor.
  - assert (Hskip : (forall d, comp <> JDict d) ->
                    structure_competitors (comp :: rest) = structure_competitors rest
                    /\ List.filter is_dict (comp :: rest) = List.filter is_dict rest).
    { intros Hno. destruct comp; try (split; reflexivity). exfalso. eapply Hno. reflexivity. }
    destruct comp as [| | | | | |d];
      try (destruct Hskip as [-> ->]; [discriminate|];
           split; [|exact IHrec]; rewrite IHok; split;
           [intros Hall d0 [Hd|Hin]; [discriminate Hd | exact (Hall d0 Hin)]
           |intros Hall d0 Hin; apply Hall; right; exact Hin]).
    clear Hskip. simpl.
    destruct (float_of (get_default "similarity" (JInt 50) d)) as [sim|e] eqn:Hsim; simpl.
    + destruct (structure_competitors rest) as [records|e] eqn:Hrest; simpl.
      * split.
        -- split; [|intros _; exact I]. intros _ d0 [Hd|Hin].
           ++ injection Hd as <-. rewrite Hsim. exact I.
           ++ apply (proj1 IHok I d0 Hin).
        -- intros records' Heq. injection Heq as <-.
           constructor; [|apply IHrec; reflexivity].
           exists d. repeat split. exact Hsim.
      * split; [|discriminate]. split; [intros []|].
        intros Hall. apply IHok. intros d0 Hin. apply Hall. right. exact Hin.
    + split; [|discriminate]. split; [intros []|].
      intros Hall. specialize (Hall d (or_introl eq_refl)). rewrite Hsim in Hall.
      exact Hall.
Qed.

End PipelineMore.

(* ===================================================================== *)
(** * Gateway and pipeline: requests made and files written *)
(* ===================================================================== *)

Section Frames.
Import Json Py JsonRepair Retry Spec.
Context {rt : Runtime}.

(** What [process_file] leaves of the world, whether it returns or
    raises. *)
Lemma process_file_files (file_path : string) (w : world) :
  let w' := snd (ProcessorAgent.process_file file_path w) in
  calls w' = calls w /\ provider w' = provider w /\ trace w' = trace w
  /\ (fs w' = fs w
      \/ exists content : string,
           fs w' = <[file_path := rewritten file_path content]> (fs w)).
Proof.
  cbv zeta.
  destruct (process_file_run file_path w)
    as [(f & raw & _ & _ & ->) | (_ & e & -> & _)].
  - unfold mbind, M_bind, print, mret, M_ret, raise.
    destruct (print_error _); simpl; repeat split; right; eexists; reflexivity.
  - simpl. repeat split. left. reflexivity.
Qed.

Lemma process_file_raise_class (file_path : string) (w w' : world) (e : exn) :
  ProcessorAgent.process_file file_path w = (Raise e, w') ->
  exn_cls e <> JSONDecodeError.
Proof.
  destruct (process_file_run file_path w)
    as [(f & raw & _ & _ & ->) | (_ & e' & -> & Hcls & _)].
  - unfold mbind, M_bind, print, mret, M_ret, raise.
    destruct (print_error _); [|discriminate].
    intros Heq. injection Heq as <- <-. discriminate.
  - intros Heq. injection Heq as <- <-. exact Hcls.
Qed.

Lemma validator_init_world (api_key file_path : string) (w : world) :
  snd (ValidatorAgent.init api_key file_path w) = w.
Proof.
  unfold ValidatorAgent.init. rewrite bind_run.
  pose proof (read_text_world file_path PyStr.strip w) as Hload.
  fold (ValidatorAgent._load_text file_path) in Hload.
  destruct (ValidatorAgent._load_text file_path w) as [[s|e] w0]; exact Hload.
Qed.

Lemma validator_query_frame (self : ValidatorAgent.agent) (max_retries : Z)
  (w : world) :
  (calls w <= calls (snd (ValidatorAgent.query_mistral self max_retries w))
   <= calls w + 3 + Z.to_nat max_retries)%nat
  /\ fs (snd (ValidatorAgent.query_mistral self max_retries w)) = fs w
  /\ provider (snd (ValidatorAgent.query_mistral self max_retries w)) = provider w.
Proof.
  unfold ValidatorAgent.query_mistral. rewrite bind_run.
  pose proof (analyze_competitors_bounds self w) as Hfirst. cbv zeta in Hfirst.
  destruct (ValidatorAgent._analyze_competitors self w) as [[top|e] w1];
    simpl in Hfirst; destruct Hfirst as (Hc & Hp & Hf & _);
    [|simpl; repeat split; try assumption; lia].
  rewrite bind_run, lift_run.
  destruct (ValidatorAgent.competitor_context top) as [[]|e];
    [|simpl; repeat split; try assumption; lia].
  rewrite bind_run.
  destruct (validator_attempts_total max_retries (range max_retries) None None w1)
    as (r & w2 & -> & Hc2 & Hp2 & Hf2 & _).
  unfold range in Hc2. rewrite length_seq in Hc2.
  destruct r; rewrite ret_run; simpl; repeat split; try congruence; lia.
Qed.

(** The stages of [run_pipeline], one after the other. *)
Lemma run_pipeline_frame (self : MainAgent.agent) (w : world) :
  let w' := snd (MainAgent.run_pipeline self w) in
  (calls w <= calls w' <= calls w + 13)%nat
  /\ provider w' = provider w
  /\ (fs w' = fs w
      \/ exists content : string,
           fs w' = <[MainAgent.file_path self
                     := rewritten (MainAgent.file_path self) content]> (fs w)).
Proof.
  cbv zeta. unfold MainAgent.run_pipeline. rewrite bind_run.
  pose proof (process_file_files (MainAgent.file_path self) w) as H1. cbv zeta in H1.
  destruct (ProcessorAgent.process_file (MainAgent.file_path self) w)
    as [[processed|e] w1]; simpl in H1; destruct H1 as (Hc1 & Hp1 & _ & Hf1);
    [|simpl; split; [lia | split; assumption]].
  assert (Hend : forall wk : world,
             (calls w1 <= calls wk <= calls w1 + 13)%nat ->
             provider wk = provider w1 -> fs wk = fs w1 ->
             (calls w <= calls wk <= calls w + 13)%nat
             /\ provider wk = provider w
             /\ (fs wk = fs w
                 \/ exists content : string,
                      fs wk = <[MainAgent.file_path self
                                := rewritten (MainAgent.file_path self) content]> (fs w))).
  { intros wk Hc Hp Hf. split; [lia|]. split; [congruence|]. rewrite Hf. exact Hf1. }
  clear Hc1 Hp1 Hf1.
  rewrite bind_run.
  pose proof (scraper_init_world (MainAgent.api_key self) (MainAgent.file_path self) w1)
    as H2.
  destruct (ScraperAgent.init _ _ w1) as [[scraper|e] w2]; simpl in H2; subst w2;
    [|apply Hend; simpl; [lia | reflexivity | reflexivity]].
  rewrite bind_run.
  destruct (query_mistral_total scraper 3 w1) as (cj & w3 & -> & Hc3 & Hp3 & Hf3 & _).
  simpl in Hc3. rewrite bind_run.
  pose proof (validator_init_world (MainAgent.api_key self) (MainAgent.file_path self) w3)
    as H4.
  destruct (ValidatorAgent.init _ _ w3) as [[validator|e] w4]; simpl in H4; subst w4;
    [|apply Hend; simpl; [lia | assumption | assumption]].
  rewrite bind_run.
  pose proof (validator_query_frame validator 3 w3) as (Hc5 & Hf5 & Hp5).
  destruct (ValidatorAgent.query_mistral validator 3 w3) as [[vr|e] w5];
    simpl in Hc5, Hf5, Hp5; [|apply Hend; simpl; [lia | congruence | congruence]].
  rewrite bind_run.
  pose proof (enhance_idea_frame
                (EnhancerAgent.init (MainAgent.api_key self) (MainAgent.file_path self))
                w5) as (Hc6 & Hf6 & Hp6).
  destruct (EnhancerAgent.enhance_idea _ w5) as [[text|e] w6];
    simpl in Hc6, Hf6, Hp6; [|apply Hend; simpl; [lia | congruence | congruence]].
  rewrite bind_run, lift_run.
  destruct (MainAgent.structure_competitors _) as [cs|e];
    apply Hend; simpl; first [lia | congruence].
Qed.

(** The endpoint, and [run_pipeline] under it, make at most thirteen
    requests to the provider: three for the competitors, six for the
    validation with its own competitor search, four for the enhancement
    with its own. The only path written is [temp_<filename>]. Where the
    upload cannot be stored there (the path holds no file and the system
    refuses to create one), the world stays as it is: nothing is written
    and no request is made. Where it is stored, over whatever the path
    held, the file is never removed, and holds the upload as received or,
    once the normalizer ran, the normalized text in the format of its
    extension. No other path changes. *)
Theorem pipeline_requests_and_files (file : Api.upload) (api_key : string)
  (w : world) :
  let file_path := "temp_" ++ Api.filename file in
  let w' := snd (Api.run_pipeline file api_key w) in
  (calls w <= calls w' <= calls w + 13)%nat
  /\ (forall message : string,
         fs w !! file_path = None -> create_error file_path = Some message ->
         w' = w)
  /\ (is_Some (fs w !! file_path) \/ create_error file_path = None ->
      fs w' !! file_path = Some (Api.body file)
      \/ exists content : string,
           fs w' !! file_path = Some (rewritten file_path content))
  /\ (forall other : string,
         other <> file_path -> fs w' !! other = fs w !! other)
  /\ forall (self : MainAgent.agent) (w0 : world),
       let w1 := snd (MainAgent.run_pipeline self w0) in
       (calls w0 <= calls w1 <= calls w0 + 13)%nat
       /\ forall other : string,
            other <> MainAgent.file_path self -> fs w1 !! other = fs w0 !! other.
Proof.
  cbv zeta.
  assert (Hpipeline : forall (self : MainAgent.agent) (w0 : world),
             (calls w0 <= calls (snd (MainAgent.run_pipeline self w0))
              <= calls w0 + 13)%nat
             /\ forall other : string,
                  other <> MainAgent.file_path self ->
                  fs (snd (MainAgent.run_pipeline self w0)) !! other = fs w0 !! other).
  { intros self w0. pose proof (run_pipeline_frame self w0) as (Hc & _ & Hf).
    split; [exact Hc|]. intros other Hne.
    destruct Hf as [-> | [content ->]]; [reflexivity|].
    apply lookup_insert_ne. congruence. }
  pose proof (run_pipeline_frame
                (MainAgent.mkAgent api_key ("temp_" ++ Api.filename file))
                (with_files w (<["temp_" ++ Api.filename file := Api.body file]> (fs w))))
    as (Hc & _ & Hf).
  pose proof (Hpipeline
                (MainAgent.mkAgent api_key ("temp_" ++ Api.filename file))
                (with_files w (<["temp_" ++ Api.filename file := Api.body file]> (fs w))))
    as (_ & Hothers).
  assert (Hstored :
            let w1 := snd (match
                             MainAgent.run_pipeline
                               (MainAgent.mkAgent api_key ("temp_" ++ Api.filename file))
                               (with_files w
                                  (<["temp_" ++ Api.filename file := Api.body file]>
                                     (fs w)))
                           with
                           | (Ok r, w') => (Ok r, w')
                           | (Raise e, w') =>
                               (Ok (Api.failure
                                      ((if subclass (exn_cls e) JSONDecodeError
                                        then "Invalid JSON response: "
                                        else "Pipeline error: ") ++ exn_str e)),
                                w')
                           end) in
            (calls w <= calls w1 <= calls w + 13)%nat
            /\ (fs w1 !! ("temp_" ++ Api.filename file) = Some (Api.body file)
                \/ exists content : string,
                     fs w1 !! ("temp_" ++ Api.filename file)
                     = Some (rewritten ("temp_" ++ Api.filename file) content))
            /\ forall other : string,
                 other <> "temp_" ++ Api.filename file ->
                 fs w1 !! other = fs w !! other).
  { cbv zeta.
    destruct (MainAgent.run_pipeline _ _) as [[r|e] w1]; simpl in *.
    all: split; [exact Hc|]; split.
    all: try (destruct Hf as [-> | [content ->]];
              [left; apply lookup_insert_eq
              |right; exists content; apply lookup_insert_eq]).
    all: intros other Hne; rewrite (Hothers other Hne);
      apply lookup_insert_ne; congruence. }
  cbv zeta in Hstored. clear Hc Hf Hothers.
  rewrite endpoint_run.
  destruct (fs w !! ("temp_" ++ Api.filename file)) as [f|] eqn:Hfile.
  - destruct Hstored as (Hc & Hf & Hothers).
    split; [exact Hc|]. split; [discriminate|]. split; [intros _; exact Hf|].
    split; [|exact Hpipeline]. exact Hothers.
  - destruct (create_error ("temp_" ++ Api.filename file)) as [message|] eqn:Hcreate.
    + simpl. split; [lia|]. split; [reflexivity|].
      split; [intros [[f Hf] | Hnone]; discriminate|].
      split; [|exact Hpipeline]. reflexivity.
    + destruct Hstored as (Hc & Hf & Hothers).
      split; [exact Hc|]. split; [discriminate|]. split; [intros _; exact Hf|].
      split; [|exact Hpipeline].
      intros other Hne. rewrite (Hothers other Hne). reflexivity.
Qed.

(** A path that is no [.txt] path stops [run_pipeline] before any
    request. *)
Lemma run_pipeline_needs_text (self : MainAgent.agent) (w : world) :
  PyStr.endswith ".txt" (MainAgent.file_path self) = false ->
  exists e : exn,
    fst (MainAgent.run_pipeline self w) = Raise e
    /\ exn_cls e <> JSONDecodeError
    /\ calls (snd (MainAgent.run_pipeline self w)) = calls w
    /\ trace (snd (MainAgent.run_pipeline self w)) = trace w.
Proof.
  intros Htxt. unfold MainAgent.run_pipeline. rewrite bind_run.
  destruct (ProcessorAgent.process_file (MainAgent.file_path self) w)
    as [[processed|e] w1] eqn:Hprocess.
  - apply process_file_iff in Hprocess.
    destruct Hprocess as (f & raw & _ & _ & _ & _ & ->).
    rewrite bind_run. unfold ScraperAgent.init, ScraperAgent._load_text.
    rewrite !bind_run. unfold read_text, with_files. simpl fs.
    rewrite lookup_insert_eq. unfold rewritten. rewrite Htxt.
    destruct (PyStr.endswith ".docx" (MainAgent.file_path self)); simpl;
      eexists; (split; [reflexivity|]); (split; [discriminate|]); split; reflexivity.
  - pose proof (process_file_files (MainAgent.file_path self) w) as Hworld.
    cbv zeta in Hworld. rewrite Hprocess in Hworld. simpl in Hworld.
    destruct Hworld as (Hc & _ & Ht & _).
    exists e. split; [reflexivity|].
    split; [exact (process_file_raise_class _ _ _ _ Hprocess)|]. split; assumption.
Qed.

(** Only a text file gets through. [run_pipeline] reads the file again,
    as a UTF-8 text, after the normalizer rewrote it in the format of its
    extension; a packaged document is a ZIP archive and does not read as
    a text. So for a path that does not end in [.txt], a [.docx] or [.odt]
    upload included, [run_pipeline] raises before any request is made. The
    endpoint then makes no request either: it answers with a pipeline
    error where it could store the upload, and with an upload error where
    it could not. *)
Theorem only_text_files_get_through (file : Api.upload) (api_key : string)
  (w : world) :
  PyStr.endswith ".txt" ("temp_" ++ Api.filename file) = false ->
  (forall (self : MainAgent.agent) (w0 : world),
      MainAgent.file_path self = "temp_" ++ Api.filename file ->
      exists e : exn,
        fst (MainAgent.run_pipeline self w0) = Raise e
        /\ calls (snd (MainAgent.run_pipeline self w0)) = calls w0)
  /\ (is_Some (fs w !! ("temp_" ++ Api.filename file))
      \/ create_error ("temp_" ++ Api.filename file) = None ->
      exists message : string,
        fst (Api.run_pipeline file api_key w)
        = Ok (Api.failure ("Pipeline error: " ++ message)))
  /\ (forall message : string,
         fs w !! ("temp_" ++ Api.filename file) = None ->
         create_error ("temp_" ++ Api.filename file) = Some message ->
         fst (Api.run_pipeline file api_key w)
         = Ok (Api.failure ("File upload error: " ++ message)))
  /\ calls (snd (Api.run_pipeline file api_key w)) = calls w
  /\ trace (snd (Api.run_pipeline file api_key w)) = trace w.
Proof.
  intros Htxt. split.
  { intros self w0 Hpath. rewrite <- Hpath in Htxt.
    destruct (run_pipeline_needs_text self w0 Htxt) as (e & He & _ & Hc & _).
    exists e. split; assumption. }
  assert (Hstored :
            let out := match
                         MainAgent.run_pipeline
                           (MainAgent.mkAgent api_key ("temp_" ++ Api.filename file))
                           (with_files w
                              (<["temp_" ++ Api.filename file := Api.body file]>
                                 (fs w)))
                       with
                       | (Ok r, w') => (Ok r, w')
                       | (Raise e, w') =>
                           (Ok (Api.failure
                                  ((if subclass (exn_cls e) JSONDecodeError
                                    then "Invalid JSON response: "
                                    else "Pipeline error: ") ++ exn_str e)),
                            w')
                       end in
            (exists message : string,
                fst out = Ok (Api.failure ("Pipeline error: " ++ message)))
            /\ calls (snd out) = calls w /\ trace (snd out) = trace w).
  { cbv zeta.
    destruct (run_pipeline_needs_text
                (MainAgent.mkAgent api_key ("temp_" ++ Api.filename file))
                (with_files w (<["temp_" ++ Api.filename file := Api.body file]> (fs w)))
                Htxt) as (e & He & Hclass & Hc & Ht).
    destruct (MainAgent.run_pipeline _ _) as [[r|e'] w1]; simpl in He; [discriminate|].
    injection He as ->. simpl in Hc, Ht.
    assert (Hsub : subclass (exn_cls e) JSONDecodeError = false).
    { unfold subclass. destruct (exn_cls e); try reflexivity. congruence. }
    rewrite Hsub. simpl. split; [exists (exn_str e); reflexivity|]. split; assumption. }
  cbv zeta in Hstored. rewrite endpoint_run.
  destruct (fs w !! ("temp_" ++ Api.filename file)) as [f|] eqn:Hfile.
  - destruct Hstored as (Hm & Hc & Ht).
    split; [intros _; exact Hm|]. split; [discriminate|]. split; assumption.
  - destruct (create_error ("temp_" ++ Api.filename file)) as [message|] eqn:Hcreate.
    + simpl. split; [intros [[f Hf] | Hnone]; discriminate|].
      split; [|split; reflexivity].
      intros message' _ Heq. injection Heq as <-. reflexivity.
    + destruct Hstored as (Hm & Hc & Ht).
      split; [intros _; exact Hm|]. split; [discriminate|]. split; assumption.
Qed.

End Frames.

(** A [.docx] upload: the normalizer rewrites the document, the scraper
    cannot read it, and no request is made. *)
Lemma only_text_files_get_through_witness :
  let file := Api.mkUpload "idea.docx" (Py.DocxFile ["An App for Tutors"]) in
  let w := Reference.world_of ∅ [Examples.ok Examples.ideas_text] in
  fst (Api.run_pipeline (rt := Reference.runtime) file "key" w)
  = Py.Ok (Api.failure "Pipeline error: 'utf-8' codec can't decode byte")
  /\ (exists message : string,
         fst (Api.run_pipeline (rt := Reference.runtime) file "key" w)
         = Py.Ok (Api.failure ("Pipeline error: " ++ message)))
  /\ Py.calls (snd (Api.run_pipeline (rt := Reference.runtime) file "key" w))
     = Py.calls w
  /\ Py.trace (snd (Api.run_pipeline (rt := Reference.runtime) file "key" w))
     = Py.trace w.
Proof.
  intros file w. split; [vm_compute; reflexivity|].
  destruct (only_text_files_get_through (rt := Reference.runtime) file "key" w
              eq_refl) as (_ & Hstored & _ & Hc & Ht).
  split; [exact (Hstored (or_intror eq_refl))|]. split; assumption.
Defined.

(** The same upload under a name with a directory part: the reference
    system has no such directory, and the endpoint reports that the upload
    failed. *)
Example upload_of_a_document_into_a_missing_directory :
  fst (Api.run_pipeline (rt := Reference.runtime)
         (Api.mkUpload "sub/idea.docx" (Py.DocxFile ["An App for Tutors"])) "key"
         (Reference.world_of ∅ [Examples.ok Examples.ideas_text]))
  = Py.Ok
      (Api.failure
         "File upload error: [Errno 2] No such file or directory: 'temp_sub/idea.docx'").
Proof. vm_compute. reflexivity. Qed.

(* ===================================================================== *)
(** * IdeaValidator: no exception on the scraper's own document *)
(* ===================================================================== *)

Section ValidatorSafe.
Import Json Py JsonRepair Retry Spec.
Context {rt : Runtime}.

(** What the scraper emits can be quoted, and is ranked by an integer. *)
Lemma enriched_entry_quotable (entry idea : json) :
  enriched_entry entry idea -> quotable idea /\ int_similarity idea.
Proof.
  intros (d & name & description & similarity & -> & Hname & _ & Hdesc & _ & ->).
  split.
  - eexists _, name, (JStr description). split; [reflexivity|].
    rewrite !dict_get_set_ne by discriminate. split; assumption.
  - eexists. split; [reflexivity|]. right. exists similarity.
    rewrite dict_get_set_ne by discriminate. apply dict_get_set_eq.
Qed.

Lemma competitor_context_quotable (top_competitors : list json) :
  Forall quotable top_competitors ->
  ValidatorAgent.competitor_context top_competitors = Ok tt.
Proof.
  induction 1 as [|comp rest (d & name & description & -> & Hname & Hdesc) _ IH];
    [reflexivity|].
  simpl. rewrite Hname, Hdesc. simpl. exact IH.
Qed.

(** The competitors chosen from a list of quotable ones. *)
Lemma top_competitors_of_quotable (competitors_json : string)
  (d : list (string * json)) (competitors : list json) :
  json_loads competitors_json = Parsed (JDict d) ->
  dict_get "similar_ideas" d = Some (JList competitors) ->
  Forall int_similarity competitors ->
  Forall quotable competitors ->
  exists top : list json,
    ValidatorAgent.top_competitors_of competitors_json = Ok top
    /\ Forall quotable top.
Proof.
  intros Hloads Hget Hints Hquotable.
  exists (firstn 3
            (ValidatorAgent.sorted_desc
               (combine (map (fun comp => ValidatorAgent.NInt (similarity_int comp))
                             competitors)
                        competitors))).
  split.
  - unfold ValidatorAgent.top_competitors_of, loads. rewrite Hloads. simpl.
    unfold dict_has. rewrite Hget. simpl.
    pose proof (keys_of_int competitors Hints) as Hkeys.
    destruct (ValidatorAgent.keys_of competitors) as [ks|e]; [|discriminate Hkeys].
    simpl in Hkeys. simpl. rewrite Hkeys. reflexivity.
  - apply Forall_take.
    assert (Hsnd : map snd (combine (map (fun comp => ValidatorAgent.NInt
                                                        (similarity_int comp))
                                         competitors) competitors)
                   = competitors).
    { clear. induction competitors as [|x l IH]; simpl; [reflexivity | rewrite IH; reflexivity]. }
    pose proof (sorted_desc_perm
                  (combine (map (fun comp => ValidatorAgent.NInt (similarity_int comp))
                                competitors) competitors)) as Hperm.
    rewrite Hsnd in Hperm. rewrite Hperm. exact Hquotable.
Qed.

(** [ValidatorAgent.query_mistral] does not raise, whatever the provider
    answers, as long as the idea file is still a text that can be read and
    [json.loads] reads back the document its competitor search dumped:
    the competitors it quotes in its prompt then all have a name and a
    description, and every failure of its own loop ends in the error
    document. *)
Theorem validator_does_not_raise (self : ValidatorAgent.agent) (max_retries : Z)
  (w : world) (idea : string) :
  fs w !! ValidatorAgent.file_path self = Some (TextFile idea) ->
  (forall (res : json + option string) (w1 : world),
      ScraperAgent.attempts 3 (range 3) None w = (Ok res, w1) ->
      json_loads (json_dumps (scraper_document res))
      = Parsed (scraper_document res)) ->
  exists (out : string) (w' : world),
    ValidatorAgent.query_mistral self max_retries w = (Ok out, w').
Proof.
  intros Hfile Hread.
  unfold ValidatorAgent.query_mistral, ValidatorAgent._analyze_competitors.
  rewrite !bind_run.
  unfold ScraperAgent.init, ScraperAgent._load_text. rewrite !bind_run.
  unfold read_text. rewrite Hfile, !ret_run.
  unfold ScraperAgent.query_mistral. rewrite !bind_run.
  destruct (attempts_total 3 (range 3) None w) as (res & w1 & Hloop & _).
  rewrite Hloop. specialize (Hread res w1 Hloop).
  assert (Hdumped :
            (match res with
             | inl data => mret (json_dumps data)
             | inr last_error =>
                 mret (json_dumps (ScraperAgent.error_response 3 last_error))
             end : M string) w1
            = (Ok (json_dumps (scraper_document res)), w1))
    by (destruct res; reflexivity).
  rewrite Hdumped. clear Hdumped. rewrite lift_run.
  assert (Htop : exists top : list json,
             ValidatorAgent.top_competitors_of (json_dumps (scraper_document res))
             = Ok top
             /\ Forall quotable top).
  { destruct res as [data|last_error]; simpl scraper_document in *.
    - destruct (attempts_returned_from _ _ _ _ _ _ Hloop)
        as (c & r & w0 & _ & _ & _ & Hok & _).
      destruct (handle_ok_entries _ _ _ _ Hok)
        as (content & s & d & entries & ideas & _ & _ & _ & _ & -> & Hall & _).
      assert (Hboth : Forall (fun idea => quotable idea /\ int_similarity idea) ideas).
      { clear - Hall. induction Hall as [|entry idea' ? ? Hentry _ IH]; constructor;
          [exact (enriched_entry_quotable _ _ Hentry) | exact IH]. }
      apply (top_competitors_of_quotable _ _ ideas Hread).
      + apply dict_get_set_eq.
      + refine (List.Forall_impl _ _ Hboth). tauto.
      + refine (List.Forall_impl _ _ Hboth). tauto.
    - exists []. split; [|constructor].
      unfold ValidatorAgent.top_competitors_of, loads. rewrite Hread. reflexivity. }
  destruct Htop as (top & -> & Hquotable). cbv iota beta.
  rewrite bind_run, lift_run, (competitor_context_quotable _ Hquotable).
  rewrite bind_run.
  destruct (validator_attempts_total max_retries (range max_retries) None None w1)
    as (r & w2 & -> & _).
  destruct r; rewrite ret_run; eexists _, _; reflexivity.
Qed.

End ValidatorSafe.

(** The competitor search and the validation are both answered at the
    first request. *)
Lemma validator_does_not_raise_witness :
  let w := Reference.world_of Examples.idea_files
             [Examples.ok Examples.ideas_text; Examples.ok Examples.scores_text] in
  exists (out : string) (w' : Py.world),
    ValidatorAgent.query_mistral (rt := Reference.runtime) Examples.validator 3 w
    = (Py.Ok out, w').
Proof.
  intros w.
  apply (validator_does_not_raise (rt := Reference.runtime) Examples.validator 3 w
           Examples.idea_text).
  - reflexivity.
  - intros res w1 Hloop. vm_compute in Hloop. injection Hloop as <- <-.
    vm_compute. reflexivity.
Defined.

(* ===================================================================== *)
(** * IdeaValidator: the retry policy of its own loop *)
(* ===================================================================== *)

Section ValidatorRetry.
Import Json Py JsonRepair Retry ValidatorAgent Spec.
Context {rt : Runtime}.

Lemma validator_body_retryable (max_retries : Z) (attempt : nat) (w : world)
  (m : string) (b : backoff) :
  validator_failure (provider w (calls w)) m b ->
  exists (assigned : option json) (w' : world),
    attempt_body max_retries attempt w = (Ok (Continue m, assigned), w')
    /\ calls w' = S (calls w)
    /\ trace w' = (trace w ++ Post :: (if (Z.of_nat attempt <? max_retries - 1)%Z
                                      then [Sleep (delay b attempt)] else []))%list
    /\ provider w' = provider w.
Proof.
  intros Hf. inversion Hf as [m' Hp | r Hs Hp | r e Hs Hraise Hp]; subst.
  - symmetry in Hp. rewrite (validator_body_fails _ _ _ _ Hp). eexists _, _.
    split; [reflexivity|].
    unfold after_failure. destruct (_ <? _)%Z; simpl; rewrite <- ?app_assoc; auto.
  - symmetry in Hp. rewrite (validator_body_429 _ _ _ _ Hp Hs). eexists _, _.
    split; [reflexivity|].
    unfold after_failure. destruct (_ <? _)%Z; simpl; rewrite <- ?app_assoc; auto.
  - symmetry in Hp. rewrite (validator_body_200 _ _ _ _ Hp Hs).
    destruct (handle_ok r) as [assigned res]. simpl in Hraise. subst res.
    eexists _, _. split; [reflexivity|].
    unfold after_failure. destruct (_ <? _)%Z; simpl; rewrite <- ?app_assoc; auto.
Qed.

Lemma validator_attempts_all_fail (max_retries : Z)
  (failures : list (string * backoff)) (attempt : nat)
  (last_error : option string) (response_content : option json) (w : world) :
  (forall (i : nat) (f : string * backoff),
      failures !! i = Some f ->
      validator_failure (provider w (calls w + i)) (fst f) (snd f)) ->
  exists (raw : option json) (w' : world),
    attempts max_retries (seq attempt (length failures)) last_error
      response_content w
    = (Ok (Exhausted (last_error_after last_error failures) raw), w')
    /\ calls w' = (calls w + length failures)%nat
    /\ trace w' = (trace w ++ expected_trace max_retries attempt (map snd failures))%list.
Proof.
  revert attempt last_error response_content w.
  induction failures as [|[m b] failures IH];
    intros attempt last_error response_content w Hall; simpl.
  - eexists _, _. split; [reflexivity|]. rewrite app_nil_r. split; [lia | reflexivity].
  - rewrite bind_run.
    pose proof (Hall 0%nat (m, b) eq_refl) as H0. rewrite Nat.add_0_r in H0. simpl in H0.
    destruct (validator_body_retryable max_retries attempt w m b H0)
      as (assigned & w1 & -> & Hc & Ht & Hp).
    simpl.
    destruct (IH (S attempt) (Some m) (latest assigned response_content) w1)
      as (raw & w' & -> & Hc' & Ht').
    { intros i f Hi. rewrite Hp, Hc.
      replace (S (calls w) + i)%nat with (calls w + S i)%nat by lia.
      apply Hall. exact Hi. }
    eexists _, _. split; [reflexivity|].
    rewrite Ht', Ht, Hc', Hc. rewrite <- !app_assoc. simpl. split; [lia | reflexivity].
Qed.

(** The loop of [ValidatorAgent.query_mistral] follows the retry policy
    of the scraper. Once the competitor search is done, when each of the
    [max_retries] outcomes of the provider is a retryable failure, the
    loop makes exactly [max_retries] posts; the failed pass [i] is
    followed by a sleep of [2 ^ i] seconds after an unusable body and
    after a status 429, and of one second after an exception of the
    transport, except that nothing follows the last pass; and the
    document returned has the six scores and the overall score at 0, and
    an [error] that carries the last error. *)
Theorem validator_retry_policy (self : agent) (max_retries : Z) (w w1 : world)
  (top_competitors : list json) (failures : list (string * backoff)) :
  _analyze_competitors self w = (Ok top_competitors, w1) ->
  competitor_context top_competitors = Ok tt ->
  length failures = Z.to_nat max_retries ->
  (forall (i : nat) (f : string * backoff),
      failures !! i = Some f ->
      validator_failure (provider w1 (calls w1 + i)) (fst f) (snd f)) ->
  exists (raw : json) (w' : world),
    query_mistral self max_retries w
    = (Ok (json_dumps
             (JDict
                [ ("validation_scores",
                   JDict [ ("uniqueness", JInt 0); ("feasibility", JInt 0);
                           ("market_trend", JInt 0); ("scalability", JInt 0);
                           ("problem_relevance", JInt 0);
                           ("user_adoption_potential", JInt 0) ]);
                  ("overall_score", JInt 0);
                  ("error",
                   JStr ("Failed to get valid validation scores after "
                           ++ PyStr.str_of_int max_retries
                           ++ " attempts. Last error: "
                           ++ show_last_error (last_error_after None failures)));
                  ("raw_response", raw) ])),
       w')
    /\ calls w' = (calls w1 + Z.to_nat max_retries)%nat
    /\ trace w'
       = (trace w1 ++ expected_trace max_retries 0 (map snd failures))%list.
Proof.
  intros Hfirst Hcontext Hlen Hall. unfold query_mistral.
  rewrite bind_run, Hfirst, bind_run, lift_run, Hcontext, bind_run.
  unfold range. rewrite <- Hlen.
  destruct (validator_attempts_all_fail max_retries failures 0 None None w1 Hall)
    as (raw & w' & -> & Hc & Ht).
  exists (match raw with Some c => c | None => JNull end), w'.
  rewrite ret_run. split; [reflexivity|]. split; assumption.
Qed.

End ValidatorRetry.

(** The competitor search is answered at once; the validator then gets a
    text without JSON, a status 429 and a timeout. *)
Lemma validator_retry_policy_witness :
  let script := [ Examples.ok Examples.ideas_text;
                  Examples.ok "no json here";
                  Py.Responds (Py.mkResponse 429 "slow down");
                  Py.Fails "timed out" ] in
  let w := Reference.world_of Examples.idea_files script in
  exists (raw : Json.json) (w' : Py.world),
    ValidatorAgent.query_mistral (rt := Reference.runtime) Examples.validator 3 w
    = (Py.Ok
         (Reference.dumps
            (Json.JDict
               [ ("validation_scores",
                  Json.JDict
                    [ ("uniqueness", Json.JInt 0); ("feasibility", Json.JInt 0);
                      ("market_trend", Json.JInt 0); ("scalability", Json.JInt 0);
                      ("problem_relevance", Json.JInt 0);
                      ("user_adoption_potential", Json.JInt 0) ]);
                 ("overall_score", Json.JInt 0);
                 ("error",
                  Json.JStr
                    "Failed to get valid validation scores after 3 attempts. Last error: timed out");
                 ("raw_response", raw) ])),
       w')
    /\ Py.calls w' = 4%nat
    /\ Py.trace w'
       = [Py.Post; Py.Post; Py.Sleep 1; Py.Post; Py.Sleep 2; Py.Post].
Proof.
  intros script w.
  pose (w1 := Py.mkWorld Examples.idea_files (Reference.scripted script) 1
                (fun _ => 0%Q) 2 [Py.Post]).
  pose (top :=
          [ Json.JDict
              [ ("idea_name", Json.JStr "Wyzant");
                ("idea_description", Json.JStr "Marketplace to learn with a tutor");
                ("similarity", Json.JInt 85);
                ("category", Json.JStr "E-commerce") ];
            Json.JDict
              [ ("idea_name", Json.JStr "Preply");
                ("idea_description", Json.JStr "Language course platform");
                ("category", Json.JStr "Lang");
                ("similarity", Json.JInt 75) ] ]).
  apply (validator_retry_policy (rt := Reference.runtime) Examples.validator 3 w w1 top
           [ ("No valid JSON found in response", Spec.Exponential);
             ("Rate limit exceeded", Spec.Exponential);
             ("timed out", Spec.Flat) ]).
  - vm_compute. reflexivity.
  - reflexivity.
  - reflexivity.
  - intros [|[|[|i]]] f Hf; simpl in Hf; try discriminate; injection Hf as <-.
    + apply (Spec.validator_bad_response
               (Py.mkResponse 200 (Reference.completion "no json here"))
               (Py.mkExn Py.ValueError "No valid JSON found in response")).
      * reflexivity.
      * vm_compute. reflexivity.
    + apply (Spec.validator_rate_limited (Py.mkResponse 429 "slow down")). reflexivity.
    + apply Spec.validator_transport_failure.
Defined.
